(** * EFR32MG1 sleepy end device: a shallow embedding of the firmware's
      application control plane.

    The development follows the layout of the C sources:
    - [Battery]          battery.c   supply-voltage to percentage mapping;
    - [Crc], [Sht31]     sht31.c     CRC-8, sensor read, conversion, fallback;
    - [Button]           button.c    debounce / short / long press machine;
    - [Af]               the stack and attribute-store calls the firmware makes;
    - [App]              app.c       session state machine, attribute updates;
    - [Zcl]              zcl_callbacks.c  Basic cluster bring-up.
    [Float32] and [Datasheet] hold the arithmetic the sensor conversion is
    stated in.  Log output ([APP_LOG] and friends) is not modelled.

    C integers are embedded as [Z] with the wrap-around of their width
    written out ([u8], [u16], [u32]); [float] is IEEE-754 binary32, taken
    from the standard library's [SpecFloat] at precision 24 and maximal
    exponent 128.  Calls into the radio stack, the attribute store and the
    peripherals are recorded in a log, and the values the environment
    hands back (I2C transfer results, ADC samples, stack status) are
    inputs of the model. *)

From Stdlib Require Import ZArith List Bool Lia QArith Qabs String.
From Stdlib Require Import Floats.SpecFloat.
Import ListNotations.
Local Open Scope Z_scope.

(** ** Fixed-width unsigned integers *)

Definition u8 (z : Z) : Z := z mod 256.
Definition u16 (z : Z) : Z := z mod 65536.
Definition u32 (z : Z) : Z := z mod 4294967296.

Definition is_u8 (z : Z) : Prop := 0 <= z < 256.
Definition is_u16 (z : Z) : Prop := 0 <= z < 65536.

(** Check a decidable property on the [n] integers from [z] upwards. *)
Fixpoint forall_from (n : nat) (z : Z) (p : Z -> bool) : bool :=
  match n with
  | O => true
  | S k => if p z then forall_from k (z + 1) p else false
  end.

Definition forall_below (n : Z) (p : Z -> bool) : bool :=
  forall_from (Z.to_nat n) 0 p.

(** ** battery.c *)

Module Battery.

Definition BATTERY_VOLTAGE_MIN_MV : Z := 2000.
Definition BATTERY_VOLTAGE_MAX_MV : Z := 3200.
Definition ADC_RESOLUTION : Z := 4096.
Definition ADC_REF_VOLTAGE_MV : Z := 1250.

(** [battery_read_voltage]: [adcResult] is what [ADC_DataSingleGet]
    returned for the single conversion. *)
Definition battery_read_voltage (adcResult : Z) : Z :=
  let voltage_mv := u32 (u32 (u32 (adcResult * ADC_REF_VOLTAGE_MV) * 3) / ADC_RESOLUTION) in
  u16 voltage_mv.

Definition battery_voltage_to_percentage (voltage_mv : Z) : Z :=
  if voltage_mv >=? BATTERY_VOLTAGE_MAX_MV then 100
  else if voltage_mv <=? BATTERY_VOLTAGE_MIN_MV then 0
  else
    let range := u32 (BATTERY_VOLTAGE_MAX_MV - BATTERY_VOLTAGE_MIN_MV) in
    let delta := u32 (voltage_mv - BATTERY_VOLTAGE_MIN_MV) in
    let percentage := u8 (u32 (delta * 100) / range) in
    percentage.

End Battery.

(** ** sht31.c: CRC *)

Module Crc.

(** One turn of the inner loop of [calculate_crc]. *)
Definition crc_shift (crc : Z) : Z :=
  if Z.land crc 0x80 =? 0
  then u8 (Z.shiftl crc 1)
  else u8 (Z.lxor (Z.shiftl crc 1) 0x31).

(** One turn of the outer loop: fold the byte in, then eight shifts. *)
Definition crc_update (crc d : Z) : Z :=
  Nat.iter 8 crc_shift (u8 (Z.lxor crc d)).

(** [calculate_crc(data, len)]: the list holds the [len] bytes at [data]. *)
Definition calculate_crc (data : list Z) : Z :=
  fold_left crc_update data 0xFF.

(** *** The CRC as the specification words it

    A parametrised CRC-8: generator polynomial, initial register, whether
    input bytes and the output are bit-reflected, and the final XOR.  The
    register is fed one message bit at a time. *)

Record crc8_model := {
  poly : Z;
  init : Z;
  refin : bool;
  refout : bool;
  xorout : Z
}.

Definition bits_msb_first (d : Z) : list bool :=
  map (Z.testbit d) [7; 6; 5; 4; 3; 2; 1; 0].

Definition bits_lsb_first (d : Z) : list bool := rev (bits_msb_first d).

Definition reflect8 (d : Z) : Z :=
  fold_left (fun acc b => 2 * acc + Z.b2z b) (bits_lsb_first d) 0.

(** Feed one message bit: the bit leaving the register, XORed with the
    message bit, decides whether the polynomial is subtracted. *)
Definition feed_bit (m : crc8_model) (reg : Z) (b : bool) : Z :=
  let top := xorb (Z.testbit reg 7) b in
  let reg' := (2 * reg) mod 256 in
  if top then Z.lxor reg' (poly m) else reg'.

Definition message_bits (m : crc8_model) (data : list Z) : list bool :=
  flat_map (if refin m then bits_lsb_first else bits_msb_first) data.

Definition crc8_spec (m : crc8_model) (data : list Z) : Z :=
  let reg := fold_left (feed_bit m) (message_bits m data) (init m) in
  Z.lxor (if refout m then reflect8 reg else reg) (xorout m).

(** Polynomial 0x31, initial value 0xFF, MSB-first, no reflection, no
    final XOR. *)
Definition sht31_crc : crc8_model :=
  {| poly := 0x31; init := 0xFF; refin := false; refout := false; xorout := 0 |}.

End Crc.

(** ** sht31.c: binary32 arithmetic *)

Module Float32.

Definition prec : Z := 24.
Definition emax : Z := 128.

(** Conversion of a C integer to [float] (round to nearest even). *)
Definition of_int (n : Z) : spec_float := binary_normalize prec emax n 0 false.

Definition add : spec_float -> spec_float -> spec_float := SFadd prec emax.
Definition mul : spec_float -> spec_float -> spec_float := SFmul prec emax.
Definition div : spec_float -> spec_float -> spec_float := SFdiv prec emax.
Definition ltb : spec_float -> spec_float -> bool := SFltb.

Definition is_finite (f : spec_float) : bool :=
  match f with
  | S754_zero _ | S754_finite _ _ _ => true
  | _ => false
  end.

(** The rational a finite float denotes: [(-1)^s * m * 2^e]. *)
Definition to_Q (f : spec_float) : Q :=
  match f with
  | S754_finite s m e =>
      let n := if s then Z.neg m else Z.pos m in
      match e with
      | Z0 => n # 1
      | Z.pos k => (n * Z.pow_pos 2 k) # 1
      | Z.neg k => n # (Pos.pow 2 k)
      end
  | _ => 0 # 1
  end.

End Float32.

(** ** sht31.c: the driver *)

Module Sht31.

Definition SHT31_CMD_READ_MSB : Z := 0x24.
Definition SHT31_CMD_READ_LSB : Z := 0x00.
Definition SHT31_CMD_SOFT_RESET_MSB : Z := 0x30.
Definition SHT31_CMD_SOFT_RESET_LSB : Z := 0xA2.
Definition SHT31_MEASURE_DELAY_MS : Z := 20.

(** What the driver stores through its two [float *] out-parameters.  The
    synthetic signal goes through [sinf] of the C library, which is kept
    symbolic: [FallbackTemperature n] is [22.5f + 2.5f * sinf(n * 0.1f)]
    and [FallbackHumidity n] is [50.0f + 10.0f * sinf(n * 0.15f + 1.57f)],
    for the fallback counter [n]. *)
Inductive value :=
| Float (f : spec_float)
| FallbackTemperature (n : Z)
| FallbackHumidity (n : Z).

(** The two file-scope variables. *)
Record driver := {
  sensorPresent : bool;
  fallbackReadCount : Z
}.

Definition driver_init : driver :=
  {| sensorPresent := false; fallbackReadCount := 0 |}.

(** Operations the driver performs on the bus, in program order. *)
Inductive bus_op :=
| I2cWrite (msb lsb : Z)
| I2cRead (len : Z)
| DelayMs (ms : Z).

(** What the bus answers during one call: whether [i2c_write_command]
    ends with [i2cTransferDone], and the bytes [i2c_read_data] delivers
    ([None] when that transfer does not end with [i2cTransferDone]). *)
Record bus := {
  write_done : bool;
  read_done : option (list Z)
}.

Record outcome := {
  real : bool;
  temperature_c : value;
  humidity_rh : value;
  after : driver;
  ops : list bus_op
}.

Definition generate_fallback_values (d : driver) : driver * value * value :=
  let n := u32 (fallbackReadCount d + 1) in
  ({| sensorPresent := sensorPresent d; fallbackReadCount := n |},
   FallbackTemperature n, FallbackHumidity n).

Definition fallback (d : driver) (done : list bus_op) : outcome :=
  let '(d', t, h) := generate_fallback_values d in
  {| real := false; temperature_c := t; humidity_rh := h;
     after := d'; ops := done |}.

Definition set_absent (d : driver) : driver :=
  {| sensorPresent := false; fallbackReadCount := fallbackReadCount d |}.

Definition temperature_of_raw (temp_raw : Z) : spec_float :=
  Float32.add (Float32.of_int (-45))
    (Float32.div (Float32.mul (Float32.of_int 175) (Float32.of_int temp_raw))
                 (Float32.of_int 65535)).

Definition humidity_of_raw (hum_raw : Z) : spec_float :=
  let h := Float32.div (Float32.mul (Float32.of_int 100) (Float32.of_int hum_raw))
                       (Float32.of_int 65535) in
  let h := if Float32.ltb h (Float32.of_int 0) then Float32.of_int 0 else h in
  let h := if Float32.ltb (Float32.of_int 100) h then Float32.of_int 100 else h in
  h.

Definition sht31_read (d : driver) (b : bus) : outcome :=
  if negb (sensorPresent d) then fallback d []
  else
    let cmd := I2cWrite SHT31_CMD_READ_MSB SHT31_CMD_READ_LSB in
    if negb (write_done b) then fallback (set_absent d) [cmd]
    else
      let done := [cmd; DelayMs SHT31_MEASURE_DELAY_MS; I2cRead 6] in
      match read_done b with
      | None => fallback (set_absent d) done
      | Some data =>
          let temp_crc := Crc.calculate_crc (firstn 2 data) in
          if negb (temp_crc =? nth 2 data 0) then fallback d done
          else
            let hum_crc := Crc.calculate_crc (firstn 2 (skipn 3 data)) in
            if negb (hum_crc =? nth 5 data 0) then fallback d done
            else
              let temp_raw := u16 (Z.lor (Z.shiftl (nth 0 data 0) 8) (nth 1 data 0)) in
              let hum_raw := u16 (Z.lor (Z.shiftl (nth 3 data 0) 8) (nth 4 data 0)) in
              {| real := true;
                 temperature_c := Float (temperature_of_raw temp_raw);
                 humidity_rh := Float (humidity_of_raw hum_raw);
                 after := d;
                 ops := done |}
      end.

(** [sht31_init]: [reset_done] is the result of the soft-reset write. *)
Definition sht31_init (reset_done : bool) (d : driver) : driver * bool * list bus_op :=
  ({| sensorPresent := reset_done; fallbackReadCount := fallbackReadCount d |},
   reset_done,
   [DelayMs 10; I2cWrite SHT31_CMD_SOFT_RESET_MSB SHT31_CMD_SOFT_RESET_LSB]).

Definition sht31_is_present (d : driver) : bool := sensorPresent d.

(** A session of the driver after [sht31_init]: a sequence of reads, each
    with the answers of the bus at that time. *)
Fixpoint reads (d : driver) (bs : list bus) : list outcome :=
  match bs with
  | [] => []
  | b :: rest => let o := sht31_read d b in o :: reads (after o) rest
  end.

End Sht31.

(** ** The datasheet's conversion, in exact arithmetic *)

Module Datasheet.

Definition clamp (q lo hi : Q) : Q :=
  if Qle_bool q lo then lo else if Qle_bool hi q then hi else q.

(** [t_c = -45 + 175 * T_raw / 65535] *)
Definition temperature (T_raw : Z) : Q := (-45 # 1) + (175 * T_raw # 65535).

(** [h = clamp(100 * H_raw / 65535, 0, 100)] *)
Definition humidity (H_raw : Z) : Q := clamp (100 * H_raw # 65535) (0 # 1) (100 # 1).

End Datasheet.

(** ** button.c *)

Module Button.

Definition BUTTON_DEBOUNCE_MS : Z := 50.
Definition BUTTON_LONG_PRESS_MS : Z := 3000.

Inductive ButtonState_t :=
| BUTTON_STATE_IDLE
| BUTTON_STATE_DEBOUNCE_PRESS
| BUTTON_STATE_PRESSED
| BUTTON_STATE_DEBOUNCE_RELEASE
| BUTTON_STATE_LONG_PRESS_TRIGGERED.

Record ButtonContext_t := {
  state : ButtonState_t;
  pressTimestamp : Z;
  releaseTimestamp : Z;
  interruptPending : bool;
  longPressTriggered : bool
}.

Definition buttonContext_init : ButtonContext_t :=
  {| state := BUTTON_STATE_IDLE; pressTimestamp := 0; releaseTimestamp := 0;
     interruptPending := false; longPressTriggered := false |}.

(** The two application callbacks the state machine invokes. *)
Inductive callback := short_press | long_press.

Definition set_state (s : ButtonState_t) (b : ButtonContext_t) :=
  {| state := s; pressTimestamp := pressTimestamp b;
     releaseTimestamp := releaseTimestamp b;
     interruptPending := interruptPending b;
     longPressTriggered := longPressTriggered b |}.

Definition set_pressTimestamp (t : Z) (b : ButtonContext_t) :=
  {| state := state b; pressTimestamp := t;
     releaseTimestamp := releaseTimestamp b;
     interruptPending := interruptPending b;
     longPressTriggered := longPressTriggered b |}.

Definition set_releaseTimestamp (t : Z) (b : ButtonContext_t) :=
  {| state := state b; pressTimestamp := pressTimestamp b;
     releaseTimestamp := t;
     interruptPending := interruptPending b;
     longPressTriggered := longPressTriggered b |}.

Definition set_interruptPending (p : bool) (b : ButtonContext_t) :=
  {| state := state b; pressTimestamp := pressTimestamp b;
     releaseTimestamp := releaseTimestamp b;
     interruptPending := p;
     longPressTriggered := longPressTriggered b |}.

Definition set_longPressTriggered (l : bool) (b : ButtonContext_t) :=
  {| state := state b; pressTimestamp := pressTimestamp b;
     releaseTimestamp := releaseTimestamp b;
     interruptPending := interruptPending b;
     longPressTriggered := l |}.

(** The interrupt handler, run on both edges. *)
Definition button_gpio_callback (b : ButtonContext_t) : ButtonContext_t :=
  set_interruptPending true b.

(** [button_process]: [ms] is the sleeptimer's millisecond count and
    [pressed] what [is_button_physically_pressed] reads during the call. *)
Definition button_process (ms : Z) (pressed : bool) (b : ButtonContext_t)
  : ButtonContext_t * list callback :=
  let currentTime := u32 ms in
  match state b with
  | BUTTON_STATE_IDLE =>
      if interruptPending b then
        let b := set_interruptPending false b in
        if pressed then
          (set_pressTimestamp currentTime (set_state BUTTON_STATE_DEBOUNCE_PRESS b), [])
        else (b, [])
      else (b, [])
  | BUTTON_STATE_DEBOUNCE_PRESS =>
      if u32 (currentTime - pressTimestamp b) >=? BUTTON_DEBOUNCE_MS then
        if pressed then
          (set_longPressTriggered false (set_state BUTTON_STATE_PRESSED b), [])
        else (set_state BUTTON_STATE_IDLE b, [])
      else (b, [])
  | BUTTON_STATE_PRESSED =>
      let b :=
        if interruptPending b then
          let b := set_interruptPending false b in
          if negb pressed then
            set_releaseTimestamp currentTime (set_state BUTTON_STATE_DEBOUNCE_RELEASE b)
          else b
        else b in
      let pressedDuration := u32 (currentTime - pressTimestamp b) in
      if negb (longPressTriggered b) && (pressedDuration >=? BUTTON_LONG_PRESS_MS) then
        (set_state BUTTON_STATE_LONG_PRESS_TRIGGERED (set_longPressTriggered true b),
         [long_press])
      else (b, [])
  | BUTTON_STATE_DEBOUNCE_RELEASE =>
      if u32 (currentTime - releaseTimestamp b) >=? BUTTON_DEBOUNCE_MS then
        if negb pressed then
          let out := if negb (longPressTriggered b) then [short_press] else [] in
          (set_state BUTTON_STATE_IDLE b, out)
        else (set_state BUTTON_STATE_PRESSED b, [])
      else (b, [])
  | BUTTON_STATE_LONG_PRESS_TRIGGERED =>
      if interruptPending b then
        let b := set_interruptPending false b in
        if negb pressed then
          (set_releaseTimestamp currentTime (set_state BUTTON_STATE_DEBOUNCE_RELEASE b), [])
        else (b, [])
      else (b, [])
  end.

(** *** The button on the board

    The pin and the driver together: a physical press or release changes
    the pin level and raises the edge interrupt; a pass of the main loop
    at millisecond [ms] calls [button_process]. *)

Inductive input :=
| Press
| Release
| Loop (ms : Z).

Record board := {
  held : bool;
  ctx : ButtonContext_t
}.

Definition board_init : board := {| held := false; ctx := buttonContext_init |}.

Definition step (bd : board) (i : input) : board * list callback :=
  match i with
  | Press => ({| held := true; ctx := button_gpio_callback (ctx bd) |}, [])
  | Release => ({| held := false; ctx := button_gpio_callback (ctx bd) |}, [])
  | Loop ms =>
      let '(c, out) := button_process ms (held bd) (ctx bd) in
      ({| held := held bd; ctx := c |}, out)
  end.

(** Run a trace; the result lists what each input made the driver emit. *)
Fixpoint run (bd : board) (tr : list input) : board * list (list callback) :=
  match tr with
  | [] => (bd, [])
  | i :: rest =>
      let '(bd', out) := step bd i in
      let '(bd'', outs) := run bd' rest in
      (bd'', out :: outs)
  end.

End Button.

(** ** The application framework, as the firmware uses it *)

Module Af.

(** Modelled from the spec: the SDK's [EmberStatus] codes are declared
    outside the repository; the firmware distinguishes success, the three
    stack notifications NETWORK_UP, NETWORK_DOWN and JOIN_FAILED, and any
    other code. *)
Inductive EmberStatus :=
| EMBER_SUCCESS
| EMBER_NETWORK_UP
| EMBER_NETWORK_DOWN
| EMBER_JOIN_FAILED
| EMBER_OTHER_STATUS.

(** Modelled from the spec: [network_state()] is JOINED or not; the
    firmware only ever compares [emberAfNetworkState()] with
    [EMBER_JOINED_NETWORK]. *)
Inductive EmberNetworkStatus :=
| EMBER_JOINED_NETWORK
| EMBER_NOT_JOINED.

(** Modelled from the spec: the power-source enumeration of the cluster
    library, declared outside the repository: single-phase mains is 0x01
    and battery is 0x03. *)
Definition EMBER_ZCL_POWER_SOURCE_SINGLE_PHASE_MAINS : Z := 0x01.
Definition EMBER_ZCL_POWER_SOURCE_BATTERY : Z := 0x03.

Inductive cluster :=
| ZCL_BASIC_CLUSTER_ID
| ZCL_POWER_CONFIG_CLUSTER_ID
| ZCL_TEMP_MEASUREMENT_CLUSTER_ID
| ZCL_RELATIVE_HUMIDITY_MEASUREMENT_CLUSTER_ID.

Inductive attribute :=
| ZCL_MANUFACTURER_NAME_ATTRIBUTE_ID
| ZCL_MODEL_IDENTIFIER_ATTRIBUTE_ID
| ZCL_DATE_CODE_ATTRIBUTE_ID
| ZCL_SW_BUILD_ID_ATTRIBUTE_ID
| ZCL_HW_VERSION_ATTRIBUTE_ID
| ZCL_ZCL_VERSION_ATTRIBUTE_ID
| ZCL_POWER_SOURCE_ATTRIBUTE_ID
| ZCL_BATTERY_VOLTAGE_ATTRIBUTE_ID
| ZCL_BATTERY_PERCENTAGE_REMAINING_ATTRIBUTE_ID
| ZCL_TEMP_MEASURED_VALUE_ATTRIBUTE_ID
| ZCL_RELATIVE_HUMIDITY_MEASURED_VALUE_ATTRIBUTE_ID.

Inductive attribute_type :=
| ZCL_CHAR_STRING_ATTRIBUTE_TYPE
| ZCL_INT8U_ATTRIBUTE_TYPE
| ZCL_ENUM8_ATTRIBUTE_TYPE
| ZCL_INT16S_ATTRIBUTE_TYPE
| ZCL_INT16U_ATTRIBUTE_TYPE.

(** The bytes handed to [emberAfWriteServerAttribute]: a one-byte
    integer, a string, or a sensor value scaled by 100 and cast to a
    16-bit integer. *)
Inductive payload :=
| Byte (v : Z)
| Chars (s : string)
| Centi (v : Sht31.value).

Inductive timer := sensorTimer | fastPollTimer.

(** Calls that leave the application, in program order. *)
Inductive call :=
| emberAfSetWakeTimeoutQsCallback (qs : Z)
| emberAfAddToCurrentAppTasksCallback
| emberAfRemoveFromCurrentAppTasksCallback
| emberAfPluginNetworkSteeringStart
| emberLeaveNetwork
| sl_sleeptimer_start_timer_ms (t : timer) (ms : Z)
| sl_sleeptimer_start_periodic_timer_ms (t : timer) (ms : Z)
| emberAfWriteServerAttribute
    (endpoint : Z) (c : cluster) (a : attribute) (p : payload) (ty : attribute_type)
| sl_led_toggle
| sensor_bus (op : Sht31.bus_op)
| ADC_Start.

Definition eq_attribute_dec (a b : attribute) : {a = b} + {a <> b}.
Proof. decide equality. Defined.

Definition writes_attribute (a : attribute) (c : call) : bool :=
  match c with
  | emberAfWriteServerAttribute _ _ a' _ _ =>
      if eq_attribute_dec a a' then true else false
  | _ => false
  end.

(** The bytes written to one attribute, in order. *)
Definition written (a : attribute) (cs : list call) : list payload :=
  flat_map (fun c =>
    match c with
    | emberAfWriteServerAttribute _ _ a' p _ =>
        if eq_attribute_dec a a' then [p] else []
    | _ => []
    end) cs.

Arguments written : simpl never.

Definition is_stack_write (c : call) : bool :=
  match c with
  | emberAfSetWakeTimeoutQsCallback _
  | emberAfAddToCurrentAppTasksCallback
  | emberAfRemoveFromCurrentAppTasksCallback => true
  | _ => false
  end.

End Af.

(** ** app.c *)

Module App.
Import Af.

Definition APP_ENDPOINT : Z := 1.
Definition APP_SENSOR_READ_PERIOD_MS : Z := 10000.
Definition APP_FAST_POLL_TIMEOUT_MS : Z := 30000.
Definition APP_FAST_POLL_INTERVAL_QS : Z := 2.
Definition APP_NORMAL_POLL_INTERVAL_QS : Z := 30.

Inductive AppState_t :=
| APP_STATE_INIT
| APP_STATE_NOT_JOINED
| APP_STATE_JOINING
| APP_STATE_JOINED_FAST_POLL
| APP_STATE_JOINED_NORMAL
| APP_STATE_LEAVING.

Definition AppState_eqb (a b : AppState_t) : bool :=
  match a, b with
  | APP_STATE_INIT, APP_STATE_INIT
  | APP_STATE_NOT_JOINED, APP_STATE_NOT_JOINED
  | APP_STATE_JOINING, APP_STATE_JOINING
  | APP_STATE_JOINED_FAST_POLL, APP_STATE_JOINED_FAST_POLL
  | APP_STATE_JOINED_NORMAL, APP_STATE_JOINED_NORMAL
  | APP_STATE_LEAVING, APP_STATE_LEAVING => true
  | _, _ => false
  end.

Record AppContext_t := {
  state : AppState_t;
  fastPollActive : bool;
  joinTimestamp : Z;
  joinAttempts : Z;
  sensorInitialized : bool;
  buttonPressed : bool
}.

Definition appContext_init : AppContext_t :=
  {| state := APP_STATE_INIT; fastPollActive := false; joinTimestamp := 0;
     joinAttempts := 0; sensorInitialized := false; buttonPressed := false |}.

(** The firmware's mutable state: the three file-scope contexts, and the
    log of calls made so far (most recent last). *)
Record world := {
  appContext : AppContext_t;
  sensor : Sht31.driver;
  buttonContext : Button.ButtonContext_t;
  calls : list call
}.

Definition world_init : world :=
  {| appContext := appContext_init; sensor := Sht31.driver_init;
     buttonContext := Button.buttonContext_init; calls := [] |}.

(** What the environment answers while one event is handled.  The stack
    and the peripherals are synchronous and the firmware is
    single-threaded, so [emberAfNetworkState] has one answer per event. *)
Record env := {
  network_state : EmberNetworkStatus;   (* emberAfNetworkState() *)
  steering_status : EmberStatus;        (* emberAfPluginNetworkSteeringStart() *)
  leave_status : EmberStatus;           (* emberLeaveNetwork(); only logged *)
  reset_done : bool;                    (* soft reset write in sht31_init *)
  i2c : Sht31.bus;                      (* transfers of sht31_read *)
  adc_result : Z;                       (* ADC_DataSingleGet(ADC0) *)
  tick_ms : Z;                          (* millisecond count of the clock *)
  pin_pressed : bool                    (* button pin reads low *)
}.

(** *** A reader-and-state monad for the firmware's procedures *)

Definition M (A : Type) : Type := env -> world -> A * world.

Definition ret {A} (a : A) : M A := fun _ w => (a, w).

Definition bind {A B} (m : M A) (k : A -> M B) : M B :=
  fun e w => let '(a, w') := m e w in k a e w'.

Notation "x <- m ;; k" := (bind m (fun x => k))
  (at level 61, m at next level, right associativity).
Notation "m ;; k" := (bind m (fun _ => k))
  (at level 61, right associativity).

Definition ask : M env := fun e w => (e, w).
Definition get : M AppContext_t := fun _ w => (appContext w, w).

Definition put (c : AppContext_t) : M unit :=
  fun _ w => (tt, {| appContext := c; sensor := sensor w;
                     buttonContext := buttonContext w; calls := calls w |}).

Definition emit (cs : list call) : M unit :=
  fun _ w => (tt, {| appContext := appContext w; sensor := sensor w;
                     buttonContext := buttonContext w;
                     calls := calls w ++ cs |}).

Definition get_sensor : M Sht31.driver := fun _ w => (sensor w, w).

Definition put_sensor (d : Sht31.driver) : M unit :=
  fun _ w => (tt, {| appContext := appContext w; sensor := d;
                     buttonContext := buttonContext w; calls := calls w |}).

Definition get_button : M Button.ButtonContext_t :=
  fun _ w => (buttonContext w, w).

Definition put_button (b : Button.ButtonContext_t) : M unit :=
  fun _ w => (tt, {| appContext := appContext w; sensor := sensor w;
                     buttonContext := b; calls := calls w |}).

Definition when (b : bool) (m : M unit) : M unit := if b then m else ret tt.

Definition exec {A} (m : M A) (e : env) (w : world) : world := snd (m e w).

(** Field assignments on [appContext]. *)
Definition set_state (s : AppState_t) : M unit :=
  c <- get ;;
  put {| state := s; fastPollActive := fastPollActive c;
         joinTimestamp := joinTimestamp c; joinAttempts := joinAttempts c;
         sensorInitialized := sensorInitialized c;
         buttonPressed := buttonPressed c |}.

Definition set_fastPollActive (b : bool) : M unit :=
  c <- get ;;
  put {| state := state c; fastPollActive := b;
         joinTimestamp := joinTimestamp c; joinAttempts := joinAttempts c;
         sensorInitialized := sensorInitialized c;
         buttonPressed := buttonPressed c |}.

Definition set_joinTimestamp (t : Z) : M unit :=
  c <- get ;;
  put {| state := state c; fastPollActive := fastPollActive c;
         joinTimestamp := t; joinAttempts := joinAttempts c;
         sensorInitialized := sensorInitialized c;
         buttonPressed := buttonPressed c |}.

Definition set_joinAttempts (n : Z) : M unit :=
  c <- get ;;
  put {| state := state c; fastPollActive := fastPollActive c;
         joinTimestamp := joinTimestamp c; joinAttempts := n;
         sensorInitialized := sensorInitialized c;
         buttonPressed := buttonPressed c |}.

Definition set_sensorInitialized (b : bool) : M unit :=
  c <- get ;;
  put {| state := state c; fastPollActive := fastPollActive c;
         joinTimestamp := joinTimestamp c; joinAttempts := joinAttempts c;
         sensorInitialized := b;
         buttonPressed := buttonPressed c |}.

(** Calls into the stack and the drivers. *)
Definition emberAfNetworkState : M EmberNetworkStatus :=
  e <- ask ;; ret (network_state e).

Definition network_joined : M bool :=
  s <- emberAfNetworkState ;;
  ret (match s with EMBER_JOINED_NETWORK => true | _ => false end).

Definition is_success (s : EmberStatus) : bool :=
  match s with EMBER_SUCCESS => true | _ => false end.

Definition sht31_read : M Sht31.outcome :=
  e <- ask ;;
  d <- get_sensor ;;
  let o := Sht31.sht31_read d (i2c e) in
  put_sensor (Sht31.after o) ;;
  emit (map sensor_bus (Sht31.ops o)) ;;
  ret o.

Definition sht31_init : M bool :=
  e <- ask ;;
  d <- get_sensor ;;
  let '(d', present, done) := Sht31.sht31_init (reset_done e) d in
  put_sensor d' ;;
  emit (map sensor_bus done) ;;
  ret present.

Definition battery_read_voltage : M Z :=
  e <- ask ;;
  emit [ADC_Start] ;;
  ret (Battery.battery_read_voltage (adc_result e)).

(** *** The procedures of app.c *)

Definition app_set_fast_poll (enable : bool) : M unit :=
  c <- get ;;
  if enable && negb (fastPollActive c) then
    emit [emberAfSetWakeTimeoutQsCallback APP_FAST_POLL_INTERVAL_QS] ;;
    emit [emberAfAddToCurrentAppTasksCallback] ;;
    set_fastPollActive true
  else if negb enable && fastPollActive c then
    emit [emberAfSetWakeTimeoutQsCallback APP_NORMAL_POLL_INTERVAL_QS] ;;
    emit [emberAfRemoveFromCurrentAppTasksCallback] ;;
    set_fastPollActive false
  else ret tt.

Definition emberAfPluginNetworkSteeringCompleteCallback
    (status : EmberStatus) (totalBeacons joinAttempts' finalState : Z) : M unit :=
  if is_success status then
    set_state APP_STATE_JOINED_FAST_POLL ;;
    e <- ask ;;
    set_joinTimestamp (u32 (tick_ms e)) ;;
    app_set_fast_poll true ;;
    emit [sl_sleeptimer_start_timer_ms fastPollTimer APP_FAST_POLL_TIMEOUT_MS]
  else
    set_state APP_STATE_NOT_JOINED ;;
    c <- get ;;
    set_joinAttempts (u8 (joinAttempts c + 1)).

Definition app_update_sensor_data : M unit :=
  o <- sht31_read ;;
  c <- get ;;
  if Sht31.real o || negb (sensorInitialized c) then
    emit [emberAfWriteServerAttribute APP_ENDPOINT
            ZCL_TEMP_MEASUREMENT_CLUSTER_ID
            ZCL_TEMP_MEASURED_VALUE_ATTRIBUTE_ID
            (Centi (Sht31.temperature_c o))
            ZCL_INT16S_ATTRIBUTE_TYPE] ;;
    emit [emberAfWriteServerAttribute APP_ENDPOINT
            ZCL_RELATIVE_HUMIDITY_MEASUREMENT_CLUSTER_ID
            ZCL_RELATIVE_HUMIDITY_MEASURED_VALUE_ATTRIBUTE_ID
            (Centi (Sht31.humidity_rh o))
            ZCL_INT16U_ATTRIBUTE_TYPE]
  else ret tt.

Definition app_update_battery_data : M unit :=
  voltage_mv <- battery_read_voltage ;;
  let percentage := Battery.battery_voltage_to_percentage voltage_mv in
  let battery_voltage := u8 (voltage_mv / 100) in
  let battery_percentage := u8 (percentage * 2) in
  emit [emberAfWriteServerAttribute APP_ENDPOINT
          ZCL_POWER_CONFIG_CLUSTER_ID
          ZCL_BATTERY_VOLTAGE_ATTRIBUTE_ID
          (Byte battery_voltage) ZCL_INT8U_ATTRIBUTE_TYPE] ;;
  emit [emberAfWriteServerAttribute APP_ENDPOINT
          ZCL_POWER_CONFIG_CLUSTER_ID
          ZCL_BATTERY_PERCENTAGE_REMAINING_ATTRIBUTE_ID
          (Byte battery_percentage) ZCL_INT8U_ATTRIBUTE_TYPE].

(** [app_init]; [button_init] and [battery_init] only configure
    peripherals and leave the three contexts alone. *)
Definition app_init : M unit :=
  present <- sht31_init ;;
  set_sensorInitialized present ;;
  emit [sl_sleeptimer_start_periodic_timer_ms sensorTimer APP_SENSOR_READ_PERIOD_MS] ;;
  joined <- network_joined ;;
  if joined then
    set_state APP_STATE_JOINED_NORMAL ;;
    app_update_sensor_data ;;
    app_update_battery_data
  else
    set_state APP_STATE_NOT_JOINED.

Definition app_start_join : M unit :=
  c <- get ;;
  if AppState_eqb (state c) APP_STATE_JOINING then ret tt
  else
    joined <- network_joined ;;
    if joined then ret tt
    else
      set_state APP_STATE_JOINING ;;
      emit [emberAfPluginNetworkSteeringStart] ;;
      e <- ask ;;
      if is_success (steering_status e) then ret tt
      else set_state APP_STATE_NOT_JOINED.

Definition app_leave_network : M unit :=
  joined <- network_joined ;;
  if negb joined then ret tt
  else
    set_state APP_STATE_LEAVING ;;
    c <- get ;;
    when (fastPollActive c) (app_set_fast_poll false) ;;
    emit [emberLeaveNetwork].

Definition app_trigger_sensor_read : M unit :=
  app_update_sensor_data ;;
  app_update_battery_data.

Definition is_joined_state (s : AppState_t) : bool :=
  AppState_eqb s APP_STATE_JOINED_FAST_POLL || AppState_eqb s APP_STATE_JOINED_NORMAL.

Definition app_stack_status_callback (status : EmberStatus) : M unit :=
  match status with
  | EMBER_NETWORK_UP =>
      c <- get ;;
      when (negb (AppState_eqb (state c) APP_STATE_JOINED_FAST_POLL) &&
            negb (AppState_eqb (state c) APP_STATE_JOINED_NORMAL))
           (set_state APP_STATE_JOINED_NORMAL)
  | EMBER_NETWORK_DOWN =>
      set_state APP_STATE_NOT_JOINED ;;
      c <- get ;;
      when (fastPollActive c) (app_set_fast_poll false)
  | EMBER_JOIN_FAILED =>
      set_state APP_STATE_NOT_JOINED
  | _ => ret tt
  end.

Definition sensor_timer_callback : M unit :=
  c <- get ;;
  when (is_joined_state (state c))
       (app_update_sensor_data ;; app_update_battery_data).

Definition transition_to_normal_poll : M unit :=
  c <- get ;;
  when (AppState_eqb (state c) APP_STATE_JOINED_FAST_POLL)
       (set_state APP_STATE_JOINED_NORMAL ;; app_set_fast_poll false).

Definition fast_poll_timer_callback : M unit := transition_to_normal_poll.

Definition button_short_press_callback : M unit :=
  c <- get ;;
  if AppState_eqb (state c) APP_STATE_NOT_JOINED then app_start_join
  else if is_joined_state (state c) then
    app_trigger_sensor_read ;;
    emit [sl_led_toggle]
  else ret tt.

Definition button_long_press_callback : M unit :=
  joined <- network_joined ;;
  if joined then app_leave_network else app_start_join.

Definition button_callback (cb : Button.callback) : M unit :=
  match cb with
  | Button.short_press => button_short_press_callback
  | Button.long_press => button_long_press_callback
  end.

Fixpoint button_callbacks (cbs : list Button.callback) : M unit :=
  match cbs with
  | [] => ret tt
  | cb :: rest => button_callback cb ;; button_callbacks rest
  end.

(** [button_process] as linked into the application: the callbacks it
    invokes are the two above.  They neither read nor write
    [buttonContext], so running them after the driver's own update is the
    same as running them from inside it. *)
Definition button_process : M unit :=
  e <- ask ;;
  b <- get_button ;;
  let '(b', cbs) := Button.button_process (tick_ms e) (pin_pressed e) b in
  put_button b' ;;
  button_callbacks cbs.

Definition app_process_action : M unit := button_process.

Definition button_gpio_callback : M unit :=
  b <- get_button ;;
  put_button (Button.button_gpio_callback b).

Definition cli_sensor_read : M unit := app_trigger_sensor_read.
Definition cli_battery_read : M unit := app_update_battery_data.
Definition cli_network_status : M unit := ret tt.

(** *** Sessions

    After boot ([app_init] on the initial state) the firmware is driven
    by events: framework callbacks, timer expiries, the button interrupt
    and CLI commands.  A state between two events is a quiescent point. *)

Inductive event :=
| emberAfMainTickCallback
| emberAfStackStatusCallback (status : EmberStatus)
| NetworkSteeringComplete (status : EmberStatus) (totalBeacons joinAttempts' finalState : Z)
| sensor_timer_expiry
| fast_poll_timer_expiry
| gpio_edge
| button_short_press
| button_long_press
| cli (cmd : string).

Definition handle (ev : event) : M unit :=
  match ev with
  | emberAfMainTickCallback => app_process_action
  | emberAfStackStatusCallback status => app_stack_status_callback status
  | NetworkSteeringComplete status b a f =>
      emberAfPluginNetworkSteeringCompleteCallback status b a f
  | sensor_timer_expiry => sensor_timer_callback
  | fast_poll_timer_expiry => fast_poll_timer_callback
  | gpio_edge => button_gpio_callback
  | button_short_press => button_short_press_callback
  | button_long_press => button_long_press_callback
  | cli cmd =>
      if String.eqb cmd "sensor-read" then cli_sensor_read
      else if String.eqb cmd "battery-read" then cli_battery_read
      else if String.eqb cmd "network-status" then cli_network_status
      else ret tt
  end.

Definition boot (e : env) : world := exec app_init e world_init.

Fixpoint run (w : world) (tr : list (event * env)) : world :=
  match tr with
  | [] => w
  | (ev, e) :: rest => run (exec (handle ev) e w) rest
  end.

(** The states at the quiescent points of a session, boot included. *)
Fixpoint quiescent (w : world) (tr : list (event * env)) : list world :=
  w :: match tr with
       | [] => []
       | (ev, e) :: rest => quiescent (exec (handle ev) e w) rest
       end.

End App.

(** ** zcl_callbacks.c *)

Module Zcl.
Import Af.

Definition APP_MANUFACTURER_NAME : string := "faronov".
Definition APP_MODEL_IDENTIFIER : string := "EFR32MG1-SED-SHT31".
Definition APP_DATE_CODE : string := "20260208".
Definition APP_SW_BUILD_ID : string := "1.0.0".
Definition APP_HW_VERSION : Z := 1.
Definition APP_ZCL_VERSION : Z := 3.

(** The attribute writes of the Basic cluster's init callback, in order. *)
Definition emberAfBasicClusterServerInitCallback (endpoint : Z) : list call :=
  let hwVersion := u8 APP_HW_VERSION in
  let zclVersion := u8 APP_ZCL_VERSION in
  let powerSource := u8 EMBER_ZCL_POWER_SOURCE_SINGLE_PHASE_MAINS in
  [ emberAfWriteServerAttribute endpoint ZCL_BASIC_CLUSTER_ID
      ZCL_MANUFACTURER_NAME_ATTRIBUTE_ID (Chars APP_MANUFACTURER_NAME)
      ZCL_CHAR_STRING_ATTRIBUTE_TYPE;
    emberAfWriteServerAttribute endpoint ZCL_BASIC_CLUSTER_ID
      ZCL_MODEL_IDENTIFIER_ATTRIBUTE_ID (Chars APP_MODEL_IDENTIFIER)
      ZCL_CHAR_STRING_ATTRIBUTE_TYPE;
    emberAfWriteServerAttribute endpoint ZCL_BASIC_CLUSTER_ID
      ZCL_DATE_CODE_ATTRIBUTE_ID (Chars APP_DATE_CODE)
      ZCL_CHAR_STRING_ATTRIBUTE_TYPE;
    emberAfWriteServerAttribute endpoint ZCL_BASIC_CLUSTER_ID
      ZCL_SW_BUILD_ID_ATTRIBUTE_ID (Chars APP_SW_BUILD_ID)
      ZCL_CHAR_STRING_ATTRIBUTE_TYPE;
    emberAfWriteServerAttribute endpoint ZCL_BASIC_CLUSTER_ID
      ZCL_HW_VERSION_ATTRIBUTE_ID (Byte hwVersion)
      ZCL_INT8U_ATTRIBUTE_TYPE;
    emberAfWriteServerAttribute endpoint ZCL_BASIC_CLUSTER_ID
      ZCL_ZCL_VERSION_ATTRIBUTE_ID (Byte zclVersion)
      ZCL_INT8U_ATTRIBUTE_TYPE;
    emberAfWriteServerAttribute endpoint ZCL_BASIC_CLUSTER_ID
      ZCL_POWER_SOURCE_ATTRIBUTE_ID (Byte powerSource)
      ZCL_ENUM8_ATTRIBUTE_TYPE ].

End Zcl.

(** ** Predicates of the statements, checks and sample inputs *)

(** One byte through the source's loop body is eight message bits,
    most significant first, through the bit-serial register. *)
Definition crc_byte_agrees (c d : Z) : bool :=
  Crc.crc_update c d
    =? fold_left (Crc.feed_bit Crc.sht31_crc) (Crc.bits_msb_first d) c.

(** [(hi << 8) | lo] is [hi * 256 + lo] on bytes. *)
Definition raw16_agrees (hi lo : Z) : bool :=
  u16 (Z.lor (Z.shiftl hi 8) lo) =? hi * 256 + lo.

(** The binary32 result is finite, inside the datasheet range and within
    [2^-17] of the exact value, for one raw temperature. *)
Definition temperature_ok (T_raw : Z) : bool :=
  let t := Sht31.temperature_of_raw T_raw in
  let q := Float32.to_Q t in
  Float32.is_finite t
  && Qle_bool (-45 # 1) q && Qle_bool q (130 # 1)
  && Qle_bool (Qabs (q - Datasheet.temperature T_raw)) (1 # 131072).

(** Likewise for one raw humidity, within [2^-18]. *)
Definition humidity_ok (H_raw : Z) : bool :=
  let h := Sht31.humidity_of_raw H_raw in
  let q := Float32.to_Q h in
  Float32.is_finite h
  && Qle_bool (0 # 1) q && Qle_bool q (100 # 1)
  && Qle_bool (Qabs (q - Datasheet.humidity H_raw)) (1 # 262144).

(** An outcome produced by the synthetic fallback. *)
Definition is_fallback (o : Sht31.outcome) : Prop :=
  Sht31.real o = false /\
  Sht31.temperature_c o
    = Sht31.FallbackTemperature (Sht31.fallbackReadCount (Sht31.after o)) /\
  Sht31.humidity_rh o
    = Sht31.FallbackHumidity (Sht31.fallbackReadCount (Sht31.after o)).

(** The callbacks of one call, from the state before it. *)
Definition callbacks_of (ms : Z) (pressed : bool) (b : Button.ButtonContext_t)
  : list Button.callback :=
  match Button.state b with
  | Button.BUTTON_STATE_PRESSED =>
      if negb (Button.longPressTriggered b)
         && (u32 (u32 ms - Button.pressTimestamp b) >=? Button.BUTTON_LONG_PRESS_MS)
      then [Button.long_press] else []
  | Button.BUTTON_STATE_DEBOUNCE_RELEASE =>
      if (u32 (u32 ms - Button.releaseTimestamp b) >=? Button.BUTTON_DEBOUNCE_MS)
         && negb pressed && negb (Button.longPressTriggered b)
      then [Button.short_press] else []
  | _ => []
  end.


(** Timestamps along a run whose clock does not go backwards and does not
    wrap. *)
Record timed (b : Button.ButtonContext_t) (t : Z) : Prop := {
  timed_clock : 0 <= t < 4294967296;
  timed_press : 0 <= Button.pressTimestamp b <= t;
  timed_release : 0 <= Button.releaseTimestamp b <= t;
  timed_pressed :
    Button.state b = Button.BUTTON_STATE_PRESSED ->
    Button.pressTimestamp b + 50 <= t;
  timed_latched :
    Button.state b = Button.BUTTON_STATE_LONG_PRESS_TRIGGERED ->
    Button.longPressTriggered b = true /\ Button.pressTimestamp b + 50 <= t;
  timed_releasing :
    Button.state b = Button.BUTTON_STATE_DEBOUNCE_RELEASE ->
    Button.pressTimestamp b + 50 <= Button.releaseTimestamp b /\
    (Button.longPressTriggered b = false ->
     Button.releaseTimestamp b - Button.pressTimestamp b < 3000)
}.

(** Boards reachable from reset, with the time of the last main-loop
    pass: edges at any moment, main-loop passes with a clock that neither
    goes backwards nor wraps. *)
Inductive reachable : Button.board -> Z -> Prop :=
| reach_init : reachable Button.board_init 0
| reach_edge bd t i :
    reachable bd t -> i = Button.Press \/ i = Button.Release ->
    reachable (fst (Button.step bd i)) t
| reach_loop bd t ms :
    reachable bd t -> t <= ms < 4294967296 ->
    reachable (fst (Button.step bd (Button.Loop ms))) ms.

(** A press confirmed at 50 ms and released shortly before the main loop
    runs at 3005 ms, then a clean press of 500 ms. *)
Definition release_near_threshold : list Button.input :=
  [ Button.Press; Button.Loop 0; Button.Loop 50; Button.Loop 2990;
    Button.Release; Button.Loop 3005; Button.Loop 3060 ].

Definition clean_half_second_press : list Button.input :=
  [ Button.Press; Button.Loop 10000; Button.Loop 10050; Button.Loop 10300;
    Button.Release; Button.Loop 10500; Button.Loop 10550; Button.Loop 10600 ].

(** The session invariant of the data model. *)
Definition fast_poll_invariant (w : App.world) : Prop :=
  App.fastPollActive (App.appContext w) = true
  <-> App.state (App.appContext w) = App.APP_STATE_JOINED_FAST_POLL.

Definition phase_and_poll (w : App.world) : App.AppState_t * bool :=
  (App.state (App.appContext w), App.fastPollActive (App.appContext w)).

(** The steering plugin reports a join that did not succeed. *)
Definition failed_completion (ev : App.event) : bool :=
  match ev with
  | App.NetworkSteeringComplete status _ _ _ => negb (App.is_success status)
  | _ => false
  end.

Definition stack_joined (e : App.env) : bool :=
  match App.network_state e with
  | Af.EMBER_JOINED_NETWORK => true
  | _ => false
  end.

(** Events that can take the session out of JOINED_FAST_POLL on a path
    that does not call [app_set_fast_poll]: the JOIN_FAILED notification,
    a failed steering completion, and a long press (directly or from the
    main loop) while the stack reports that it is not joined. *)
Definition leaves_fast_poll_unswitched (ev : App.event) (e : App.env) : bool :=
  match ev with
  | App.emberAfStackStatusCallback Af.EMBER_JOIN_FAILED => true
  | App.NetworkSteeringComplete status _ _ _ => negb (App.is_success status)
  | App.emberAfMainTickCallback | App.button_long_press => negb (stack_joined e)
  | _ => false
  end.

(** A trace in which no such event arrives while the session is in
    JOINED_FAST_POLL. *)
Fixpoint keeps_fast_poll_paired (w : App.world) (tr : list (App.event * App.env)) : Prop :=
  match tr with
  | [] => True
  | (ev, e) :: rest =>
      (App.state (App.appContext w) = App.APP_STATE_JOINED_FAST_POLL ->
       leaves_fast_poll_unswitched ev e = false) /\
      keeps_fast_poll_paired (App.exec (App.handle ev) e w) rest
  end.

(** The values written so far to the two measured-value attributes. *)
Definition sensor_attribute_writes (cs : list Af.call) : list Af.payload :=
  Af.written Af.ZCL_TEMP_MEASURED_VALUE_ATTRIBUTE_ID cs
  ++ Af.written Af.ZCL_RELATIVE_HUMIDITY_MEASURED_VALUE_ATTRIBUTE_ID cs.

Arguments sensor_attribute_writes : simpl never.

(** The sensor answered at [sht31_init] and was declared absent later. *)
Definition demoted (w : App.world) : Prop :=
  App.sensorInitialized (App.appContext w) = true /\
  Sht31.sensorPresent (App.sensor w) = false.

(** What [app_update_battery_data] adds to the log. *)
Definition battery_writes (e : App.env) : list Af.call :=
  [ Af.ADC_Start;
    Af.emberAfWriteServerAttribute App.APP_ENDPOINT
      Af.ZCL_POWER_CONFIG_CLUSTER_ID Af.ZCL_BATTERY_VOLTAGE_ATTRIBUTE_ID
      (Af.Byte (u8 (Battery.battery_read_voltage (App.adc_result e) / 100)))
      Af.ZCL_INT8U_ATTRIBUTE_TYPE;
    Af.emberAfWriteServerAttribute App.APP_ENDPOINT
      Af.ZCL_POWER_CONFIG_CLUSTER_ID
      Af.ZCL_BATTERY_PERCENTAGE_REMAINING_ATTRIBUTE_ID
      (Af.Byte (u8 (Battery.battery_voltage_to_percentage
                      (Battery.battery_read_voltage (App.adc_result e)) * 2)))
      Af.ZCL_INT8U_ATTRIBUTE_TYPE ].

(** An environment at rest: no network in reach of a join yet, a sensor
    that answers with a valid frame, a supply near 2.7 V, button up. *)
Definition env_idle : App.env :=
  {| App.network_state := Af.EMBER_NOT_JOINED;
     App.steering_status := Af.EMBER_SUCCESS;
     App.leave_status := Af.EMBER_SUCCESS;
     App.reset_done := true;
     App.i2c := {| Sht31.write_done := true;
                   Sht31.read_done := Some [0x66; 0x1A; 0x16; 0x7F; 0xFF; 0x8F] |};
     App.adc_result := 3000;
     App.tick_ms := 0;
     App.pin_pressed := false |}.

Definition at_ms (ms : Z) (pressed : bool) (e : App.env) : App.env :=
  {| App.network_state := App.network_state e;
     App.steering_status := App.steering_status e;
     App.leave_status := App.leave_status e;
     App.reset_done := App.reset_done e;
     App.i2c := App.i2c e;
     App.adc_result := App.adc_result e;
     App.tick_ms := ms;
     App.pin_pressed := pressed |}.

Definition with_network (s : Af.EmberNetworkStatus) (e : App.env) : App.env :=
  {| App.network_state := s;
     App.steering_status := App.steering_status e;
     App.leave_status := App.leave_status e;
     App.reset_done := App.reset_done e;
     App.i2c := App.i2c e;
     App.adc_result := App.adc_result e;
     App.tick_ms := App.tick_ms e;
     App.pin_pressed := App.pin_pressed e |}.

Definition with_steering (s : Af.EmberStatus) (e : App.env) : App.env :=
  {| App.network_state := App.network_state e;
     App.steering_status := s;
     App.leave_status := App.leave_status e;
     App.reset_done := App.reset_done e;
     App.i2c := App.i2c e;
     App.adc_result := App.adc_result e;
     App.tick_ms := App.tick_ms e;
     App.pin_pressed := App.pin_pressed e |}.

Definition with_i2c (b : Sht31.bus) (e : App.env) : App.env :=
  {| App.network_state := App.network_state e;
     App.steering_status := App.steering_status e;
     App.leave_status := App.leave_status e;
     App.reset_done := App.reset_done e;
     App.i2c := b;
     App.adc_result := App.adc_result e;
     App.tick_ms := App.tick_ms e;
     App.pin_pressed := App.pin_pressed e |}.

Definition env_joined : App.env := with_network Af.EMBER_JOINED_NETWORK env_idle.

(** A short press in NOT_JOINED starts the join, the steering plugin
    reports success, then the stack delivers JOIN_FAILED, and thirty
    seconds after the join the fast-poll timer expires. *)
Definition join_then_join_failed : list (App.event * App.env) :=
  [ (App.gpio_edge, at_ms 1000 true env_idle);
    (App.emberAfMainTickCallback, at_ms 1000 true env_idle);
    (App.emberAfMainTickCallback, at_ms 1050 true env_idle);
    (App.gpio_edge, at_ms 1300 false env_idle);
    (App.emberAfMainTickCallback, at_ms 1300 false env_idle);
    (App.emberAfMainTickCallback, at_ms 1350 false env_idle);
    (App.NetworkSteeringComplete Af.EMBER_SUCCESS 3 1 2,
       at_ms 4000 false env_joined);
    (App.emberAfStackStatusCallback Af.EMBER_JOIN_FAILED,
       at_ms 5000 false env_idle);
    (App.fast_poll_timer_expiry, at_ms 34000 false env_idle) ].

(** An ordinary session: the same join, then the fast-poll timer
    expires, a sample is taken, the button is held for a long press and
    the stack reports the network down. *)
Definition ordinary_session : list (App.event * App.env) :=
  [ (App.gpio_edge, at_ms 1000 true env_idle);
    (App.emberAfMainTickCallback, at_ms 1000 true env_idle);
    (App.emberAfMainTickCallback, at_ms 1050 true env_idle);
    (App.gpio_edge, at_ms 1300 false env_idle);
    (App.emberAfMainTickCallback, at_ms 1300 false env_idle);
    (App.emberAfMainTickCallback, at_ms 1350 false env_idle);
    (App.NetworkSteeringComplete Af.EMBER_SUCCESS 3 1 2,
       at_ms 4000 false env_joined);
    (App.fast_poll_timer_expiry, at_ms 34000 false env_joined);
    (App.sensor_timer_expiry, at_ms 40000 false env_joined);
    (App.gpio_edge, at_ms 50000 true env_joined);
    (App.emberAfMainTickCallback, at_ms 50000 true env_joined);
    (App.emberAfMainTickCallback, at_ms 50050 true env_joined);
    (App.emberAfMainTickCallback, at_ms 53100 true env_joined);
    (App.emberAfStackStatusCallback Af.EMBER_NETWORK_DOWN,
       at_ms 53200 true env_idle) ].

(** ** zcl_callbacks.c: Identify cluster *)

Module Identify.

(** Calls the Identify callbacks make, in program order. *)
Inductive action :=
| start_periodic_timer_ms (ms : Z)
| stop_timer
| led_turn_off
| led_toggle
| write_identify_time (endpoint : Z) (seconds : Z)
| send_default_response
| send_query_response (seconds : Z).

(** The file-scope variables [identifyActive] and
    [identifyTimeRemaining]. *)
Record context := {
  identifyActive : bool;
  identifyTimeRemaining : Z
}.

Definition context_init : context :=
  {| identifyActive := false; identifyTimeRemaining := 0 |}.

Definition APP_ENDPOINT : Z := 1.

Definition emberAfIdentifyClusterServerInitCallback (endpoint : Z) : list action :=
  let identifyTime := 0 in
  [write_identify_time endpoint identifyTime].

(** [emberAfIdentifyClusterIdentifyCallback]; [identifyTime] is the
    [uint16_t] argument. *)
Definition emberAfIdentifyClusterIdentifyCallback (identifyTime : Z) (c : context)
  : context * list action :=
  let remaining := identifyTime in
  let '(active, done) :=
    if identifyTime >? 0 then
      if negb (identifyActive c)
      then (true, [start_periodic_timer_ms 1000])
      else (identifyActive c, [])
    else
      if identifyActive c
      then (false, [stop_timer; led_turn_off])
      else (identifyActive c, []) in
  ({| identifyActive := active; identifyTimeRemaining := remaining |},
   done ++ [write_identify_time APP_ENDPOINT remaining; send_default_response]).

Definition emberAfIdentifyClusterIdentifyQueryCallback (c : context)
  : context * list action :=
  (c, [send_query_response (identifyTimeRemaining c)]).

Definition identify_led_blink : list action := [led_toggle].

Definition identify_timer_callback (c : context) : context * list action :=
  if identifyTimeRemaining c >? 0 then
    let remaining := u16 (identifyTimeRemaining c - 1) in
    let done := identify_led_blink ++ [write_identify_time APP_ENDPOINT remaining] in
    if remaining =? 0
    then ({| identifyActive := false; identifyTimeRemaining := remaining |},
          done ++ [stop_timer; led_turn_off])
    else ({| identifyActive := identifyActive c; identifyTimeRemaining := remaining |},
          done)
  else (c, []).

(** What reaches the Identify code after the cluster was initialised. *)
Inductive event :=
| identify (identifyTime : Z)
| identify_query
| timer_expiry.

Definition handle (ev : event) (c : context) : context * list action :=
  match ev with
  | identify t => emberAfIdentifyClusterIdentifyCallback t c
  | identify_query => emberAfIdentifyClusterIdentifyQueryCallback c
  | timer_expiry => identify_timer_callback c
  end.

(** The state and the log of all calls made so far. *)
Definition session : Type := context * list action.

Definition session_init (endpoint : Z) : session :=
  (context_init, emberAfIdentifyClusterServerInitCallback endpoint).

Definition step (s : session) (ev : event) : session :=
  let '(c, done) := handle ev (fst s) in (c, snd s ++ done).

Definition run (s : session) (tr : list event) : session := fold_left step tr s.


(** Reading the log. *)
Definition is_start (a : action) : bool :=
  match a with start_periodic_timer_ms _ => true | _ => false end.
Definition is_stop (a : action) : bool :=
  match a with stop_timer => true | _ => false end.

Definition count (p : action -> bool) (done : list action) : Z :=
  Z.of_nat (List.length (filter p done)).

(** The values written to the identify-time attribute, oldest first. *)
Definition written_times (done : list action) : list Z :=
  flat_map (fun a => match a with write_identify_time _ v => [v] | _ => [] end) done.

Definition valid_event (ev : event) : Prop :=
  match ev with identify t => is_u16 t | _ => True end.

End Identify.

(** What holds of the Identify state and its log between two events. *)
Record identify_inv (s : Identify.session) : Prop := {
  inv_range : is_u16 (Identify.identifyTimeRemaining (fst s));
  inv_active :
    Identify.identifyActive (fst s) = true
    <-> 0 < Identify.identifyTimeRemaining (fst s);
  inv_timer :
    Identify.count Identify.is_start (snd s)
    = Identify.count Identify.is_stop (snd s)
      + Z.b2z (Identify.identifyActive (fst s));
  inv_attribute :
    last (Identify.written_times (snd s)) (-1)
    = Identify.identifyTimeRemaining (fst s)
}.

(** ** Checks and helpers for the CRC's error detection *)

(** The eight shifts of [calculate_crc]'s inner loop, as one step. *)
Definition crc_round (x : Z) : Z := Nat.iter 8 Crc.crc_shift x.

(** [crc_round] maps different bytes to different bytes. *)
Definition crc_round_separates (x y : Z) : bool :=
  (x =? y) || negb (crc_round x =? crc_round y).

(** XOR of two bytes is a byte, and XOR with a fixed byte is its own
    inverse. *)
Definition xor_byte_ok (c d : Z) : bool :=
  (0 <=? Z.lxor c d) && (Z.lxor c d <? 256) && (Z.lxor c (Z.lxor c d) =? d).

(** Replace the byte at index [i]. *)
Fixpoint set_byte (i : nat) (v : Z) (data : list Z) : list Z :=
  match data, i with
  | [], _ => []
  | _ :: rest, O => v :: rest
  | d :: rest, S j => d :: set_byte j v rest
  end.

(** ** app.c: conversion of a reading to the cluster library's fixed point *)

Module Fixed.

(** Conversion of a finite [float] to a C integer type discards the
    fractional part. *)
Definition trunc (f : spec_float) : Z :=
  match f with
  | S754_finite s m e =>
      let magnitude :=
        match e with
        | Z0 => Z.pos m
        | Z.pos k => Z.pos m * Z.pow_pos 2 k
        | Z.neg k => Z.pos m / Z.pow_pos 2 k
        end in
      if s then - magnitude else magnitude
  | _ => 0
  end.

(** [(int16_t)f] and [(uint16_t)f]: defined when the truncated value is
    representable, undefined behaviour ([None]) otherwise. *)
Definition to_int16 (f : spec_float) : option Z :=
  if Float32.is_finite f && (-32768 <=? trunc f) && (trunc f <=? 32767)
  then Some (trunc f) else None.

Definition to_uint16 (f : spec_float) : option Z :=
  if Float32.is_finite f && (0 <=? trunc f) && (trunc f <=? 65535)
  then Some (trunc f) else None.

(** [temperature_raw = (int16_t)(temperature_celsius * 100)] *)
Definition temperature_raw (temperature_celsius : spec_float) : option Z :=
  to_int16 (Float32.mul temperature_celsius (Float32.of_int 100)).

(** [humidity_raw = (uint16_t)(humidity_percent * 100)] *)
Definition humidity_raw (humidity_percent : spec_float) : option Z :=
  to_uint16 (Float32.mul humidity_percent (Float32.of_int 100)).

End Fixed.

(** Does a property hold of the values [f z], [f (z + 1)], ..., and that
    they are all defined and do not decrease. *)
Fixpoint rising_from (n : nat) (z prev : Z) (f : Z -> option Z) (p : Z -> Z -> bool)
  : bool :=
  match n with
  | O => true
  | S k =>
      match f z with
      | Some v => (prev <=? v) && p z v && rising_from k (z + 1) v f p
      | None => false
      end
  end.

(** The temperature published for one raw value: in [-4500, 13000], less
    than one unit from a hundred times the datasheet value, and inside
    the advertised range -4000 .. 12500 exactly for raw values
    1869 .. 63666. *)
Definition temperature_fixed_ok (T_raw z : Z) : bool :=
  (-4500 <=? z) && (z <=? 13000)
  && negb (Qle_bool (1 # 1)
             (Qabs ((z # 1) - (100 # 1) * Datasheet.temperature T_raw)))
  && Bool.eqb ((-4000 <=? z) && (z <=? 12500))
              ((1869 <=? T_raw) && (T_raw <=? 63666)).

(** The humidity published for one raw value: in [0, 10000] and less than
    one unit from a hundred times the datasheet value. *)
Definition humidity_fixed_ok (H_raw z : Z) : bool :=
  (0 <=? z) && (z <=? 10000)
  && negb (Qle_bool (1 # 1)
             (Qabs ((z # 1) - (100 # 1) * Datasheet.humidity H_raw))).

Definition published_temperature (T_raw : Z) : option Z :=
  Fixed.temperature_raw (Sht31.temperature_of_raw T_raw).

Definition published_humidity (H_raw : Z) : option Z :=
  Fixed.humidity_raw (Sht31.humidity_of_raw H_raw).

(** ** zcl_callbacks.c: the init callbacks of the measurement clusters *)

Module ZclInit.

Inductive attribute :=
| ZCL_BATTERY_QUANTITY_ATTRIBUTE_ID
| ZCL_BATTERY_SIZE_ATTRIBUTE_ID
| ZCL_BATTERY_VOLTAGE_MIN_THRESHOLD_ATTRIBUTE_ID
| ZCL_BATTERY_VOLTAGE_THRESHOLD1_ATTRIBUTE_ID
| ZCL_BATTERY_ALARM_STATE_ATTRIBUTE_ID
| ZCL_TEMP_MIN_MEASURED_VALUE_ATTRIBUTE_ID
| ZCL_TEMP_MAX_MEASURED_VALUE_ATTRIBUTE_ID
| ZCL_TEMP_TOLERANCE_ATTRIBUTE_ID
| ZCL_RELATIVE_HUMIDITY_MIN_MEASURED_VALUE_ATTRIBUTE_ID
| ZCL_RELATIVE_HUMIDITY_MAX_MEASURED_VALUE_ATTRIBUTE_ID
| ZCL_RELATIVE_HUMIDITY_TOLERANCE_ATTRIBUTE_ID.

Inductive attribute_type :=
| ZCL_INT8U_ATTRIBUTE_TYPE
| ZCL_ENUM8_ATTRIBUTE_TYPE
| ZCL_BITMAP8_ATTRIBUTE_TYPE
| ZCL_INT16S_ATTRIBUTE_TYPE
| ZCL_INT16U_ATTRIBUTE_TYPE.

(** One call of [emberAfWriteServerAttribute] with an integer value. *)
Record write := {
  endpoint : Z;
  cluster : Af.cluster;
  attribute_id : attribute;
  value : Z;
  type : attribute_type
}.

(** Modelled from the spec: the battery-size enumeration of the cluster
    library is declared outside the repository; AA is 0x03 (also the
    comment next to its use). *)
Definition EMBER_ZCL_BATTERY_SIZE_AA : Z := 0x03.

Definition emberAfPowerConfigClusterServerInitCallback (ep : Z) : list write :=
  let batteryQuantity := 2 in
  let batterySize := u8 EMBER_ZCL_BATTERY_SIZE_AA in
  let batteryVoltageMin := u8 (Battery.BATTERY_VOLTAGE_MIN_MV / 100) in
  let batteryVoltageMax := u8 (Battery.BATTERY_VOLTAGE_MAX_MV / 100) in
  let batteryAlarmState := 0 in
  [ {| endpoint := ep; cluster := Af.ZCL_POWER_CONFIG_CLUSTER_ID;
       attribute_id := ZCL_BATTERY_QUANTITY_ATTRIBUTE_ID;
       value := batteryQuantity; type := ZCL_INT8U_ATTRIBUTE_TYPE |};
    {| endpoint := ep; cluster := Af.ZCL_POWER_CONFIG_CLUSTER_ID;
       attribute_id := ZCL_BATTERY_SIZE_ATTRIBUTE_ID;
       value := batterySize; type := ZCL_ENUM8_ATTRIBUTE_TYPE |};
    {| endpoint := ep; cluster := Af.ZCL_POWER_CONFIG_CLUSTER_ID;
       attribute_id := ZCL_BATTERY_VOLTAGE_MIN_THRESHOLD_ATTRIBUTE_ID;
       value := batteryVoltageMin; type := ZCL_INT8U_ATTRIBUTE_TYPE |};
    {| endpoint := ep; cluster := Af.ZCL_POWER_CONFIG_CLUSTER_ID;
       attribute_id := ZCL_BATTERY_VOLTAGE_THRESHOLD1_ATTRIBUTE_ID;
       value := batteryVoltageMax; type := ZCL_INT8U_ATTRIBUTE_TYPE |};
    {| endpoint := ep; cluster := Af.ZCL_POWER_CONFIG_CLUSTER_ID;
       attribute_id := ZCL_BATTERY_ALARM_STATE_ATTRIBUTE_ID;
       value := batteryAlarmState; type := ZCL_BITMAP8_ATTRIBUTE_TYPE |} ].

Definition emberAfTempMeasurementClusterServerInitCallback (ep : Z) : list write :=
  let minValue := -4000 in
  let maxValue := 12500 in
  let tolerance := 30 in
  [ {| endpoint := ep; cluster := Af.ZCL_TEMP_MEASUREMENT_CLUSTER_ID;
       attribute_id := ZCL_TEMP_MIN_MEASURED_VALUE_ATTRIBUTE_ID;
       value := minValue; type := ZCL_INT16S_ATTRIBUTE_TYPE |};
    {| endpoint := ep; cluster := Af.ZCL_TEMP_MEASUREMENT_CLUSTER_ID;
       attribute_id := ZCL_TEMP_MAX_MEASURED_VALUE_ATTRIBUTE_ID;
       value := maxValue; type := ZCL_INT16S_ATTRIBUTE_TYPE |};
    {| endpoint := ep; cluster := Af.ZCL_TEMP_MEASUREMENT_CLUSTER_ID;
       attribute_id := ZCL_TEMP_TOLERANCE_ATTRIBUTE_ID;
       value := tolerance; type := ZCL_INT16U_ATTRIBUTE_TYPE |} ].

Definition emberAfRelativeHumidityMeasurementClusterServerInitCallback (ep : Z)
  : list write :=
  let minValue := 0 in
  let maxValue := 10000 in
  let tolerance := 200 in
  [ {| endpoint := ep; cluster := Af.ZCL_RELATIVE_HUMIDITY_MEASUREMENT_CLUSTER_ID;
       attribute_id := ZCL_RELATIVE_HUMIDITY_MIN_MEASURED_VALUE_ATTRIBUTE_ID;
       value := minValue; type := ZCL_INT16U_ATTRIBUTE_TYPE |};
    {| endpoint := ep; cluster := Af.ZCL_RELATIVE_HUMIDITY_MEASUREMENT_CLUSTER_ID;
       attribute_id := ZCL_RELATIVE_HUMIDITY_MAX_MEASURED_VALUE_ATTRIBUTE_ID;
       value := maxValue; type := ZCL_INT16U_ATTRIBUTE_TYPE |};
    {| endpoint := ep; cluster := Af.ZCL_RELATIVE_HUMIDITY_MEASUREMENT_CLUSTER_ID;
       attribute_id := ZCL_RELATIVE_HUMIDITY_TOLERANCE_ATTRIBUTE_ID;
       value := tolerance; type := ZCL_INT16U_ATTRIBUTE_TYPE |} ].

Definition eq_attribute_dec (a b : attribute) : {a = b} + {a <> b}.
Proof. decide equality. Defined.

(** The value an init callback gives an attribute, if it writes it. *)
Definition configured (a : attribute) (ws : list write) : option Z :=
  match find (fun w => if eq_attribute_dec a (attribute_id w) then true else false) ws with
  | Some w => Some (value w)
  | None => None
  end.

End ZclInit.

(** The two battery attributes [app_update_battery_data] writes for one
    ADC sample: voltage in 100 mV and percentage in half percent. *)
Definition reported_voltage (adcResult : Z) : Z :=
  u8 (Battery.battery_read_voltage adcResult / 100).

Definition reported_percentage (adcResult : Z) : Z :=
  u8 (Battery.battery_voltage_to_percentage
        (Battery.battery_read_voltage adcResult) * 2).

(** One 12-bit sample: the conversion neither overflows nor wraps, the
    percentage is the half-percent image of a value in 0..100, and the
    voltage reaches the upper threshold 32 exactly when the percentage is
    200 and stays below the lower threshold 20 only when it is 0. *)
Definition battery_report_ok (adcResult : Z) : bool :=
  let mv := Battery.battery_read_voltage adcResult in
  let pct := Battery.battery_voltage_to_percentage mv in
  (mv =? adcResult * 3750 / 4096)
  && (reported_voltage adcResult =? mv / 100)
  && (reported_voltage adcResult <=? 37)
  && (reported_percentage adcResult =? 2 * pct)
  && (0 <=? pct) && (pct <=? 100)
  && Bool.eqb (32 <=? reported_voltage adcResult)
              (reported_percentage adcResult =? 200)
  && (negb (reported_voltage adcResult <? 20)
      || (reported_percentage adcResult =? 0))
  && (reported_voltage adcResult <=? reported_voltage (adcResult + 1))
  && (reported_percentage adcResult <=? reported_percentage (adcResult + 1)).

(** ** Button: contexts at rest and latched *)

(** The driver at rest: IDLE with no edge waiting. *)
Definition at_rest (b : Button.ButtonContext_t) : Prop :=
  Button.state b = Button.BUTTON_STATE_IDLE /\
  Button.interruptPending b = false.

(** A long press has been reported and the driver has not yet returned
    to IDLE. *)
Definition latched (b : Button.ButtonContext_t) : Prop :=
  Button.longPressTriggered b = true /\
  (Button.state b = Button.BUTTON_STATE_PRESSED \/
   Button.state b = Button.BUTTON_STATE_DEBOUNCE_RELEASE \/
   Button.state b = Button.BUTTON_STATE_LONG_PRESS_TRIGGERED).

(** Does the run pass through IDLE? *)
Fixpoint reaches_idle (bd : Button.board) (tr : list Button.input) : bool :=
  match tr with
  | [] => false
  | i :: rest =>
      let bd' := fst (Button.step bd i) in
      match Button.state (Button.ctx bd') with
      | Button.BUTTON_STATE_IDLE => true
      | _ => reaches_idle bd' rest
      end
  end.

(** All the callbacks of a run, in order. *)
Definition emitted (bd : Button.board) (tr : list Button.input) : list Button.callback :=
  List.concat (snd (Button.run bd tr)).

(** ** Reading the session log *)

(** The wake timeout last handed to the stack, if any. *)
Definition wake_timeout (cs : list Af.call) : option Z :=
  fold_left (fun last c =>
               match c with
               | Af.emberAfSetWakeTimeoutQsCallback qs => Some qs
               | _ => last
               end) cs None.

(** Whether the application task WAITING_FOR_DATA_ACK is currently set. *)
Definition data_ack_task (cs : list Af.call) : bool :=
  fold_left (fun set c =>
               match c with
               | Af.emberAfAddToCurrentAppTasksCallback => true
               | Af.emberAfRemoveFromCurrentAppTasksCallback => false
               | _ => set
               end) cs false.

(** The stack is in the poll mode [fastPollActive] says. *)
Definition poll_mode_agrees (w : App.world) : Prop :=
  data_ack_task (App.calls w) = App.fastPollActive (App.appContext w) /\
  (if App.fastPollActive (App.appContext w)
   then wake_timeout (App.calls w) = Some App.APP_FAST_POLL_INTERVAL_QS
   else wake_timeout (App.calls w) = None \/
        wake_timeout (App.calls w) = Some App.APP_NORMAL_POLL_INTERVAL_QS).


Definition is_sensor_bus (c : Af.call) : bool :=
  match c with Af.sensor_bus _ => true | _ => false end.

Definition is_steering_start (c : Af.call) : bool :=
  match c with Af.emberAfPluginNetworkSteeringStart => true | _ => false end.


(** What stays true of the session state after boot. *)
Record session_inv (boot_env : App.env) (w : App.world) : Prop := {
  inv_not_init : App.state (App.appContext w) <> App.APP_STATE_INIT;
  inv_attempts : is_u8 (App.joinAttempts (App.appContext w));
  inv_initialized :
    App.sensorInitialized (App.appContext w) = App.reset_done boot_env;
  inv_present :
    Sht31.sensorPresent (App.sensor w) = true ->
    App.sensorInitialized (App.appContext w) = true;
  inv_counter : 0 <= Sht31.fallbackReadCount (App.sensor w) < 4294967296
}.

(** The sensor did not answer at [sht31_init]. *)
Definition never_detected (w : App.world) : Prop :=
  App.sensorInitialized (App.appContext w) = false /\
  Sht31.sensorPresent (App.sensor w) = false.

(** The two measured-value writes of [app_update_sensor_data]. *)
Definition sensor_writes (t h : Sht31.value) : list Af.call :=
  [ Af.emberAfWriteServerAttribute App.APP_ENDPOINT
      Af.ZCL_TEMP_MEASUREMENT_CLUSTER_ID
      Af.ZCL_TEMP_MEASURED_VALUE_ATTRIBUTE_ID
      (Af.Centi t) Af.ZCL_INT16S_ATTRIBUTE_TYPE;
    Af.emberAfWriteServerAttribute App.APP_ENDPOINT
      Af.ZCL_RELATIVE_HUMIDITY_MEASUREMENT_CLUSTER_ID
      Af.ZCL_RELATIVE_HUMIDITY_MEASURED_VALUE_ATTRIBUTE_ID
      (Af.Centi h) Af.ZCL_INT16U_ATTRIBUTE_TYPE ].

(** The driver after a sequence of reads. *)
Definition driver_after (d : Sht31.driver) (bs : list Sht31.bus) : Sht31.driver :=
  fold_left (fun d b => Sht31.after (Sht31.sht31_read d b)) bs d.

(** How many of the reads returned [false]. *)
Definition failed_reads (d : Sht31.driver) (bs : list Sht31.bus) : Z :=
  Z.of_nat (List.length (filter (fun o => negb (Sht31.real o)) (Sht31.reads d bs))).

(** * Properties *)

Lemma u8_range z : 0 <= u8 z < 256.
Proof. unfold u8. apply Z.mod_pos_bound. lia. Qed.

Lemma u8_small z : 0 <= z < 256 -> u8 z = z.
Proof. intros H. unfold u8. apply Z.mod_small. exact H. Qed.

Lemma u32_small z : 0 <= z < 4294967296 -> u32 z = z.
Proof. intros H. unfold u32. apply Z.mod_small. exact H. Qed.

Lemma forall_from_spec n p :
  forall z0, forall_from n z0 p = true ->
  forall z, z0 <= z < z0 + Z.of_nat n -> p z = true.
Proof.
  induction n as [|k IH]; intros z0 H z Hz.
  - simpl in Hz. lia.
  - cbn [forall_from] in H.
    destruct (p z0) eqn:Hp; [|discriminate].
    destruct (Z.eq_dec z z0) as [->|Hne]; [exact Hp|].
    apply (IH (z0 + 1)); [exact H|lia].
Qed.

Lemma forall_below_spec n p :
  0 <= n -> forall_below n p = true -> forall z, 0 <= z < n -> p z = true.
Proof.
  intros Hn H z Hz. apply (forall_from_spec (Z.to_nat n) p 0 H).
  rewrite Z2Nat.id by exact Hn. lia.
Qed.

(** ** Theorems: battery *)

Lemma battery_interp v :
  2000 < v < 3200 ->
  Battery.battery_voltage_to_percentage v = (v - 2000) * 100 / 1200.
Proof.
  intros H. unfold Battery.battery_voltage_to_percentage,
    Battery.BATTERY_VOLTAGE_MAX_MV, Battery.BATTERY_VOLTAGE_MIN_MV.
  destruct (Z.geb_spec v 3200) as [Hge|_]; [lia|].
  destruct (Z.leb_spec v 2000) as [Hle|_]; [lia|].
  cbv zeta.
  rewrite (u32_small (3200 - 2000)) by lia.
  rewrite (u32_small (v - 2000)) by lia.
  rewrite (u32_small ((v - 2000) * 100)) by lia.
  replace (3200 - 2000) with 1200 by reflexivity.
  apply u8_small.
  assert (0 <= (v - 2000) * 100 / 1200) by (apply Z.div_pos; lia).
  assert ((v - 2000) * 100 / 1200 < 100) by (apply Z.div_lt_upper_bound; lia).
  lia.
Qed.

Lemma battery_cases v :
  (v <= 2000 /\ Battery.battery_voltage_to_percentage v = 0) \/
  (3200 <= v /\ Battery.battery_voltage_to_percentage v = 100) \/
  (2000 < v < 3200 /\
   Battery.battery_voltage_to_percentage v = (v - 2000) * 100 / 1200).
Proof.
  destruct (Z_le_gt_dec v 2000) as [Hlo|Hlo].
  - left. split; [exact Hlo|].
    unfold Battery.battery_voltage_to_percentage,
      Battery.BATTERY_VOLTAGE_MAX_MV, Battery.BATTERY_VOLTAGE_MIN_MV.
    destruct (Z.geb_spec v 3200); [lia|].
    destruct (Z.leb_spec v 2000); [reflexivity|lia].
  - destruct (Z_le_gt_dec 3200 v) as [Hhi|Hhi].
    + right; left. split; [exact Hhi|].
      unfold Battery.battery_voltage_to_percentage,
        Battery.BATTERY_VOLTAGE_MAX_MV.
      destruct (Z.geb_spec v 3200); [reflexivity|lia].
    + right; right. split; [lia|]. apply battery_interp. lia.
Qed.

Lemma battery_interp_bounds v :
  2000 < v < 3200 -> 0 <= (v - 2000) * 100 / 1200 < 100.
Proof.
  intros H. split.
  - apply Z.div_pos; lia.
  - apply Z.div_lt_upper_bound; lia.
Qed.

(** C6: [battery_voltage_to_percentage] is monotone non-decreasing on all
    uint16 inputs, is 0 up to 2000 mV and 100 from 3200 mV on, stays within
    0..100, interpolates linearly (rounding down) in between, and maps
    2600 mV to 50. *)
Theorem battery_percentage_spec :
  (forall v w, is_u16 v -> is_u16 w -> v <= w ->
     Battery.battery_voltage_to_percentage v
       <= Battery.battery_voltage_to_percentage w) /\
  (forall v, is_u16 v -> v <= 2000 ->
     Battery.battery_voltage_to_percentage v = 0) /\
  (forall v, is_u16 v -> 3200 <= v ->
     Battery.battery_voltage_to_percentage v = 100) /\
  (forall v, is_u16 v ->
     0 <= Battery.battery_voltage_to_percentage v <= 100) /\
  (forall v, is_u16 v -> 2000 <= v <= 3200 ->
     Battery.battery_voltage_to_percentage v = (v - 2000) * 100 / 1200) /\
  Battery.battery_voltage_to_percentage 2600 = 50.
Proof.
  split; [|split; [|split; [|split; [|split]]]].
  - intros v w _ _ Hvw.
    destruct (battery_cases v) as [[Hv ->]|[[Hv ->]|[Hv ->]]];
      destruct (battery_cases w) as [[Hw ->]|[[Hw ->]|[Hw ->]]];
      try lia.
    + pose proof (battery_interp_bounds w Hw). lia.
    + pose proof (battery_interp_bounds v Hv). lia.
    + apply Z.div_le_mono; lia.
  - intros v _ Hv. destruct (battery_cases v) as [[_ ->]|[[? _]|[? _]]]; lia.
  - intros v _ Hv. destruct (battery_cases v) as [[? _]|[[_ ->]|[? _]]]; lia.
  - intros v _.
    destruct (battery_cases v) as [[_ ->]|[[_ ->]|[Hv ->]]]; try lia.
    pose proof (battery_interp_bounds v Hv). lia.
  - intros v _ Hv.
    destruct (battery_cases v) as [[H1 ->]|[[H1 ->]|[_ ->]]]; try reflexivity.
    + assert (v = 2000) as -> by lia. reflexivity.
    + assert (v = 3200) as -> by lia. reflexivity.
  - reflexivity.
Qed.

Lemma battery_percentage_spec_witness :
  Battery.battery_voltage_to_percentage 2450
    <= Battery.battery_voltage_to_percentage 3100 /\
  Battery.battery_voltage_to_percentage 1800 = 0 /\
  Battery.battery_voltage_to_percentage 3300 = 100 /\
  Battery.battery_voltage_to_percentage 2900 = (2900 - 2000) * 100 / 1200.
Proof.
  destruct battery_percentage_spec as (Hmono & Hlo & Hhi & _ & Hlin & _).
  unfold is_u16 in *.
  split; [apply Hmono; lia|].
  split; [apply Hlo; lia|].
  split; [apply Hhi; lia|].
  apply Hlin; lia.
Defined.

(** ** Theorems: CRC *)

Lemma crc_shift_range c : 0 <= Crc.crc_shift c < 256.
Proof. unfold Crc.crc_shift. destruct (_ =? _); apply u8_range. Qed.

Lemma crc_update_range c d : 0 <= Crc.crc_update c d < 256.
Proof.
  unfold Crc.crc_update.
  change (Nat.iter 8 Crc.crc_shift ?x)
    with (Crc.crc_shift (Nat.iter 7 Crc.crc_shift x)).
  apply crc_shift_range.
Qed.

Lemma crc_byte_agrees_all :
  forall_below 256 (fun c => forall_below 256 (crc_byte_agrees c)) = true.
Proof. vm_compute. reflexivity. Qed.

Lemma crc_update_feed c d :
  is_u8 c -> is_u8 d ->
  Crc.crc_update c d
    = fold_left (Crc.feed_bit Crc.sht31_crc) (Crc.bits_msb_first d) c.
Proof.
  intros Hc Hd.
  pose proof (forall_below_spec 256 _ ltac:(lia) crc_byte_agrees_all c Hc) as H.
  cbv beta in H.
  pose proof (forall_below_spec 256 _ ltac:(lia) H d Hd) as H'.
  unfold crc_byte_agrees in H'. apply Z.eqb_eq in H'. exact H'.
Qed.

Lemma crc_loop_refines data :
  Forall is_u8 data ->
  forall c, is_u8 c ->
  fold_left Crc.crc_update data c
    = fold_left (Crc.feed_bit Crc.sht31_crc)
        (Crc.message_bits Crc.sht31_crc data) c.
Proof.
  induction 1 as [|d data Hd _ IH]; intros c Hc.
  - reflexivity.
  - cbn [fold_left]. unfold Crc.message_bits. cbn [flat_map Crc.refin Crc.sht31_crc].
    rewrite fold_left_app.
    rewrite <- (crc_update_feed c d Hc Hd).
    apply IH. apply crc_update_range.
Qed.

Lemma crc_refines_spec data :
  Forall is_u8 data ->
  Crc.calculate_crc data = Crc.crc8_spec Crc.sht31_crc data.
Proof.
  intros H. unfold Crc.calculate_crc, Crc.crc8_spec.
  cbn [Crc.refout Crc.xorout Crc.init Crc.sht31_crc].
  rewrite Z.lxor_0_r. apply crc_loop_refines; [exact H|].
  unfold is_u8. lia.
Qed.

(** What [sht31_read] does with a frame that arrived: it is accepted
    exactly when both checksums match. *)
Lemma sht31_read_frame d b b0 b1 b2 b3 b4 b5 :
  Sht31.sensorPresent d = true ->
  Sht31.write_done b = true ->
  Sht31.read_done b = Some [b0; b1; b2; b3; b4; b5] ->
  Sht31.real (Sht31.sht31_read d b)
    = (Crc.calculate_crc [b0; b1] =? b2) && (Crc.calculate_crc [b3; b4] =? b5).
Proof.
  intros Hp Hw Hr. unfold Sht31.sht31_read. rewrite Hp, Hw, Hr.
  cbn [negb firstn skipn nth].
  destruct (Crc.calculate_crc [b0; b1] =? b2); cbn [negb andb]; [|reflexivity].
  destruct (Crc.calculate_crc [b3; b4] =? b5); reflexivity.
Qed.

(** C4: [calculate_crc] is the CRC-8 with polynomial 0x31, initial value
    0xFF, most significant bit first, unreflected and without final XOR;
    it maps [0xBE; 0xEF] to 0x92; and [sht31_read] computes it over each
    pair of data bytes and compares it with the third byte of the group. *)
Theorem calculate_crc_is_crc8_poly31 :
  (forall data, Forall is_u8 data ->
     Crc.calculate_crc data = Crc.crc8_spec Crc.sht31_crc data) /\
  Crc.poly Crc.sht31_crc = 0x31 /\
  Crc.init Crc.sht31_crc = 0xFF /\
  Crc.refin Crc.sht31_crc = false /\
  Crc.refout Crc.sht31_crc = false /\
  Crc.xorout Crc.sht31_crc = 0 /\
  Crc.calculate_crc [0xBE; 0xEF] = 0x92 /\
  (forall d b b0 b1 b2 b3 b4 b5,
     Sht31.sensorPresent d = true ->
     Sht31.write_done b = true ->
     Sht31.read_done b = Some [b0; b1; b2; b3; b4; b5] ->
     Sht31.real (Sht31.sht31_read d b)
       = (Crc.calculate_crc [b0; b1] =? b2) && (Crc.calculate_crc [b3; b4] =? b5)).
Proof.
  split; [exact crc_refines_spec|].
  repeat (split; [reflexivity|]).
  exact sht31_read_frame.
Qed.

Lemma calculate_crc_is_crc8_poly31_witness :
  Crc.calculate_crc [0x66; 0x1A] = Crc.crc8_spec Crc.sht31_crc [0x66; 0x1A] /\
  Sht31.real
    (Sht31.sht31_read
       {| Sht31.sensorPresent := true; Sht31.fallbackReadCount := 0 |}
       {| Sht31.write_done := true;
          Sht31.read_done := Some [0xBE; 0xEF; 0x92; 0xBE; 0xEF; 0x93] |})
    = (Crc.calculate_crc [0xBE; 0xEF] =? 0x92)
      && (Crc.calculate_crc [0xBE; 0xEF] =? 0x93).
Proof.
  destruct calculate_crc_is_crc8_poly31 as (Href & _ & _ & _ & _ & _ & _ & Hcmp).
  split.
  - apply Href. repeat constructor; unfold is_u8; lia.
  - apply Hcmp; reflexivity.
Defined.

(** ** Theorems: sensor conversion *)

Lemma raw16_agrees_all :
  forall_below 256 (fun hi => forall_below 256 (raw16_agrees hi)) = true.
Proof. vm_compute. reflexivity. Qed.

Lemma raw16 hi lo :
  is_u8 hi -> is_u8 lo -> u16 (Z.lor (Z.shiftl hi 8) lo) = hi * 256 + lo.
Proof.
  intros Hhi Hlo.
  pose proof (forall_below_spec 256 _ ltac:(lia) raw16_agrees_all hi Hhi) as H.
  cbv beta in H.
  pose proof (forall_below_spec 256 _ ltac:(lia) H lo Hlo) as H'.
  unfold raw16_agrees in H'. apply Z.eqb_eq in H'. exact H'.
Qed.

Lemma temperature_ok_all : forall_below 65536 temperature_ok = true.
Proof. vm_compute. reflexivity. Qed.

Lemma humidity_ok_all : forall_below 65536 humidity_ok = true.
Proof. vm_compute. reflexivity. Qed.

Lemma temperature_of_raw_spec T_raw :
  is_u16 T_raw ->
  let t := Sht31.temperature_of_raw T_raw in
  Float32.is_finite t = true /\
  (-45 # 1 <= Float32.to_Q t <= 130 # 1)%Q /\
  (Qabs (Float32.to_Q t - Datasheet.temperature T_raw) <= 1 # 131072)%Q.
Proof.
  intros HT t.
  pose proof (forall_below_spec 65536 _ ltac:(lia) temperature_ok_all T_raw HT) as H.
  unfold temperature_ok in H. cbv zeta in H. fold t in H.
  repeat (apply andb_prop in H; destruct H as [H ?]).
  repeat split; try apply Qle_bool_iff; assumption.
Qed.

Lemma humidity_of_raw_spec H_raw :
  is_u16 H_raw ->
  let h := Sht31.humidity_of_raw H_raw in
  Float32.is_finite h = true /\
  (0 # 1 <= Float32.to_Q h <= 100 # 1)%Q /\
  (Qabs (Float32.to_Q h - Datasheet.humidity H_raw) <= 1 # 262144)%Q.
Proof.
  intros HH h.
  pose proof (forall_below_spec 65536 _ ltac:(lia) humidity_ok_all H_raw HH) as H.
  unfold humidity_ok in H. cbv zeta in H. fold h in H.
  repeat (apply andb_prop in H; destruct H as [H ?]).
  repeat split; try apply Qle_bool_iff; assumption.
Qed.

(** C3: on a present sensor, a six-byte frame whose two checksums match
    makes [sht31_read] return [true]; the temperature is the binary32
    evaluation of [-45 + 175 * T_raw / 65535] and the humidity that of
    [clamp(100 * H_raw / 65535, 0, 100)], within [2^-17] and [2^-18] of
    the exact values, with [T_raw = b0 * 256 + b1] and
    [H_raw = b3 * 256 + b4]; the temperature lies in [-45, 130] and the
    humidity in [0, 100]. *)
Theorem sht31_read_valid_frame :
  forall d b b0 b1 b2 b3 b4 b5,
    Sht31.sensorPresent d = true ->
    Sht31.write_done b = true ->
    Sht31.read_done b = Some [b0; b1; b2; b3; b4; b5] ->
    is_u8 b0 -> is_u8 b1 -> is_u8 b3 -> is_u8 b4 ->
    Crc.calculate_crc [b0; b1] = b2 ->
    Crc.calculate_crc [b3; b4] = b5 ->
    let T_raw := b0 * 256 + b1 in
    let H_raw := b3 * 256 + b4 in
    let o := Sht31.sht31_read d b in
    let t := Sht31.temperature_of_raw T_raw in
    let h := Sht31.humidity_of_raw H_raw in
    Sht31.real o = true /\
    Sht31.temperature_c o = Sht31.Float t /\
    Sht31.humidity_rh o = Sht31.Float h /\
    Sht31.after o = d /\
    Float32.is_finite t = true /\
    Float32.is_finite h = true /\
    (Qabs (Float32.to_Q t - Datasheet.temperature T_raw) <= 1 # 131072)%Q /\
    (Qabs (Float32.to_Q h - Datasheet.humidity H_raw) <= 1 # 262144)%Q /\
    (-45 # 1 <= Float32.to_Q t <= 130 # 1)%Q /\
    (0 # 1 <= Float32.to_Q h <= 100 # 1)%Q.
Proof.
  intros d b b0 b1 b2 b3 b4 b5 Hp Hw Hr H0 H1 H3 H4 Ht Hh T_raw H_raw o t h.
  assert (HT : is_u16 T_raw) by (unfold is_u8, is_u16, T_raw in *; lia).
  assert (HH : is_u16 H_raw) by (unfold is_u8, is_u16, H_raw in *; lia).
  assert (Ho : o = {| Sht31.real := true;
                      Sht31.temperature_c := Sht31.Float t;
                      Sht31.humidity_rh := Sht31.Float h;
                      Sht31.after := d;
                      Sht31.ops := [Sht31.I2cWrite 0x24 0x00;
                                    Sht31.DelayMs 20; Sht31.I2cRead 6] |}).
  { unfold o, Sht31.sht31_read. rewrite Hp, Hw, Hr.
    cbn [negb firstn skipn nth].
    rewrite Ht, Hh, !Z.eqb_refl. cbn [negb].
    rewrite (raw16 b0 b1 H0 H1), (raw16 b3 b4 H3 H4). reflexivity. }
  destruct (temperature_of_raw_spec T_raw HT) as (Ft & Rt & Et).
  destruct (humidity_of_raw_spec H_raw HH) as (Fh & Rh & Eh).
  rewrite Ho. cbn [Sht31.real Sht31.temperature_c Sht31.humidity_rh Sht31.after].
  repeat split; try reflexivity; try assumption;
    first [apply Rt | apply Rh].
Qed.

Lemma sht31_read_valid_frame_witness :
  Sht31.real
    (Sht31.sht31_read
       {| Sht31.sensorPresent := true; Sht31.fallbackReadCount := 0 |}
       {| Sht31.write_done := true;
          Sht31.read_done := Some [0x66; 0x1A; 0x16; 0x7F; 0xFF; 0x8F] |})
    = true.
Proof.
  apply (sht31_read_valid_frame
           {| Sht31.sensorPresent := true; Sht31.fallbackReadCount := 0 |}
           {| Sht31.write_done := true;
              Sht31.read_done := Some [0x66; 0x1A; 0x16; 0x7F; 0xFF; 0x8F] |}
           0x66 0x1A 0x16 0x7F 0xFF 0x8F);
    try reflexivity; unfold is_u8; lia.
Defined.

(** ** Theorems: sensor failure handling *)

Lemma fallback_is_fallback d done : is_fallback (Sht31.fallback d done).
Proof. unfold is_fallback, Sht31.fallback. cbn. repeat split. Qed.

Lemma fallback_present d done :
  Sht31.sensorPresent (Sht31.after (Sht31.fallback d done)) = Sht31.sensorPresent d.
Proof. reflexivity. Qed.

Lemma sht31_read_absent d b :
  Sht31.sensorPresent d = false ->
  Sht31.sht31_read d b = Sht31.fallback d [].
Proof. intros H. unfold Sht31.sht31_read. rewrite H. reflexivity. Qed.

(** Once absent, the driver stays absent and leaves the bus alone. *)
Lemma reads_absent bs :
  forall d, Sht31.sensorPresent d = false ->
  Forall (fun o => is_fallback o /\ Sht31.ops o = [] /\
                   Sht31.sensorPresent (Sht31.after o) = false)
         (Sht31.reads d bs).
Proof.
  induction bs as [|b bs IH]; intros d Hd; cbn [Sht31.reads].
  - constructor.
  - rewrite (sht31_read_absent d b Hd). constructor.
    + split; [apply fallback_is_fallback|]. split; [reflexivity|exact Hd].
    + apply IH. exact Hd.
Qed.

Lemma sht31_read_transfer_failure d b :
  Sht31.sensorPresent d = true ->
  Sht31.write_done b = false \/ Sht31.read_done b = None ->
  is_fallback (Sht31.sht31_read d b) /\
  Sht31.sensorPresent (Sht31.after (Sht31.sht31_read d b)) = false.
Proof.
  intros Hp Hfail. unfold Sht31.sht31_read. rewrite Hp. cbn [negb].
  destruct (Sht31.write_done b); cbn [negb].
  - destruct Hfail as [Hw|Hr]; [discriminate|]. rewrite Hr.
    split; [apply fallback_is_fallback|reflexivity].
  - split; [apply fallback_is_fallback|reflexivity].
Qed.

Lemma sht31_read_crc_mismatch d b b0 b1 b2 b3 b4 b5 :
  Sht31.sensorPresent d = true ->
  Sht31.write_done b = true ->
  Sht31.read_done b = Some [b0; b1; b2; b3; b4; b5] ->
  Crc.calculate_crc [b0; b1] <> b2 \/ Crc.calculate_crc [b3; b4] <> b5 ->
  is_fallback (Sht31.sht31_read d b) /\
  Sht31.sensorPresent (Sht31.after (Sht31.sht31_read d b)) = true.
Proof.
  intros Hp Hw Hr Hcrc. unfold Sht31.sht31_read. rewrite Hp, Hw, Hr.
  cbn [negb firstn skipn nth].
  destruct (Z.eqb_spec (Crc.calculate_crc [b0; b1]) b2) as [E1|N1]; cbn [negb].
  - destruct (Z.eqb_spec (Crc.calculate_crc [b3; b4]) b5) as [E2|N2]; cbn [negb].
    + destruct Hcrc; contradiction.
    + split; [apply fallback_is_fallback|exact Hp].
  - split; [apply fallback_is_fallback|exact Hp].
Qed.

Lemma sht31_read_present_attempts d b :
  Sht31.sensorPresent d = true ->
  exists rest,
    Sht31.ops (Sht31.sht31_read d b)
      = Sht31.I2cWrite Sht31.SHT31_CMD_READ_MSB Sht31.SHT31_CMD_READ_LSB :: rest.
Proof.
  intros Hp. unfold Sht31.sht31_read. rewrite Hp. cbn [negb].
  destruct (Sht31.write_done b); cbn [negb].
  - destruct (Sht31.read_done b) as [data|].
    + destruct (negb _); [eexists; reflexivity|].
      destruct (negb _); eexists; reflexivity.
    + eexists; reflexivity.
  - eexists; reflexivity.
Qed.

(** C5: while the sensor is present, a failed I2C transfer in
    [sht31_read] (the command write or the six-byte read) clears
    [sensorPresent], and every later read returns the fallback without a
    bus operation and keeps it cleared; a checksum mismatch returns the
    fallback for that read only, keeps [sensorPresent] set, and the next
    read starts with the measurement command again. *)
Theorem sht31_read_failure_policy :
  forall d, Sht31.sensorPresent d = true ->
    (forall b,
       Sht31.write_done b = false \/ Sht31.read_done b = None ->
       let o := Sht31.sht31_read d b in
       is_fallback o /\
       Sht31.sensorPresent (Sht31.after o) = false /\
       forall later,
         Forall (fun o' => is_fallback o' /\ Sht31.ops o' = [] /\
                           Sht31.sensorPresent (Sht31.after o') = false)
                (Sht31.reads (Sht31.after o) later)) /\
    (forall b b0 b1 b2 b3 b4 b5,
       Sht31.write_done b = true ->
       Sht31.read_done b = Some [b0; b1; b2; b3; b4; b5] ->
       Crc.calculate_crc [b0; b1] <> b2 \/ Crc.calculate_crc [b3; b4] <> b5 ->
       let o := Sht31.sht31_read d b in
       is_fallback o /\
       Sht31.sensorPresent (Sht31.after o) = true /\
       forall next, exists rest,
         Sht31.ops (Sht31.sht31_read (Sht31.after o) next)
           = Sht31.I2cWrite Sht31.SHT31_CMD_READ_MSB Sht31.SHT31_CMD_READ_LSB
             :: rest).
Proof.
  intros d Hp. split.
  - intros b Hfail o.
    destruct (sht31_read_transfer_failure d b Hp Hfail) as [Hfb Hgone].
    split; [exact Hfb|]. split; [exact Hgone|].
    intros later. apply reads_absent. exact Hgone.
  - intros b b0 b1 b2 b3 b4 b5 Hw Hr Hcrc o.
    destruct (sht31_read_crc_mismatch d b b0 b1 b2 b3 b4 b5 Hp Hw Hr Hcrc)
      as [Hfb Hkept].
    split; [exact Hfb|]. split; [exact Hkept|].
    intros next. apply sht31_read_present_attempts. exact Hkept.
Qed.

Lemma sht31_read_failure_policy_witness :
  Sht31.sensorPresent
    (Sht31.after
       (Sht31.sht31_read
          {| Sht31.sensorPresent := true; Sht31.fallbackReadCount := 0 |}
          {| Sht31.write_done := true; Sht31.read_done := None |})) = false /\
  Sht31.sensorPresent
    (Sht31.after
       (Sht31.sht31_read
          {| Sht31.sensorPresent := true; Sht31.fallbackReadCount := 0 |}
          {| Sht31.write_done := true;
             Sht31.read_done := Some [0xBE; 0xEF; 0x00; 0xBE; 0xEF; 0x92] |}))
    = true.
Proof.
  destruct (sht31_read_failure_policy
              {| Sht31.sensorPresent := true; Sht31.fallbackReadCount := 0 |}
              eq_refl) as [Hio Hcrc].
  split.
  - apply (Hio {| Sht31.write_done := true; Sht31.read_done := None |}).
    right. reflexivity.
  - apply (Hcrc {| Sht31.write_done := true;
                   Sht31.read_done := Some [0xBE; 0xEF; 0x00; 0xBE; 0xEF; 0x92] |}
                0xBE 0xEF 0x00 0xBE 0xEF 0x92); try reflexivity.
    left. vm_compute. discriminate.
Defined.

(** ** Theorems: button *)

(** A call of [button_process] invokes at most one callback. *)
Lemma button_process_emits ms pressed b :
  let out := snd (Button.button_process ms pressed b) in
  out = [] \/ out = [Button.short_press] \/ out = [Button.long_press].
Proof.
  unfold Button.button_process.
  destruct (Button.state b); cbn [snd].
  - destruct (Button.interruptPending b); [destruct pressed|]; auto.
  - destruct (_ >=? _); [destruct pressed|]; auto.
  - destruct (negb _ && _); auto.
  - destruct (_ >=? _); [destruct pressed|]; cbn [negb snd]; auto.
    destruct (negb _); auto.
  - destruct (Button.interruptPending b); [destruct pressed|]; auto.
Qed.

Lemma button_process_callbacks ms pressed b :
  snd (Button.button_process ms pressed b) = callbacks_of ms pressed b.
Proof.
  unfold Button.button_process, callbacks_of.
  destruct b as [st p r pend long].
  destruct st, pend, pressed, long; cbn;
    repeat (destruct (_ >=? _); cbn); reflexivity.
Qed.

Lemma timed_process b t ms pressed :
  timed b t -> t <= ms < 4294967296 ->
  timed (fst (Button.button_process ms pressed b)) ms.
Proof.
  intros [Hc Hp Hr Hpr Hl Hrel] Hms.
  assert (Hu : u32 ms = ms) by (apply u32_small; lia).
  unfold Button.button_process. rewrite Hu.
  destruct b as [st p r pend long]. cbn in *.
  destruct st; cbn.
  - destruct pend; [destruct pressed|]; cbn; constructor; cbn;
      try lia; try discriminate; intros; try discriminate.
  - rewrite (u32_small (ms - p)) by lia.
    unfold Button.BUTTON_DEBOUNCE_MS.
    destruct (Z.geb_spec (ms - p) 50); [destruct pressed|]; cbn;
      constructor; cbn; try lia; try discriminate; intros; try discriminate; lia.
  - specialize (Hpr eq_refl).
    destruct pend; [destruct pressed|]; cbn;
      rewrite (u32_small (ms - p)) by lia;
      unfold Button.BUTTON_LONG_PRESS_MS;
      destruct long; cbn;
      try destruct (Z.geb_spec (ms - p) 3000); cbn;
      constructor; cbn; try lia; try discriminate; intros; try discriminate;
      try (split; [reflexivity|lia]); try (split; [lia|intros; try discriminate; lia]).
  - destruct (Hrel eq_refl) as [H1 H2].
    rewrite (u32_small (ms - r)) by lia.
    unfold Button.BUTTON_DEBOUNCE_MS.
    destruct (Z.geb_spec (ms - r) 50); [destruct pressed|]; cbn;
      constructor; cbn; try lia; try discriminate; intros; try discriminate;
      try (split; [lia|assumption]); lia.
  - destruct (Hl eq_refl) as [H1 H2]. subst long.
    destruct pend; [destruct pressed|]; cbn; constructor; cbn;
      try lia; try discriminate; intros; try discriminate;
      try (split; [reflexivity|lia]); try (split; [lia|intros; discriminate]).
Qed.

Lemma timed_reachable bd t : reachable bd t -> timed (Button.ctx bd) t.
Proof.
  induction 1 as [|bd t i _ IH Hi|bd t ms _ IH Hms].
  - constructor; cbn; try lia; intros; discriminate.
  - destruct IH. destruct Hi as [-> | ->]; cbn; constructor; cbn; assumption.
  - cbn [Button.step].
    pose proof (timed_process (Button.ctx bd) t ms (Button.held bd) IH Hms) as H.
    destruct (Button.button_process ms (Button.held bd) (Button.ctx bd)) as [c out].
    exact H.
Qed.

(** What the driver does by design, on every run from reset whose clock
    is monotone: a short press is reported only for a confirmed press
    whose recorded release came at least 50 ms and less than 3000 ms after
    the recorded press, once that release was itself debounced; a long
    press is reported only for a confirmed press that has not yet
    produced a long press, at least 3000 ms after the recorded press. *)
Lemma button_callbacks_by_design bd t ms :
  reachable bd t -> t <= ms < 4294967296 ->
  let b := Button.ctx bd in
  let out := snd (Button.step bd (Button.Loop ms)) in
  (out = [] \/ out = [Button.short_press] \/ out = [Button.long_press]) /\
  (In Button.short_press out ->
     Button.state b = Button.BUTTON_STATE_DEBOUNCE_RELEASE /\
     Button.held bd = false /\
     50 <= ms - Button.releaseTimestamp b /\
     50 <= Button.releaseTimestamp b - Button.pressTimestamp b < 3000) /\
  (In Button.long_press out ->
     Button.state b = Button.BUTTON_STATE_PRESSED /\
     Button.longPressTriggered b = false /\
     3000 <= ms - Button.pressTimestamp b).
Proof.
  intros Hreach Hms b out.
  pose proof (timed_reachable bd t Hreach) as [Hc Hp Hr Hpr Hl Hrel].
  fold b in Hp, Hr, Hpr, Hl, Hrel.
  assert (Hout : out = callbacks_of ms (Button.held bd) b).
  { unfold out. cbn [Button.step].
    rewrite <- button_process_callbacks. fold b.
    destruct (Button.button_process ms (Button.held bd) b). reflexivity. }
  assert (Hu : u32 ms = ms) by (apply u32_small; lia).
  split.
  { rewrite Hout, <- button_process_callbacks. apply button_process_emits. }
  rewrite Hout. unfold callbacks_of. rewrite Hu.
  unfold Button.BUTTON_DEBOUNCE_MS, Button.BUTTON_LONG_PRESS_MS.
  destruct (Button.state b) eqn:Est; cbn [In]; split; try tauto.
  - destruct (negb _ && _); cbn; intuition discriminate.
  - rewrite (u32_small (ms - Button.pressTimestamp b)) by lia.
    destruct (Button.longPressTriggered b); cbn; [tauto|].
    destruct (Z.geb_spec (ms - Button.pressTimestamp b) 3000); cbn; [|tauto].
    intros _. repeat split; lia.
  - destruct (Hrel eq_refl) as [H1 H2].
    rewrite (u32_small (ms - Button.releaseTimestamp b)) by lia.
    destruct (Z.geb_spec (ms - Button.releaseTimestamp b) 50); cbn; [|tauto].
    destruct (Button.held bd); cbn; [tauto|].
    destruct (Button.longPressTriggered b); cbn; [tauto|].
    intros _. specialize (H2 eq_refl). repeat split; lia.
  - destruct ((_ >=? _) && _ && _); cbn; intuition discriminate.
Qed.

(** The defect in general: when the release of a confirmed press is seen
    by the call in which the press reaches the long threshold, the
    release is swallowed and the driver waits in LONG_PRESS_TRIGGERED
    with the interrupt flag cleared. *)
Lemma button_release_overridden ms b :
  Button.state b = Button.BUTTON_STATE_PRESSED ->
  Button.interruptPending b = true ->
  Button.longPressTriggered b = false ->
  3000 <= u32 (u32 ms - Button.pressTimestamp b) ->
  Button.button_process ms false b
  = ({| Button.state := Button.BUTTON_STATE_LONG_PRESS_TRIGGERED;
        Button.pressTimestamp := Button.pressTimestamp b;
        Button.releaseTimestamp := u32 ms;
        Button.interruptPending := false;
        Button.longPressTriggered := true |},
     [Button.long_press]).
Proof.
  intros Hst Hpend Hlong Hdur. unfold Button.button_process.
  rewrite Hst, Hpend. cbn. rewrite Hlong. cbn.
  unfold Button.BUTTON_LONG_PRESS_MS.
  destruct (Z.geb_spec (u32 (u32 ms - Button.pressTimestamp b)) 3000); [|lia].
  reflexivity.
Qed.

(** C1 (defect): when the main loop sees the release of a confirmed press
    in the same call in which the press reaches 3000 ms, [button_process]
    overwrites DEBOUNCE_RELEASE with LONG_PRESS_TRIGGERED: the long press
    is reported although the button is up, the driver is left waiting for
    a release whose interrupt it has consumed, and the next press, held
    for 500 ms and cleanly released, is reported neither as short nor as
    long press. *)
Theorem button_release_near_long_threshold :
  let '(bd1, out1) := Button.run Button.board_init release_near_threshold in
  let '(bd2, out2) := Button.run bd1 clean_half_second_press in
  out1 = [[]; []; []; []; []; [Button.long_press]; []] /\
  Button.held bd1 = false /\
  Button.state (Button.ctx bd1) = Button.BUTTON_STATE_LONG_PRESS_TRIGGERED /\
  Button.interruptPending (Button.ctx bd1) = false /\
  List.concat out2 = [] /\
  Button.state (Button.ctx bd2) = Button.BUTTON_STATE_IDLE.
Proof. vm_compute. repeat split. Qed.

(** ** Theorems: fast poll *)

Lemma app_set_fast_poll_same enable e w :
  App.fastPollActive (App.appContext w) = enable ->
  App.app_set_fast_poll enable e w = (tt, w).
Proof.
  intros H. unfold App.app_set_fast_poll, App.bind, App.get.
  rewrite H. destruct enable; reflexivity.
Qed.

Lemma app_set_fast_poll_active enable e w :
  App.fastPollActive (App.appContext (App.exec (App.app_set_fast_poll enable) e w))
    = enable.
Proof.
  unfold App.exec, App.app_set_fast_poll, App.bind, App.get.
  destruct enable, (App.fastPollActive (App.appContext w)) eqn:E;
    cbn; auto.
Qed.

Lemma app_set_fast_poll_calls enable e w :
  App.calls (App.exec (App.app_set_fast_poll enable) e w)
    = App.calls w ++
      (if Bool.eqb enable (App.fastPollActive (App.appContext w)) then []
       else if enable
            then [Af.emberAfSetWakeTimeoutQsCallback App.APP_FAST_POLL_INTERVAL_QS;
                  Af.emberAfAddToCurrentAppTasksCallback]
            else [Af.emberAfSetWakeTimeoutQsCallback App.APP_NORMAL_POLL_INTERVAL_QS;
                  Af.emberAfRemoveFromCurrentAppTasksCallback]).
Proof.
  unfold App.exec, App.app_set_fast_poll, App.bind, App.get.
  destruct enable, (App.fastPollActive (App.appContext w)) eqn:E;
    cbn; rewrite <- ?app_assoc, ?app_nil_r; reflexivity.
Qed.

(** C7: [app_set_fast_poll] is idempotent.  From normal poll, two calls
    with [true] in a row issue the wake-timeout write (2 quarter seconds)
    and the add-task call once each; from fast poll, two calls with
    [false] issue the wake-timeout write (30 quarter seconds) and the
    remove-task call once each; in every state the second call makes no
    call at all and changes nothing. *)
Theorem app_set_fast_poll_idempotent :
  (forall e w,
     App.fastPollActive (App.appContext w) = false ->
     App.calls (App.exec (App.bind (App.app_set_fast_poll true)
                            (fun _ => App.app_set_fast_poll true)) e w)
       = App.calls w ++ [Af.emberAfSetWakeTimeoutQsCallback 2;
                         Af.emberAfAddToCurrentAppTasksCallback]) /\
  (forall e w,
     App.fastPollActive (App.appContext w) = true ->
     App.calls (App.exec (App.bind (App.app_set_fast_poll false)
                            (fun _ => App.app_set_fast_poll false)) e w)
       = App.calls w ++ [Af.emberAfSetWakeTimeoutQsCallback 30;
                         Af.emberAfRemoveFromCurrentAppTasksCallback]) /\
  (forall enable e e' w,
     let w1 := App.exec (App.app_set_fast_poll enable) e w in
     App.exec (App.app_set_fast_poll enable) e' w1 = w1).
Proof.
  assert (Hsecond : forall enable e e' w,
            App.exec (App.app_set_fast_poll enable) e'
              (App.exec (App.app_set_fast_poll enable) e w)
            = App.exec (App.app_set_fast_poll enable) e w).
  { intros enable e e' w. unfold App.exec at 1.
    rewrite app_set_fast_poll_same by apply app_set_fast_poll_active.
    reflexivity. }
  assert (Htwice : forall enable e w,
            App.exec (App.bind (App.app_set_fast_poll enable)
                        (fun _ => App.app_set_fast_poll enable)) e w
            = App.exec (App.app_set_fast_poll enable) e w).
  { intros enable e w.
    pose proof (Hsecond enable e e w) as H. unfold App.exec in *.
    unfold App.bind.
    destruct (App.app_set_fast_poll enable e w) as [[] w1].
    exact H. }
  split; [|split].
  - intros e w H. rewrite Htwice, app_set_fast_poll_calls, H. reflexivity.
  - intros e w H. rewrite Htwice, app_set_fast_poll_calls, H. reflexivity.
  - intros enable e e' w w1. apply Hsecond.
Qed.

Lemma app_set_fast_poll_idempotent_witness :
  App.calls (App.exec (App.bind (App.app_set_fast_poll true)
                         (fun _ => App.app_set_fast_poll true))
               {| App.network_state := Af.EMBER_JOINED_NETWORK;
                  App.steering_status := Af.EMBER_SUCCESS;
                  App.leave_status := Af.EMBER_SUCCESS;
                  App.reset_done := true;
                  App.i2c := {| Sht31.write_done := true; Sht31.read_done := None |};
                  App.adc_result := 0; App.tick_ms := 0;
                  App.pin_pressed := false |}
               App.world_init)
    = [Af.emberAfSetWakeTimeoutQsCallback 2;
       Af.emberAfAddToCurrentAppTasksCallback].
Proof.
  apply (proj1 app_set_fast_poll_idempotent). reflexivity.
Defined.

(** ** Reasoning about the procedures of app.c *)

Ltac app_unfold :=
  unfold App.exec, App.handle, App.app_process_action, App.button_process,
    App.button_callback,
    App.button_gpio_callback, App.cli_sensor_read, App.cli_battery_read,
    App.cli_network_status, App.button_short_press_callback,
    App.button_long_press_callback, App.fast_poll_timer_callback,
    App.transition_to_normal_poll, App.sensor_timer_callback,
    App.app_stack_status_callback, App.app_trigger_sensor_read,
    App.app_leave_network, App.app_start_join, App.app_init,
    App.app_update_battery_data, App.app_update_sensor_data,
    App.emberAfPluginNetworkSteeringCompleteCallback, App.app_set_fast_poll,
    App.battery_read_voltage, App.sht31_init, App.sht31_read,
    App.network_joined, App.emberAfNetworkState,
    App.set_sensorInitialized, App.set_joinAttempts, App.set_joinTimestamp,
    App.set_fastPollActive, App.set_state, App.when,
    App.put_button, App.get_button, App.put_sensor, App.get_sensor,
    App.emit, App.put, App.get, App.ask, App.bind, App.ret in *.

Ltac app_case :=
  match goal with
  | |- context [if ?b then _ else _] => destruct b eqn:?
  | |- context [match ?x with _ => _ end] => destruct x eqn:?
  end.

Ltac app_crush := app_unfold; cbn; repeat (app_case; cbn); try reflexivity.

Lemma exec_bind {A B} (m : App.M A) (k : A -> App.M B) e w :
  App.exec (App.bind m k) e w = App.exec (k (fst (m e w))) e (App.exec m e w).
Proof. unfold App.exec, App.bind. destruct (m e w). reflexivity. Qed.

Lemma main_tick_exec e w :
  App.exec App.app_process_action e w
  = App.exec
      (App.button_callbacks
         (snd (Button.button_process (App.tick_ms e) (App.pin_pressed e)
                 (App.buttonContext w))))
      e
      {| App.appContext := App.appContext w;
         App.sensor := App.sensor w;
         App.buttonContext :=
           fst (Button.button_process (App.tick_ms e) (App.pin_pressed e)
                  (App.buttonContext w));
         App.calls := App.calls w |}.
Proof.
  unfold App.app_process_action, App.button_process, App.exec, App.bind,
    App.ask, App.get_button, App.put_button.
  destruct (Button.button_process _ _ _) as [b' cbs]. reflexivity.
Qed.

(** Whatever holds after no callback, after the short-press callback and
    after the long-press callback holds after a pass of the main loop. *)
Lemma main_tick_cases (P : App.world -> Prop) e w :
  (forall b, P {| App.appContext := App.appContext w; App.sensor := App.sensor w;
                  App.buttonContext := b; App.calls := App.calls w |}) ->
  (forall b, P (App.exec App.button_short_press_callback e
                  {| App.appContext := App.appContext w; App.sensor := App.sensor w;
                     App.buttonContext := b; App.calls := App.calls w |})) ->
  (forall b, P (App.exec App.button_long_press_callback e
                  {| App.appContext := App.appContext w; App.sensor := App.sensor w;
                     App.buttonContext := b; App.calls := App.calls w |})) ->
  P (App.exec App.app_process_action e w).
Proof.
  intros Hnone Hshort Hlong. rewrite main_tick_exec.
  destruct (button_process_emits (App.tick_ms e) (App.pin_pressed e)
              (App.buttonContext w)) as [H | [H | H]];
    cbv zeta in H; rewrite H; cbn [App.button_callbacks App.button_callback].
  - apply Hnone.
  - specialize (Hshort (fst (Button.button_process (App.tick_ms e) (App.pin_pressed e)
                  (App.buttonContext w)))).
    unfold App.exec, App.bind, App.ret in *.
    destruct (App.button_short_press_callback e _) as [[] w']. exact Hshort.
  - specialize (Hlong (fst (Button.button_process (App.tick_ms e) (App.pin_pressed e)
                  (App.buttonContext w)))).
    unfold App.exec, App.bind, App.ret in *.
    destruct (App.button_long_press_callback e _) as [[] w']. exact Hlong.
Qed.

(** ** Theorems: the fast-poll invariant *)

Lemma AppState_eqb_eq a b : App.AppState_eqb a b = true <-> a = b.
Proof. destruct a, b; cbn; split; intros H; try discriminate; reflexivity. Qed.

Ltac inv_crush :=
  unfold fast_poll_invariant in *; app_unfold; cbn in *;
  repeat (app_case; cbn in *);
  try (split; intros; congruence);
  try tauto.

Lemma fast_poll_invariant_step ev e w :
  fast_poll_invariant w ->
  (App.state (App.appContext w) = App.APP_STATE_JOINED_FAST_POLL ->
   leaves_fast_poll_unswitched ev e = false) ->
  fast_poll_invariant (App.exec (App.handle ev) e w).
Proof.
  intros Hinv Hev.
  destruct w as [[st fp ts ja si bp] sn bc cs].
  destruct e as [ns ss ls rd bus adc ms pin].
  unfold fast_poll_invariant in Hinv. cbn in Hinv.
  unfold leaves_fast_poll_unswitched, stack_joined in Hev. cbn in Hev.
  assert (Hfp : fp = true <-> st = App.APP_STATE_JOINED_FAST_POLL) by exact Hinv.
  clear Hinv.
  destruct ev as [ | status | status tb ja' fs | | | | | | cmd ];
    cbn [App.handle];
    [ apply main_tick_cases; intros b | .. ];
    try destruct status; destruct st, fp, ns;
    try (exfalso; cbn in Hev; intuition congruence);
    inv_crush.
Qed.

Lemma fast_poll_invariant_boot e : fast_poll_invariant (App.boot e).
Proof. unfold App.boot. inv_crush. Qed.

Lemma fast_poll_invariant_quiescent tr :
  forall w, fast_poll_invariant w -> keeps_fast_poll_paired w tr ->
  Forall fast_poll_invariant (App.quiescent w tr).
Proof.
  induction tr as [|[ev e] rest IH]; intros w Hinv Hok; cbn [App.quiescent].
  - constructor; [exact Hinv|constructor].
  - destruct Hok as [Hev Hrest]. constructor; [exact Hinv|].
    apply IH; [|exact Hrest].
    apply fast_poll_invariant_step; assumption.
Qed.

(** The invariant does hold along the ordinary session, whose phases are
    NOT_JOINED, JOINING, JOINED_FAST_POLL, JOINED_NORMAL, LEAVING and
    NOT_JOINED again; the stack sees the fast wake timeout, the normal one
    and a single leave request. *)
Example fast_poll_invariant_ordinary_session :
  Forall fast_poll_invariant (App.quiescent (App.boot env_idle) ordinary_session) /\
  map phase_and_poll (App.quiescent (App.boot env_idle) ordinary_session)
    = [ (App.APP_STATE_NOT_JOINED, false); (App.APP_STATE_NOT_JOINED, false);
        (App.APP_STATE_NOT_JOINED, false); (App.APP_STATE_NOT_JOINED, false);
        (App.APP_STATE_NOT_JOINED, false); (App.APP_STATE_NOT_JOINED, false);
        (App.APP_STATE_JOINING, false);
        (App.APP_STATE_JOINED_FAST_POLL, true);
        (App.APP_STATE_JOINED_NORMAL, false);
        (App.APP_STATE_JOINED_NORMAL, false);
        (App.APP_STATE_JOINED_NORMAL, false);
        (App.APP_STATE_JOINED_NORMAL, false);
        (App.APP_STATE_JOINED_NORMAL, false);
        (App.APP_STATE_LEAVING, false);
        (App.APP_STATE_NOT_JOINED, false) ] /\
  filter (fun c => Af.is_stack_write c
                   || match c with Af.emberLeaveNetwork => true | _ => false end)
    (App.calls (App.run (App.boot env_idle) ordinary_session))
    = [ Af.emberAfSetWakeTimeoutQsCallback 2;
        Af.emberAfAddToCurrentAppTasksCallback;
        Af.emberAfSetWakeTimeoutQsCallback 30;
        Af.emberAfRemoveFromCurrentAppTasksCallback;
        Af.emberLeaveNetwork ].
Proof.
  split; [|split; vm_compute; reflexivity].
  apply fast_poll_invariant_quiescent; [apply fast_poll_invariant_boot|].
  vm_compute. repeat split; intros H; try reflexivity; discriminate H.
Qed.

(** C2 (defect): a JOIN_FAILED notification in JOINED_FAST_POLL sets the
    phase to NOT_JOINED and leaves [fastPollActive] set, unlike the
    NETWORK_DOWN path; the invariant is broken at that quiescent point
    and at the next, and the normal wake timeout is never restored. *)
Theorem fast_poll_survives_join_failed :
  let ws := App.quiescent (App.boot env_idle) join_then_join_failed in
  map phase_and_poll ws
    = [ (App.APP_STATE_NOT_JOINED, false); (App.APP_STATE_NOT_JOINED, false);
        (App.APP_STATE_NOT_JOINED, false); (App.APP_STATE_NOT_JOINED, false);
        (App.APP_STATE_NOT_JOINED, false); (App.APP_STATE_NOT_JOINED, false);
        (App.APP_STATE_JOINING, false);
        (App.APP_STATE_JOINED_FAST_POLL, true);
        (App.APP_STATE_NOT_JOINED, true);
        (App.APP_STATE_NOT_JOINED, true) ] /\
  ~ Forall fast_poll_invariant ws /\
  filter Af.is_stack_write
    (App.calls (App.run (App.boot env_idle) join_then_join_failed))
    = [ Af.emberAfSetWakeTimeoutQsCallback 2;
        Af.emberAfAddToCurrentAppTasksCallback ].
Proof.
  split; [vm_compute; reflexivity|]. split; [|vm_compute; reflexivity].
  intros H. rewrite Forall_forall in H.
  assert (Hin : In (App.run (App.boot env_idle) join_then_join_failed)
                   (App.quiescent (App.boot env_idle) join_then_join_failed)).
  { vm_compute. do 9 right. left. reflexivity. }
  specialize (H _ Hin). unfold fast_poll_invariant in H.
  assert (Hfp : App.fastPollActive (App.appContext
            (App.run (App.boot env_idle) join_then_join_failed)) = true)
    by (vm_compute; reflexivity).
  apply H in Hfp. vm_compute in Hfp. discriminate.
Qed.

(** ** Theorems: join attempts *)

Lemma handle_joinAttempts ev e w :
  failed_completion ev = false ->
  App.joinAttempts (App.appContext (App.exec (App.handle ev) e w))
  = App.joinAttempts (App.appContext w).
Proof.
  intros H. destruct ev; try (cbn in H; discriminate); try solve [app_crush].
  - cbn [App.handle]. apply main_tick_cases; intros b; app_crush.
  - cbn in H. destruct status; cbn in H; try discriminate. app_crush.
Qed.

Lemma steering_complete_failure status tb ja' fs e w :
  App.is_success status = false ->
  let w' := App.exec (App.handle (App.NetworkSteeringComplete status tb ja' fs)) e w in
  App.state (App.appContext w') = App.APP_STATE_NOT_JOINED /\
  App.joinAttempts (App.appContext w') = u8 (App.joinAttempts (App.appContext w) + 1) /\
  App.calls w' = App.calls w.
Proof.
  intros H. cbn [App.handle].
  unfold App.emberAfPluginNetworkSteeringCompleteCallback. rewrite H.
  app_unfold. cbn. repeat split.
Qed.

Lemma app_start_join_failure e w :
  App.state (App.appContext w) <> App.APP_STATE_JOINING ->
  App.network_state e <> Af.EMBER_JOINED_NETWORK ->
  App.is_success (App.steering_status e) = false ->
  let w' := App.exec App.app_start_join e w in
  App.calls w' = App.calls w ++ [Af.emberAfPluginNetworkSteeringStart] /\
  App.state (App.appContext w') = App.APP_STATE_NOT_JOINED /\
  App.joinAttempts (App.appContext w') = App.joinAttempts (App.appContext w).
Proof.
  intros Hst Hnet Hfail.
  destruct w as [[st fp ts ja si bp] sn bc cs].
  destruct e as [ns ss ls rd bus adc ms pin].
  cbn in Hst, Hnet, Hfail.
  destruct st, ns; try congruence; app_unfold; cbn; rewrite Hfail; cbn;
    repeat split.
Qed.

Lemma boot_joinAttempts e : App.joinAttempts (App.appContext (App.boot e)) = 0.
Proof. unfold App.boot. app_crush. Qed.

(** C8, as stated, fails: after boot without a network, a short press
    whose steering start call fails leaves the session in NOT_JOINED with
    [joinAttempts] not incremented. *)
Lemma steering_start_failure_not_counted :
  let w := App.boot env_idle in
  let w' := App.exec (App.handle App.button_short_press)
              (with_steering Af.EMBER_OTHER_STATUS env_idle) w in
  App.state (App.appContext w) = App.APP_STATE_NOT_JOINED /\
  App.calls w' = App.calls w ++ [Af.emberAfPluginNetworkSteeringStart] /\
  App.state (App.appContext w') = App.APP_STATE_NOT_JOINED /\
  App.joinAttempts (App.appContext w') <> App.joinAttempts (App.appContext w) + 1.
Proof. vm_compute. repeat split; discriminate. Qed.

(** C8 (amended): a steering completion with a status other than success
    returns the session to NOT_JOINED and increments [joinAttempts] by one
    (an 8-bit counter: 255 wraps to 0); a failure of the steering start
    call in [app_start_join] returns the session to NOT_JOINED and leaves
    [joinAttempts] unchanged; no other event changes [joinAttempts], which
    is 0 after boot. *)
Theorem join_attempts_counted_on_completion_failure :
  (forall status totalBeacons joinAttempts' finalState e w,
     App.is_success status = false ->
     let w' := App.exec (App.handle (App.NetworkSteeringComplete
                           status totalBeacons joinAttempts' finalState)) e w in
     App.state (App.appContext w') = App.APP_STATE_NOT_JOINED /\
     App.joinAttempts (App.appContext w')
       = u8 (App.joinAttempts (App.appContext w) + 1) /\
     (0 <= App.joinAttempts (App.appContext w) < 255 ->
      App.joinAttempts (App.appContext w')
        = App.joinAttempts (App.appContext w) + 1)) /\
  (forall e w,
     App.state (App.appContext w) <> App.APP_STATE_JOINING ->
     App.network_state e <> Af.EMBER_JOINED_NETWORK ->
     App.is_success (App.steering_status e) = false ->
     let w' := App.exec App.app_start_join e w in
     App.calls w' = App.calls w ++ [Af.emberAfPluginNetworkSteeringStart] /\
     App.state (App.appContext w') = App.APP_STATE_NOT_JOINED /\
     App.joinAttempts (App.appContext w') = App.joinAttempts (App.appContext w)) /\
  (forall ev e w,
     failed_completion ev = false ->
     App.joinAttempts (App.appContext (App.exec (App.handle ev) e w))
       = App.joinAttempts (App.appContext w)) /\
  (forall e, App.joinAttempts (App.appContext (App.boot e)) = 0).
Proof.
  split; [|split; [|split]].
  - intros status tb ja' fs e w H w'.
    destruct (steering_complete_failure status tb ja' fs e w H) as (Hs & Hj & _).
    fold w' in Hs, Hj.
    split; [exact Hs|]. split; [exact Hj|].
    intros Hr. rewrite Hj. apply u8_small. lia.
  - exact app_start_join_failure.
  - exact handle_joinAttempts.
  - exact boot_joinAttempts.
Qed.

Lemma join_attempts_counted_on_completion_failure_witness :
  App.joinAttempts
    (App.appContext
       (App.exec (App.handle (App.NetworkSteeringComplete
                                Af.EMBER_OTHER_STATUS 0 1 0))
          env_idle (App.boot env_idle)))
  = u8 (App.joinAttempts (App.appContext (App.boot env_idle)) + 1).
Proof.
  destruct (proj1 join_attempts_counted_on_completion_failure
              Af.EMBER_OTHER_STATUS 0 1 0 env_idle (App.boot env_idle) eq_refl)
    as (_ & Hcount & _).
  exact Hcount.
Defined.

(** ** Theorems: sensor attributes after a failed read *)

Lemma written_app a cs cs' :
  Af.written a (cs ++ cs') = Af.written a cs ++ Af.written a cs'.
Proof. unfold Af.written. apply flat_map_app. Qed.

Lemma written_sensor_bus a ops :
  Af.written a (map Af.sensor_bus ops) = [].
Proof. induction ops as [|op ops IH]; [reflexivity|exact IH]. Qed.

Lemma written_other a c cs :
  Af.writes_attribute a c = false ->
  Af.written a (cs ++ [c]) = Af.written a cs.
Proof.
  intros H. rewrite written_app. unfold Af.written at 2. cbn [flat_map].
  destruct c; cbn in H |- *; try apply app_nil_r.
  destruct (Af.eq_attribute_dec a a0); [discriminate|apply app_nil_r].
Qed.

(** With an initialised sensor, a read that returns [false] makes
    [app_update_sensor_data] write nothing. *)
Lemma app_update_sensor_data_failed e w :
  App.sensorInitialized (App.appContext w) = true ->
  Sht31.real (Sht31.sht31_read (App.sensor w) (App.i2c e)) = false ->
  App.exec App.app_update_sensor_data e w
  = {| App.appContext := App.appContext w;
       App.sensor := Sht31.after (Sht31.sht31_read (App.sensor w) (App.i2c e));
       App.buttonContext := App.buttonContext w;
       App.calls := App.calls w
         ++ map Af.sensor_bus (Sht31.ops (Sht31.sht31_read (App.sensor w) (App.i2c e))) |}.
Proof.
  intros Hinit Hreal. app_unfold. cbn. rewrite Hreal, Hinit. reflexivity.
Qed.

Lemma app_update_battery_data_calls e w :
  App.exec App.app_update_battery_data e w
  = {| App.appContext := App.appContext w;
       App.sensor := App.sensor w;
       App.buttonContext := App.buttonContext w;
       App.calls := App.calls w ++
         [ Af.ADC_Start;
           Af.emberAfWriteServerAttribute App.APP_ENDPOINT
             Af.ZCL_POWER_CONFIG_CLUSTER_ID Af.ZCL_BATTERY_VOLTAGE_ATTRIBUTE_ID
             (Af.Byte (u8 (Battery.battery_read_voltage (App.adc_result e) / 100)))
             Af.ZCL_INT8U_ATTRIBUTE_TYPE;
           Af.emberAfWriteServerAttribute App.APP_ENDPOINT
             Af.ZCL_POWER_CONFIG_CLUSTER_ID
             Af.ZCL_BATTERY_PERCENTAGE_REMAINING_ATTRIBUTE_ID
             (Af.Byte (u8 (Battery.battery_voltage_to_percentage
                             (Battery.battery_read_voltage (App.adc_result e)) * 2)))
             Af.ZCL_INT8U_ATTRIBUTE_TYPE ] |}.
Proof.
  app_unfold. cbn. rewrite <- !app_assoc. reflexivity.
Qed.

Lemma sensor_timer_failed e w :
  App.sensorInitialized (App.appContext w) = true ->
  App.is_joined_state (App.state (App.appContext w)) = true ->
  Sht31.real (Sht31.sht31_read (App.sensor w) (App.i2c e)) = false ->
  App.calls (App.exec App.sensor_timer_callback e w)
  = App.calls w
    ++ map Af.sensor_bus (Sht31.ops (Sht31.sht31_read (App.sensor w) (App.i2c e)))
    ++ [ Af.ADC_Start;
         Af.emberAfWriteServerAttribute App.APP_ENDPOINT
           Af.ZCL_POWER_CONFIG_CLUSTER_ID Af.ZCL_BATTERY_VOLTAGE_ATTRIBUTE_ID
           (Af.Byte (u8 (Battery.battery_read_voltage (App.adc_result e) / 100)))
           Af.ZCL_INT8U_ATTRIBUTE_TYPE;
         Af.emberAfWriteServerAttribute App.APP_ENDPOINT
           Af.ZCL_POWER_CONFIG_CLUSTER_ID
           Af.ZCL_BATTERY_PERCENTAGE_REMAINING_ATTRIBUTE_ID
           (Af.Byte (u8 (Battery.battery_voltage_to_percentage
                           (Battery.battery_read_voltage (App.adc_result e)) * 2)))
           Af.ZCL_INT8U_ATTRIBUTE_TYPE ].
Proof.
  intros Hinit Hjoined Hreal.
  unfold App.sensor_timer_callback.
  rewrite exec_bind. unfold App.get at 1 2. cbn [fst App.exec snd].
  rewrite Hjoined. cbn [App.when].
  rewrite exec_bind, app_update_battery_data_calls.
  rewrite (app_update_sensor_data_failed e w Hinit Hreal).
  cbn [App.calls]. rewrite <- app_assoc. reflexivity.
Qed.

Ltac demoted_crush :=
  app_unfold; cbn in *;
  repeat match goal with
         | H : Sht31.sensorPresent ?d = false |- context [Sht31.sht31_read ?d ?b] =>
             rewrite (sht31_read_absent d b H)
         end;
  cbn in *;
  repeat (app_case; cbn in *);
  unfold sensor_attribute_writes;
  rewrite ?app_nil_r;
  rewrite ?written_other by reflexivity;
  try (split; [split; reflexivity | reflexivity]).

Lemma handle_demoted ev e w :
  demoted w ->
  demoted (App.exec (App.handle ev) e w) /\
  sensor_attribute_writes (App.calls (App.exec (App.handle ev) e w))
  = sensor_attribute_writes (App.calls w).
Proof.
  intros [Hinit Habsent].
  destruct w as [[st fp ts ja si bp] [sp cnt] bc cs].
  cbn in Hinit, Habsent. subst si sp. unfold demoted.
  destruct ev as [ | status | status tb ja' fs | | | | | | cmd ];
    cbn [App.handle];
    [ apply main_tick_cases; intros b | .. ];
    demoted_crush.
Qed.

Lemma run_demoted tr :
  forall w, demoted w ->
  demoted (App.run w tr) /\
  sensor_attribute_writes (App.calls (App.run w tr))
  = sensor_attribute_writes (App.calls w).
Proof.
  induction tr as [|[ev e] rest IH]; intros w Hd; cbn [App.run].
  - split; [exact Hd|reflexivity].
  - destruct (handle_demoted ev e w Hd) as [Hd' Hsame].
    destruct (IH _ Hd') as [Hd'' Hsame'].
    split; [exact Hd''|]. rewrite Hsame'. exact Hsame.
Qed.

Lemma app_update_sensor_data_demotes e w :
  App.sensorInitialized (App.appContext w) = true ->
  Sht31.sensorPresent (App.sensor w) = true ->
  Sht31.write_done (App.i2c e) = false \/ Sht31.read_done (App.i2c e) = None ->
  demoted (App.exec App.app_update_sensor_data e w).
Proof.
  intros Hinit Hp Hfail.
  destruct (sht31_read_transfer_failure (App.sensor w) (App.i2c e) Hp Hfail)
    as [[Hreal _] Hgone].
  rewrite (app_update_sensor_data_failed e w Hinit Hreal).
  split; [exact Hinit|exact Hgone].
Qed.

(** C10: with a sensor that answered at [sht31_init], a call of
    [app_update_sensor_data] whose [sht31_read] returns [false] writes
    neither the temperature nor the humidity attribute, and a sensor tick
    in a joined phase still writes the two battery attributes; an I2C
    failure in that read leaves the driver absent, and from then on no
    event of the session writes the temperature or the humidity attribute
    again, while every sampling tick keeps writing the battery
    attributes. *)
Theorem sensor_attributes_frozen_after_failed_read :
  (forall e w,
     App.sensorInitialized (App.appContext w) = true ->
     Sht31.real (Sht31.sht31_read (App.sensor w) (App.i2c e)) = false ->
     App.calls (App.exec App.app_update_sensor_data e w)
       = App.calls w
         ++ map Af.sensor_bus
              (Sht31.ops (Sht31.sht31_read (App.sensor w) (App.i2c e))) /\
     sensor_attribute_writes (App.calls (App.exec App.app_update_sensor_data e w))
       = sensor_attribute_writes (App.calls w) /\
     (App.is_joined_state (App.state (App.appContext w)) = true ->
      App.calls (App.exec App.sensor_timer_callback e w)
        = App.calls w
          ++ map Af.sensor_bus
               (Sht31.ops (Sht31.sht31_read (App.sensor w) (App.i2c e)))
          ++ battery_writes e)) /\
  (forall e w,
     App.sensorInitialized (App.appContext w) = true ->
     Sht31.sensorPresent (App.sensor w) = true ->
     Sht31.write_done (App.i2c e) = false \/ Sht31.read_done (App.i2c e) = None ->
     demoted (App.exec App.app_update_sensor_data e w)) /\
  (forall w tr,
     demoted w ->
     demoted (App.run w tr) /\
     sensor_attribute_writes (App.calls (App.run w tr))
       = sensor_attribute_writes (App.calls w)) /\
  (forall e w,
     demoted w ->
     App.is_joined_state (App.state (App.appContext w)) = true ->
     App.calls (App.exec App.sensor_timer_callback e w)
       = App.calls w ++ battery_writes e).
Proof.
  split; [|split; [|split]].
  - intros e w Hinit Hreal. split; [|split].
    + rewrite (app_update_sensor_data_failed e w Hinit Hreal). reflexivity.
    + rewrite (app_update_sensor_data_failed e w Hinit Hreal). cbn [App.calls].
      unfold sensor_attribute_writes.
      rewrite !written_app, !written_sensor_bus, !app_nil_r. reflexivity.
    + intros Hj. apply sensor_timer_failed; assumption.
  - exact app_update_sensor_data_demotes.
  - intros w tr Hd. apply run_demoted. exact Hd.
  - intros e w [Hinit Habsent] Hj.
    assert (Hreal : Sht31.real (Sht31.sht31_read (App.sensor w) (App.i2c e)) = false).
    { rewrite (sht31_read_absent _ _ Habsent). reflexivity. }
    rewrite (sensor_timer_failed e w Hinit Hj Hreal).
    rewrite (sht31_read_absent _ _ Habsent). reflexivity.
Qed.

Lemma sensor_attributes_frozen_after_failed_read_witness :
  let w := App.exec App.sensor_timer_callback
             (with_i2c {| Sht31.write_done := true; Sht31.read_done := None |}
                env_joined)
             (App.boot env_joined) in
  sensor_attribute_writes
    (App.calls (App.run w [ (App.sensor_timer_expiry, env_joined);
                            (App.button_short_press, env_joined) ]))
  = sensor_attribute_writes (App.calls w).
Proof.
  intros w.
  apply (proj1 (proj2 (proj2 sensor_attributes_frozen_after_failed_read))).
  split; reflexivity.
Defined.

(** ** Theorems: Basic cluster bring-up *)

(** C9 (defect): the Basic cluster's init callback writes the power
    source attribute once, with the single-phase-mains value 0x01 and not
    the battery value 0x03. *)
Theorem basic_cluster_power_source_is_mains :
  forall endpoint,
    Af.written Af.ZCL_POWER_SOURCE_ATTRIBUTE_ID
      (Zcl.emberAfBasicClusterServerInitCallback endpoint)
      = [Af.Byte Af.EMBER_ZCL_POWER_SOURCE_SINGLE_PHASE_MAINS] /\
    Af.written Af.ZCL_POWER_SOURCE_ATTRIBUTE_ID
      (Zcl.emberAfBasicClusterServerInitCallback endpoint)
      <> [Af.Byte Af.EMBER_ZCL_POWER_SOURCE_BATTERY].
Proof.
  intros endpoint. split; [reflexivity|].
  vm_compute. discriminate.
Qed.

(** ** Theorems: Identify *)

Lemma identify_count_app p xs ys :
  Identify.count p (xs ++ ys) = Identify.count p xs + Identify.count p ys.
Proof.
  unfold Identify.count. rewrite filter_app, length_app. lia.
Qed.

Lemma identify_written_app xs ys :
  Identify.written_times (xs ++ ys)
  = Identify.written_times xs ++ Identify.written_times ys.
Proof. unfold Identify.written_times. apply flat_map_app. Qed.

Lemma last_app_cons {A} (xs ys : list A) y d :
  last (xs ++ ys ++ [y]) d = y.
Proof. rewrite app_assoc. apply last_last. Qed.

Lemma identify_inv_init endpoint : identify_inv (Identify.session_init endpoint).
Proof.
  constructor; cbn; try reflexivity.
  - unfold is_u16. lia.
  - split; [discriminate|lia].
Qed.

Lemma identify_inv_step s ev :
  identify_inv s -> Identify.valid_event ev -> identify_inv (Identify.step s ev).
Proof.
  intros [Hr Ha Ht Hw] Hev. destruct s as [[active remaining] done].
  cbn [fst snd Identify.identifyActive Identify.identifyTimeRemaining] in *.
  unfold is_u16 in *.
  destruct ev as [t| |]; unfold Identify.step; cbn [fst snd Identify.handle].
  - cbn in Hev. unfold is_u16 in Hev.
    unfold Identify.emberAfIdentifyClusterIdentifyCallback.
    cbn [Identify.identifyActive].
    destruct (Z.gtb_spec t 0) as [Hpos|Hzero]; destruct active; cbn [negb];
      constructor; cbn [fst snd Identify.identifyActive Identify.identifyTimeRemaining];
      rewrite ?identify_count_app, ?identify_written_app; cbn;
      try (unfold is_u16; lia);
      try (split; intros; (lia || discriminate || reflexivity));
      try (rewrite ?Z.add_0_r; cbn in Ht; lia);
      try (rewrite ?app_nil_r; apply last_last).
  - unfold Identify.emberAfIdentifyClusterIdentifyQueryCallback.
    constructor; cbn [fst snd Identify.identifyActive Identify.identifyTimeRemaining];
      rewrite ?identify_count_app, ?identify_written_app;
      cbn; rewrite ?app_nil_r, ?Z.add_0_r; try assumption; try (cbn in Ht; lia).
  - unfold Identify.identify_timer_callback.
    cbn [Identify.identifyActive Identify.identifyTimeRemaining].
    destruct (Z.gtb_spec remaining 0) as [Hpos|Hzero].
    + assert (Hu : u16 (remaining - 1) = remaining - 1)
        by (unfold u16; apply Z.mod_small; lia).
      rewrite Hu.
      assert (Hact : active = true) by (apply Ha; lia). subst active.
      destruct (Z.eqb_spec (remaining - 1) 0) as [Hlast|Hmore];
        constructor; cbn [fst snd Identify.identifyActive Identify.identifyTimeRemaining];
        rewrite ?identify_count_app, ?identify_written_app; cbn;
        try (unfold is_u16; lia);
        try (split; intros; (lia || discriminate || reflexivity));
        try (cbn in Ht; lia);
        try (rewrite ?app_nil_r; apply last_last).
    + constructor; cbn [fst snd Identify.identifyActive Identify.identifyTimeRemaining];
        rewrite ?app_nil_r; assumption.
Qed.

Lemma identify_inv_run tr :
  forall s, identify_inv s -> Forall Identify.valid_event tr ->
  identify_inv (Identify.run s tr).
Proof.
  induction tr as [|ev tr IH]; intros s Hs Hv; cbn [Identify.run fold_left].
  - exact Hs.
  - inversion Hv as [|? ? Hev Hrest]; subst.
    apply IH; [apply identify_inv_step; assumption|exact Hrest].
Qed.

(** X1: in every Identify session (cluster init, then identify commands
    with 16-bit durations, queries and timer expiries in any order),
    [identifyActive] holds exactly while [identifyTimeRemaining] is
    positive, the one-second timer has been started once more than
    stopped exactly while identification is active (never started twice,
    never stopped when not running), and the last value written to the
    identify-time attribute is [identifyTimeRemaining]. *)
Theorem identify_session_invariants :
  forall endpoint tr,
    Forall Identify.valid_event tr ->
    let s := Identify.run (Identify.session_init endpoint) tr in
    (Identify.identifyActive (fst s) = true
       <-> 0 < Identify.identifyTimeRemaining (fst s)) /\
    is_u16 (Identify.identifyTimeRemaining (fst s)) /\
    Identify.count Identify.is_start (snd s)
      = Identify.count Identify.is_stop (snd s)
        + Z.b2z (Identify.identifyActive (fst s)) /\
    last (Identify.written_times (snd s)) (-1)
      = Identify.identifyTimeRemaining (fst s).
Proof.
  intros endpoint tr Hv s.
  destruct (identify_inv_run tr _ (identify_inv_init endpoint) Hv)
    as [Hr Ha Ht Hw].
  fold s in Hr, Ha, Ht, Hw.
  split; [exact Ha|]. split; [exact Hr|]. split; [exact Ht|exact Hw].
Qed.

Lemma identify_session_invariants_witness :
  let s := Identify.run (Identify.session_init 1)
             [Identify.identify 3; Identify.timer_expiry; Identify.identify 0] in
  Identify.count Identify.is_start (snd s)
  = Identify.count Identify.is_stop (snd s)
    + Z.b2z (Identify.identifyActive (fst s)).
Proof.
  intros s.
  apply (identify_session_invariants 1
           [Identify.identify 3; Identify.timer_expiry; Identify.identify 0]).
  repeat constructor; unfold is_u16; lia.
Defined.








(** ** Theorems: error detection of the CRC *)

Lemma crc_round_separates_all :
  forall_below 256 (fun x => forall_below 256 (crc_round_separates x)) = true.
Proof. vm_compute. reflexivity. Qed.

Lemma xor_byte_ok_all :
  forall_below 256 (fun c => forall_below 256 (xor_byte_ok c)) = true.
Proof. vm_compute. reflexivity. Qed.

Lemma crc_round_injective x y :
  is_u8 x -> is_u8 y -> crc_round x = crc_round y -> x = y.
Proof.
  intros Hx Hy Heq.
  pose proof (forall_below_spec 256 _ ltac:(lia) crc_round_separates_all x Hx) as H.
  cbv beta in H.
  pose proof (forall_below_spec 256 _ ltac:(lia) H y Hy) as H'.
  unfold crc_round_separates in H'. rewrite Heq, Z.eqb_refl in H'.
  cbn in H'. rewrite orb_false_r in H'. apply Z.eqb_eq. exact H'.
Qed.

Lemma xor_byte c d :
  is_u8 c -> is_u8 d ->
  is_u8 (Z.lxor c d) /\ Z.lxor c (Z.lxor c d) = d.
Proof.
  intros Hc Hd.
  pose proof (forall_below_spec 256 _ ltac:(lia) xor_byte_ok_all c Hc) as H.
  cbv beta in H.
  pose proof (forall_below_spec 256 _ ltac:(lia) H d Hd) as H'.
  unfold xor_byte_ok in H'.
  apply andb_prop in H'. destruct H' as [H' H3].
  apply andb_prop in H'. destruct H' as [H1 H2].
  unfold is_u8. split; [lia|]. apply Z.eqb_eq. exact H3.
Qed.

Lemma crc_update_round c d :
  is_u8 c -> is_u8 d -> Crc.crc_update c d = crc_round (Z.lxor c d).
Proof.
  intros Hc Hd. unfold Crc.crc_update, crc_round.
  rewrite u8_small; [reflexivity|]. apply (xor_byte c d Hc Hd).
Qed.

(** The CRC register after a byte determines the byte, given the register
    before, and determines the register before, given the byte. *)
Lemma crc_update_injective_byte c d d' :
  is_u8 c -> is_u8 d -> is_u8 d' ->
  Crc.crc_update c d = Crc.crc_update c d' -> d = d'.
Proof.
  intros Hc Hd Hd'. rewrite !crc_update_round by assumption. intros H.
  apply crc_round_injective in H;
    [|apply (xor_byte c d Hc Hd)|apply (xor_byte c d' Hc Hd')].
  rewrite <- (proj2 (xor_byte c d Hc Hd)), H.
  apply (xor_byte c d' Hc Hd').
Qed.

Lemma crc_update_injective_reg c c' d :
  is_u8 c -> is_u8 c' -> is_u8 d ->
  Crc.crc_update c d = Crc.crc_update c' d -> c = c'.
Proof.
  intros Hc Hc' Hd. rewrite !crc_update_round by assumption. intros H.
  apply crc_round_injective in H;
    [|apply (xor_byte c d Hc Hd)|apply (xor_byte c' d Hc' Hd)].
  rewrite Z.lxor_comm, (Z.lxor_comm c' d) in H.
  rewrite <- (proj2 (xor_byte d c Hd Hc)), H.
  apply (xor_byte d c' Hd Hc').
Qed.

Lemma crc_fold_range data :
  forall c, is_u8 c -> is_u8 (fold_left Crc.crc_update data c).
Proof.
  induction data as [|d data IH]; intros c Hc; cbn [fold_left].
  - exact Hc.
  - apply IH. apply crc_update_range.
Qed.

Lemma crc_fold_injective data :
  Forall is_u8 data ->
  forall c c', is_u8 c -> is_u8 c' ->
  fold_left Crc.crc_update data c = fold_left Crc.crc_update data c' -> c = c'.
Proof.
  induction 1 as [|d data Hd _ IH]; intros c c' Hc Hc' H; cbn [fold_left] in H.
  - exact H.
  - apply IH in H; try apply crc_update_range.
    apply (crc_update_injective_reg c c' d Hc Hc' Hd H).
Qed.

Lemma crc_one_byte_changes_crc :
  forall before d d' behind,
    Forall is_u8 before -> is_u8 d -> is_u8 d' -> Forall is_u8 behind ->
    d <> d' ->
    Crc.calculate_crc (before ++ d :: behind)
      <> Crc.calculate_crc (before ++ d' :: behind).
Proof.
  intros before d d' behind Hb Hd Hd' Ha Hne Heq.
  unfold Crc.calculate_crc in Heq.
  rewrite !fold_left_app in Heq. cbn [fold_left] in Heq.
  assert (Hc : is_u8 (fold_left Crc.crc_update before 255))
    by (apply crc_fold_range; unfold is_u8; lia).
  apply crc_fold_injective in Heq;
    [|exact Ha|apply crc_update_range|apply crc_update_range].
  apply crc_update_injective_byte in Heq; try assumption.
  contradiction.
Qed.

(** X3: the CRC detects every corruption that is confined to one byte:
    two byte strings of any length that differ in exactly one byte have
    different checksums. *)
Theorem calculate_crc_detects_one_byte :
  forall before d d' behind,
    Forall is_u8 before -> is_u8 d -> is_u8 d' -> Forall is_u8 behind ->
    d <> d' ->
    Crc.calculate_crc (before ++ d :: behind)
      <> Crc.calculate_crc (before ++ d' :: behind).
Proof. exact crc_one_byte_changes_crc. Qed.

Lemma calculate_crc_detects_one_byte_witness :
  Crc.calculate_crc ([0xBE] ++ 0xEF :: [])
    <> Crc.calculate_crc ([0xBE] ++ 0xEE :: []).
Proof.
  apply calculate_crc_detects_one_byte;
    repeat constructor; unfold is_u8; try lia.
Defined.

Lemma calculate_crc_range data : is_u8 (Crc.calculate_crc data).
Proof. apply crc_fold_range. unfold is_u8; lia. Qed.

Lemma crc_pair_first b0 b0' b1 :
  is_u8 b0 -> is_u8 b0' -> is_u8 b1 -> b0 <> b0' ->
  Crc.calculate_crc [b0'; b1] <> Crc.calculate_crc [b0; b1].
Proof.
  intros H0 H0' H1 Hne.
  apply (crc_one_byte_changes_crc [] b0' b0 [b1]);
    try assumption; try constructor; try assumption; try constructor.
  congruence.
Qed.

Lemma crc_pair_second b0 b1 b1' :
  is_u8 b0 -> is_u8 b1 -> is_u8 b1' -> b1 <> b1' ->
  Crc.calculate_crc [b0; b1'] <> Crc.calculate_crc [b0; b1].
Proof.
  intros H0 H1 H1' Hne.
  apply (crc_one_byte_changes_crc [b0] b1' b1 []);
    try assumption; try constructor; try assumption; try constructor.
  congruence.
Qed.

(** X4: a frame that differs from a valid frame in exactly one of its six
    bytes is never accepted: [sht31_read] returns the fallback, and the
    sensor stays present. *)
Theorem sht31_read_rejects_one_corrupt_byte :
  forall d b frame i v,
    Sht31.sensorPresent d = true ->
    Sht31.write_done b = true ->
    List.length frame = 6%nat ->
    Forall is_u8 frame ->
    Crc.calculate_crc (firstn 2 frame) = nth 2 frame 0 ->
    Crc.calculate_crc (firstn 2 (skipn 3 frame)) = nth 5 frame 0 ->
    (i < 6)%nat -> is_u8 v -> v <> nth i frame 0 ->
    Sht31.read_done b = Some (set_byte i v frame) ->
    let o := Sht31.sht31_read d b in
    Sht31.real o = false /\ is_fallback o /\
    Sht31.sensorPresent (Sht31.after o) = true.
Proof.
  intros d b frame i v Hp Hw Hlen Hu8 Hc1 Hc2 Hi Hv Hne Hr o.
  destruct frame as [|b0 [|b1 [|b2 [|b3 [|b4 [|b5 [|]]]]]]]; try discriminate.
  cbn [firstn skipn nth] in Hc1, Hc2.
  rewrite !Forall_cons_iff in Hu8.
  destruct Hu8 as (H0 & H1 & H2 & H3 & H4 & H5 & _).
  assert (Hmis : let f := set_byte i v [b0; b1; b2; b3; b4; b5] in
                 Crc.calculate_crc (firstn 2 f) <> nth 2 f 0 \/
                 Crc.calculate_crc (firstn 2 (skipn 3 f)) <> nth 5 f 0).
  { destruct i as [|[|[|[|[|[|]]]]]]; try (exfalso; lia);
      cbn [set_byte firstn skipn nth] in *.
    - left. rewrite <- Hc1. apply crc_pair_first; congruence || assumption.
    - left. rewrite <- Hc1. apply crc_pair_second; congruence || assumption.
    - left. congruence.
    - right. rewrite <- Hc2. apply crc_pair_first; congruence || assumption.
    - right. rewrite <- Hc2. apply crc_pair_second; congruence || assumption.
    - right. congruence. }
  cbv zeta in Hmis.
  remember (set_byte i v [b0; b1; b2; b3; b4; b5]) as f eqn:Ef.
  assert (Hlenf : List.length f = 6%nat).
  { subst f. destruct i as [|[|[|[|[|[|]]]]]]; try (exfalso; lia); reflexivity. }
  destruct f as [|c0 [|c1 [|c2 [|c3 [|c4 [|c5 [|]]]]]]]; try discriminate.
  cbn [firstn skipn nth] in Hmis.
  destruct (sht31_read_crc_mismatch d b c0 c1 c2 c3 c4 c5 Hp Hw Hr Hmis)
    as [Hfb Hkept].
  split; [apply Hfb|]. split; [exact Hfb|exact Hkept].
Qed.

Lemma sht31_read_rejects_one_corrupt_byte_witness :
  Sht31.real
    (Sht31.sht31_read
       {| Sht31.sensorPresent := true; Sht31.fallbackReadCount := 0 |}
       {| Sht31.write_done := true;
          Sht31.read_done :=
            Some (set_byte 3 0x7E [0x66; 0x1A; 0x16; 0x7F; 0xFF; 0x8F]) |})
  = false.
Proof.
  apply (sht31_read_rejects_one_corrupt_byte
           {| Sht31.sensorPresent := true; Sht31.fallbackReadCount := 0 |}
           {| Sht31.write_done := true;
              Sht31.read_done :=
                Some (set_byte 3 0x7E [0x66; 0x1A; 0x16; 0x7F; 0xFF; 0x8F]) |}
           [0x66; 0x1A; 0x16; 0x7F; 0xFF; 0x8F] 3%nat 0x7E);
    try reflexivity; try (repeat constructor; unfold is_u8; lia);
    try (unfold is_u8; lia); try (cbn; lia).
Defined.

(** ** Theorems: published values *)

Lemma rising_from_spec f p n :
  forall z0 prev,
    rising_from n z0 prev f p = true ->
    forall z, z0 <= z < z0 + Z.of_nat n ->
    exists v, f z = Some v /\ prev <= v /\ p z v = true /\
      forall z', z <= z' < z0 + Z.of_nat n ->
      exists v', f z' = Some v' /\ v <= v'.
Proof.
  induction n as [|k IH]; intros z0 prev H z Hz.
  - simpl in Hz. lia.
  - cbn [rising_from] in H.
    destruct (f z0) as [v0|] eqn:Hf; [|discriminate].
    apply andb_prop in H. destruct H as [H Hrest].
    apply andb_prop in H. destruct H as [Hprev Hp].
    apply Z.leb_le in Hprev.
    destruct (Z.eq_dec z z0) as [->|Hne].
    + exists v0. split; [exact Hf|]. split; [exact Hprev|]. split; [exact Hp|].
      intros z' Hz'.
      destruct (Z.eq_dec z' z0) as [->|Hne'].
      * exists v0. split; [exact Hf|lia].
      * destruct (IH (z0 + 1) v0 Hrest z' ltac:(lia)) as (v' & Hf' & Hle & _).
        exists v'. split; [exact Hf'|exact Hle].
    + destruct (IH (z0 + 1) v0 Hrest z ltac:(lia)) as (v & Hfz & Hle & Hpz & Hmono).
      exists v. split; [exact Hfz|]. split; [lia|]. split; [exact Hpz|].
      intros z' Hz'. apply Hmono. lia.
Qed.

Lemma published_temperature_all :
  rising_from (Z.to_nat 65536) 0 (-4500) published_temperature temperature_fixed_ok
  = true.
Proof. vm_cast_no_check (eq_refl true). Qed.

Lemma published_humidity_all :
  rising_from (Z.to_nat 65536) 0 0 published_humidity humidity_fixed_ok = true.
Proof. vm_cast_no_check (eq_refl true). Qed.

Lemma published_temperature_spec T_raw :
  is_u16 T_raw ->
  exists z, published_temperature T_raw = Some z /\
    temperature_fixed_ok T_raw z = true /\
    forall T', T_raw <= T' < 65536 ->
      exists z', published_temperature T' = Some z' /\ z <= z'.
Proof.
  intros HT.
  destruct (rising_from_spec _ _ _ 0 (-4500) published_temperature_all T_raw)
    as (z & Hz & _ & Hok & Hmono).
  { rewrite Z2Nat.id by lia. exact HT. }
  exists z. split; [exact Hz|]. split; [exact Hok|].
  intros T' HT'. apply Hmono. rewrite Z2Nat.id by lia. lia.
Qed.

Lemma published_humidity_spec H_raw :
  is_u16 H_raw ->
  exists z, published_humidity H_raw = Some z /\
    humidity_fixed_ok H_raw z = true /\
    forall H', H_raw <= H' < 65536 ->
      exists z', published_humidity H' = Some z' /\ z <= z'.
Proof.
  intros HH.
  destruct (rising_from_spec _ _ _ 0 0 published_humidity_all H_raw)
    as (z & Hz & _ & Hok & Hmono).
  { rewrite Z2Nat.id by lia. exact HH. }
  exists z. split; [exact Hz|]. split; [exact Hok|].
  intros H' HH'. apply Hmono. rewrite Z2Nat.id by lia. lia.
Qed.

Lemma Qlt_of_negb_le a b : negb (Qle_bool a b) = true -> (b < a)%Q.
Proof.
  intros H. apply negb_true_iff in H. apply Qnot_le_lt. intros Hle.
  apply Qle_bool_iff in Hle. congruence.
Qed.

(** X5: the fixed-point conversion of a converted reading is always
    defined: for every raw temperature the cast to [int16_t] yields a
    value in [-4500, 13000] less than one hundredth of a degree from the
    datasheet value, for every raw humidity the cast to [uint16_t] yields
    a value in [0, 10000] less than one hundredth of a percent from it,
    and neither published value decreases when the raw value grows. *)
Theorem published_values_defined_and_monotone :
  forall raw, is_u16 raw ->
    (exists t, published_temperature raw = Some t /\
       -4500 <= t <= 13000 /\
       (Qabs ((t # 1) - (100 # 1) * Datasheet.temperature raw) < 1 # 1)%Q /\
       forall raw', raw <= raw' < 65536 ->
         exists t', published_temperature raw' = Some t' /\ t <= t') /\
    (exists h, published_humidity raw = Some h /\
       0 <= h <= 10000 /\
       (Qabs ((h # 1) - (100 # 1) * Datasheet.humidity raw) < 1 # 1)%Q /\
       forall raw', raw <= raw' < 65536 ->
         exists h', published_humidity raw' = Some h' /\ h <= h').
Proof.
  intros raw Hraw. split.
  - destruct (published_temperature_spec raw Hraw) as (t & Ht & Hok & Hmono).
    exists t. unfold temperature_fixed_ok in Hok.
    apply andb_prop in Hok. destruct Hok as [Hok _].
    apply andb_prop in Hok. destruct Hok as [Hok Herr].
    apply andb_prop in Hok. destruct Hok as [Hlo Hhi].
    split; [exact Ht|]. split; [lia|]. split; [|exact Hmono].
    apply Qlt_of_negb_le. exact Herr.
  - destruct (published_humidity_spec raw Hraw) as (h & Hh & Hok & Hmono).
    exists h. unfold humidity_fixed_ok in Hok.
    apply andb_prop in Hok. destruct Hok as [Hok Herr].
    apply andb_prop in Hok. destruct Hok as [Hlo Hhi].
    split; [exact Hh|]. split; [lia|]. split; [|exact Hmono].
    apply Qlt_of_negb_le. exact Herr.
Qed.

Lemma published_values_defined_and_monotone_witness :
  exists t, published_temperature 0x661A = Some t /\ -4500 <= t <= 13000.
Proof.
  destruct (published_values_defined_and_monotone 0x661A) as [(t & Ht & Hr & _) _].
  - unfold is_u16. lia.
  - exists t. split; [exact Ht|exact Hr].
Defined.

(** X6: the temperature cluster advertises the range -4000 .. 12500 at
    init, but [sht31_read] does not clamp the temperature: the published
    value lies inside the advertised range exactly for raw values
    1869 .. 63666, and below or above it for the others.  The humidity,
    which is clamped, always lies inside its advertised range 0 .. 10000. *)
Theorem published_values_and_advertised_range :
  forall ep raw, is_u16 raw ->
    exists tmin tmax hmin hmax t h,
      ZclInit.configured ZclInit.ZCL_TEMP_MIN_MEASURED_VALUE_ATTRIBUTE_ID
        (ZclInit.emberAfTempMeasurementClusterServerInitCallback ep) = Some tmin /\
      ZclInit.configured ZclInit.ZCL_TEMP_MAX_MEASURED_VALUE_ATTRIBUTE_ID
        (ZclInit.emberAfTempMeasurementClusterServerInitCallback ep) = Some tmax /\
      ZclInit.configured ZclInit.ZCL_RELATIVE_HUMIDITY_MIN_MEASURED_VALUE_ATTRIBUTE_ID
        (ZclInit.emberAfRelativeHumidityMeasurementClusterServerInitCallback ep)
        = Some hmin /\
      ZclInit.configured ZclInit.ZCL_RELATIVE_HUMIDITY_MAX_MEASURED_VALUE_ATTRIBUTE_ID
        (ZclInit.emberAfRelativeHumidityMeasurementClusterServerInitCallback ep)
        = Some hmax /\
      published_temperature raw = Some t /\
      published_humidity raw = Some h /\
      (tmin <= t <= tmax <-> 1869 <= raw <= 63666) /\
      hmin <= h <= hmax.
Proof.
  intros ep raw Hraw.
  destruct (published_temperature_spec raw Hraw) as (t & Ht & Hok & _).
  destruct (published_humidity_spec raw Hraw) as (h & Hh & Hokh & _).
  exists (-4000), 12500, 0, 10000, t, h.
  repeat (split; [reflexivity|]).
  split; [exact Ht|]. split; [exact Hh|].
  unfold temperature_fixed_ok in Hok.
  apply andb_prop in Hok. destruct Hok as [_ Hadv].
  unfold humidity_fixed_ok in Hokh.
  apply andb_prop in Hokh. destruct Hokh as [Hr _].
  apply andb_prop in Hr. destruct Hr as [Hlo Hhi].
  split; [|lia].
  apply eqb_prop in Hadv.
  split; intros H.
  - assert (E : (-4000 <=? t) && (t <=? 12500) = true)
      by (apply andb_true_intro; split; apply Z.leb_le; lia).
    rewrite Hadv in E. apply andb_prop in E. destruct E. lia.
  - assert (E : (1869 <=? raw) && (raw <=? 63666) = true)
      by (apply andb_true_intro; split; apply Z.leb_le; lia).
    rewrite <- Hadv in E. apply andb_prop in E. destruct E. lia.
Qed.

Lemma published_values_and_advertised_range_witness :
  exists t, published_temperature 0 = Some t /\ ~ (-4000 <= t <= 12500).
Proof.
  destruct (published_values_and_advertised_range 1 0)
    as (tmin & tmax & hmin & hmax & t & h & E1 & E2 & _ & _ & Ht & _ & Hiff & _).
  - unfold is_u16. lia.
  - cbn in E1, E2. injection E1 as <-. injection E2 as <-.
    exists t. split; [exact Ht|]. intros H. apply Hiff in H. lia.
Defined.

(** ** Theorems: battery report *)

Lemma battery_report_ok_all : forall_below 4096 battery_report_ok = true.
Proof. vm_cast_no_check (eq_refl true). Qed.

(** X7: for every 12-bit ADC sample, [battery_read_voltage] is
    [adc * 3750 / 4096] without overflow, the two bytes written by
    [app_update_battery_data] are the voltage in 100 mV units (at most
    37) and twice the percentage (at most 200) without wrapping, and both
    are monotone in the sample. *)
Theorem battery_report_of_sample :
  forall adc, 0 <= adc < 4096 ->
    Battery.battery_read_voltage adc = adc * 3750 / 4096 /\
    reported_voltage adc = Battery.battery_read_voltage adc / 100 /\
    0 <= reported_voltage adc <= 37 /\
    reported_percentage adc
      = 2 * Battery.battery_voltage_to_percentage (Battery.battery_read_voltage adc) /\
    0 <= reported_percentage adc <= 200 /\
    (forall adc', adc <= adc' < 4096 ->
       reported_voltage adc <= reported_voltage adc' /\
       reported_percentage adc <= reported_percentage adc').
Proof.
  assert (Hall : forall a, 0 <= a < 4096 -> battery_report_ok a = true)
    by (apply (forall_below_spec 4096 _ ltac:(lia) battery_report_ok_all)).
  assert (Hstep : forall a, 0 <= a < 4096 ->
            reported_voltage a <= reported_voltage (a + 1) /\
            reported_percentage a <= reported_percentage (a + 1)).
  { intros a Ha. pose proof (Hall a Ha) as H. unfold battery_report_ok in H.
    cbv zeta in H.
    repeat (apply andb_prop in H; destruct H as [H ?]).
    split; apply Z.leb_le; assumption. }
  intros adc Hadc. pose proof (Hall adc Hadc) as H.
  unfold battery_report_ok in H. cbv zeta in H.
  repeat (apply andb_prop in H; destruct H as [H ?]).
  repeat match goal with
         | E : (_ =? _) = true |- _ => apply Z.eqb_eq in E
         | E : (_ <=? _) = true |- _ => apply Z.leb_le in E
         end.
  assert (Hv0 : 0 <= reported_voltage adc) by apply u8_range.
  split; [assumption|]. split; [assumption|]. split; [lia|].
  split; [assumption|]. split; [lia|].
  intros adc' Hadc'.
  assert (Hmono : forall n : nat, adc + Z.of_nat n < 4096 ->
            reported_voltage adc <= reported_voltage (adc + Z.of_nat n) /\
            reported_percentage adc <= reported_percentage (adc + Z.of_nat n)).
  { induction n as [|n IHn]; intros Hn.
    - rewrite Z.add_0_r. lia.
    - destruct (IHn ltac:(lia)) as [IH1 IH2].
      destruct (Hstep (adc + Z.of_nat n) ltac:(lia)) as [S1 S2].
      replace (adc + Z.of_nat (S n)) with (adc + Z.of_nat n + 1) by lia. lia. }
  specialize (Hmono (Z.to_nat (adc' - adc))).
  rewrite Z2Nat.id in Hmono by lia.
  replace (adc + (adc' - adc)) with adc' in Hmono by lia.
  apply Hmono. lia.
Qed.

Lemma battery_report_of_sample_witness :
  reported_percentage 3000 = 2 * Battery.battery_voltage_to_percentage
                                   (Battery.battery_read_voltage 3000).
Proof.
  destruct (battery_report_of_sample 3000 ltac:(lia)) as (_ & _ & _ & H & _).
  exact H.
Defined.

(** X8: the thresholds the Power Configuration cluster is given at init
    agree with the percentage mapping: for every 12-bit sample the
    reported voltage reaches the upper threshold (32, from 3200 mV)
    exactly when the reported percentage is 200, and a reported voltage
    below the lower threshold (20, from 2000 mV) comes with percentage 0. *)
Theorem battery_thresholds_agree_with_percentage :
  forall ep adc, 0 <= adc < 4096 ->
    exists lower upper,
      ZclInit.configured ZclInit.ZCL_BATTERY_VOLTAGE_MIN_THRESHOLD_ATTRIBUTE_ID
        (ZclInit.emberAfPowerConfigClusterServerInitCallback ep) = Some lower /\
      ZclInit.configured ZclInit.ZCL_BATTERY_VOLTAGE_THRESHOLD1_ATTRIBUTE_ID
        (ZclInit.emberAfPowerConfigClusterServerInitCallback ep) = Some upper /\
      (upper <= reported_voltage adc <-> reported_percentage adc = 200) /\
      (reported_voltage adc < lower -> reported_percentage adc = 0).
Proof.
  intros ep adc Hadc.
  pose proof (forall_below_spec 4096 _ ltac:(lia) battery_report_ok_all adc Hadc) as H.
  unfold battery_report_ok in H. cbv zeta in H.
  repeat (apply andb_prop in H; destruct H as [H ?]).
  exists 20, 32. split; [reflexivity|]. split; [reflexivity|].
  match goal with E : Bool.eqb _ _ = true |- _ => apply eqb_prop in E; rename E into Hup end.
  match goal with E : (negb _ || _) = true |- _ => rename E into Hlow end.
  split; [split; intros Hx|intros Hx].
  - apply Z.eqb_eq. rewrite <- Hup. apply Z.leb_le. exact Hx.
  - apply Z.leb_le. rewrite Hup. apply Z.eqb_eq. exact Hx.
  - apply orb_prop in Hlow. destruct Hlow as [Hl|Hl].
    + apply negb_true_iff in Hl. apply Z.ltb_ge in Hl. lia.
    + apply Z.eqb_eq. exact Hl.
Qed.

Lemma battery_thresholds_agree_with_percentage_witness :
  exists upper,
    ZclInit.configured ZclInit.ZCL_BATTERY_VOLTAGE_THRESHOLD1_ATTRIBUTE_ID
      (ZclInit.emberAfPowerConfigClusterServerInitCallback 1) = Some upper /\
    (upper <= reported_voltage 3600 <-> reported_percentage 3600 = 200).
Proof.
  destruct (battery_thresholds_agree_with_percentage 1 3600 ltac:(lia))
    as (lower & upper & _ & Hu & Hiff & _).
  exists upper. split; [exact Hu|exact Hiff].
Defined.

(** ** Theorems: button scenarios *)

(** Elapsed time is computed modulo 2^32, so it is exact across the wrap
    of the millisecond counter. *)
Lemma elapsed_ms t0 t1 :
  0 <= t1 - t0 < 4294967296 -> u32 (u32 t1 - u32 t0) = t1 - t0.
Proof.
  intros H. unfold u32. rewrite <- Zminus_mod. apply Z.mod_small. exact H.
Qed.

Lemma button_run_app bd tr1 tr2 :
  Button.run bd (tr1 ++ tr2)
  = (fst (Button.run (fst (Button.run bd tr1)) tr2),
     snd (Button.run bd tr1) ++ snd (Button.run (fst (Button.run bd tr1)) tr2)).
Proof.
  revert bd. induction tr1 as [|i tr1 IH]; intros bd; cbn [Button.run app].
  - cbn. destruct (Button.run bd tr2). reflexivity.
  - destruct (Button.step bd i) as [bd1 out1].
    rewrite IH. destruct (Button.run bd1 tr1) as [bd2 outs2]. cbn [fst snd].
    destruct (Button.run bd2 tr2). reflexivity.
Qed.

Lemma emitted_app bd tr1 tr2 :
  emitted bd (tr1 ++ tr2)
  = emitted bd tr1 ++ emitted (fst (Button.run bd tr1)) tr2.
Proof.
  unfold emitted. rewrite button_run_app. cbn [snd]. apply concat_app.
Qed.

(** Passes of the main loop while a confirmed press is held and younger
    than the long threshold change nothing. *)
Lemma button_held_passes t0 r long mids :
  Forall (fun m => 0 <= m - t0 < 3000) mids ->
  let bd := {| Button.held := true;
               Button.ctx := {| Button.state := Button.BUTTON_STATE_PRESSED;
                                Button.pressTimestamp := u32 t0;
                                Button.releaseTimestamp := r;
                                Button.interruptPending := false;
                                Button.longPressTriggered := long |} |} in
  Button.run bd (map Button.Loop mids) = (bd, map (fun _ => []) mids).
Proof.
  intros H bd. induction H as [|m mids Hm _ IH]; [reflexivity|].
  cbn [map Button.run]. unfold bd at 1.
  cbn [Button.step Button.button_process Button.state Button.held Button.ctx
       Button.interruptPending Button.longPressTriggered Button.pressTimestamp].
  rewrite elapsed_ms by lia. unfold Button.BUTTON_LONG_PRESS_MS.
  destruct (Z.geb_spec (m - t0) 3000); [lia|].
  rewrite andb_false_r. fold bd. rewrite IH. reflexivity.
Qed.

Ltac button_eval :=
  repeat first
    [ progress cbn [Button.run Button.step Button.button_process Button.state
                    Button.held Button.ctx Button.interruptPending
                    Button.longPressTriggered Button.pressTimestamp
                    Button.releaseTimestamp Button.button_gpio_callback
                    Button.set_state Button.set_pressTimestamp
                    Button.set_releaseTimestamp Button.set_interruptPending
                    Button.set_longPressTriggered negb andb fst snd]
    | rewrite elapsed_ms by lia
    | match goal with
      | |- context [?a >=? ?b] =>
          destruct (Z.geb_spec a b);
          [ try (exfalso; unfold Button.BUTTON_DEBOUNCE_MS,
                   Button.BUTTON_LONG_PRESS_MS in *; lia)
          | try (exfalso; unfold Button.BUTTON_DEBOUNCE_MS,
                   Button.BUTTON_LONG_PRESS_MS in *; lia) ]
      end ].

(** X9: a clean short press is reported once.  From rest, a press first
    seen by the main loop at [t0], confirmed by a pass at [t1 >= t0 + 50],
    held through any passes before [t0 + 3000], released and seen
    released at [t2 < t0 + 3000], and still released at a pass
    [t3 >= t2 + 50], makes the driver call the short-press callback
    exactly once, at that last pass, and return to rest.  Times are
    millisecond counts of any size: only differences matter. *)
Theorem button_clean_short_press :
  forall b t0 t1 mids t2 t3,
    at_rest b ->
    50 <= t1 - t0 ->
    Forall (fun m => 0 <= m - t0 < 3000) mids ->
    t1 <= t2 -> t2 - t0 < 3000 ->
    50 <= t3 - t2 < 4294967296 ->
    let bd := {| Button.held := false; Button.ctx := b |} in
    let tr := [Button.Press; Button.Loop t0; Button.Loop t1]
              ++ map Button.Loop mids
              ++ [Button.Release; Button.Loop t2; Button.Loop t3] in
    snd (Button.run bd tr)
      = [[]; []; []] ++ map (fun _ => []) mids ++ [[]; []; [Button.short_press]] /\
    at_rest (Button.ctx (fst (Button.run bd tr))) /\
    Button.held (fst (Button.run bd tr)) = false.
Proof.
  intros b t0 t1 mids t2 t3 [Hst Hpend] H1 Hmids H12 H2 H3 bd tr.
  destruct b as [st p r pend long]. cbn in Hst, Hpend. subst st pend.
  unfold tr. rewrite button_run_app.
  assert (E1 : Button.run bd [Button.Press; Button.Loop t0; Button.Loop t1]
          = ({| Button.held := true;
                Button.ctx := {| Button.state := Button.BUTTON_STATE_PRESSED;
                                 Button.pressTimestamp := u32 t0;
                                 Button.releaseTimestamp := r;
                                 Button.interruptPending := false;
                                 Button.longPressTriggered := false |} |},
             [[]; []; []])).
  { unfold bd. button_eval. reflexivity. }
  rewrite E1. cbn [fst snd]. rewrite button_run_app.
  rewrite (button_held_passes t0 r false mids Hmids). cbn [fst snd].
  button_eval. unfold at_rest. cbn. repeat split.
Qed.

Lemma button_clean_short_press_witness :
  snd (Button.run {| Button.held := false; Button.ctx := Button.buttonContext_init |}
         ([Button.Press; Button.Loop 4294967290; Button.Loop 4294967340]
          ++ map Button.Loop [4294967400]
          ++ [Button.Release; Button.Loop 4294967500; Button.Loop 4294967550]))
  = [[]; []; []] ++ map (fun _ => []) [4294967400] ++ [[]; []; [Button.short_press]].
Proof.
  apply (button_clean_short_press Button.buttonContext_init
           4294967290 4294967340 [4294967400] 4294967500 4294967550);
    try lia; try (split; reflexivity).
  repeat constructor; lia.
Defined.

(** Once latched, the driver invokes no callback and stays latched until
    it returns to IDLE. *)
Lemma latched_step bd i :
  latched (Button.ctx bd) ->
  snd (Button.step bd i) = [] /\
  (latched (Button.ctx (fst (Button.step bd i))) \/
   Button.state (Button.ctx (fst (Button.step bd i))) = Button.BUTTON_STATE_IDLE).
Proof.
  intros [Hlong Hst]. destruct bd as [held [st p r pend long]].
  cbn in Hlong, Hst. subst long. unfold latched.
  destruct i as [| |ms]; cbn [Button.step Button.ctx Button.held fst snd].
  - cbn. split; [reflexivity|]. left. split; [reflexivity|exact Hst].
  - cbn. split; [reflexivity|]. left. split; [reflexivity|exact Hst].
  - unfold Button.button_process.
    cbn [Button.state Button.interruptPending Button.longPressTriggered
         Button.pressTimestamp Button.releaseTimestamp].
    destruct Hst as [-> | [-> | ->]].
    + destruct pend, held; cbn; split; try reflexivity; left; split;
        try reflexivity; auto.
    + destruct (_ >=? _); destruct held; cbn; split; try reflexivity;
        try (right; reflexivity); left; split; try reflexivity; auto.
    + destruct pend, held; cbn; split; try reflexivity; left; split;
        try reflexivity; auto.
Qed.

Lemma latched_run tr :
  forall bd, latched (Button.ctx bd) -> reaches_idle bd tr = false ->
  emitted bd tr = [] /\ latched (Button.ctx (fst (Button.run bd tr))).
Proof.
  induction tr as [|i tr IH]; intros bd Hl Hidle.
  - split; [reflexivity|exact Hl].
  - cbn [reaches_idle] in Hidle.
    destruct (latched_step bd i Hl) as [Hout Hnext].
    unfold emitted. cbn [Button.run].
    destruct (Button.step bd i) as [bd1 out1] eqn:Es. cbn [fst snd] in *.
    subst out1.
    destruct Hnext as [Hl1 | Hidle1]; [|rewrite Hidle1 in Hidle; discriminate].
    assert (Hrest : reaches_idle bd1 tr = false)
      by (destruct (Button.state (Button.ctx bd1)); (discriminate || exact Hidle)).
    destruct (IH bd1 Hl1 Hrest) as [Hem Hl2]. unfold emitted in Hem.
    destruct (Button.run bd1 tr) as [bd2 outs]. cbn [fst snd concat app] in *.
    split; [exact Hem|exact Hl2].
Qed.

(** X10: the long-press callback fires at most once per press.  A pass of
    the main loop that invokes the long-press callback leaves the driver
    latched, and from a latched driver no input sequence makes it invoke
    any callback, long or short, before it has returned to IDLE. *)
Theorem button_long_press_latches :
  forall bd ms tr,
    In Button.long_press (snd (Button.step bd (Button.Loop ms))) ->
    let bd' := fst (Button.step bd (Button.Loop ms)) in
    latched (Button.ctx bd') /\
    (reaches_idle bd' tr = false -> emitted bd' tr = []).
Proof.
  intros bd ms tr Hin bd'.
  assert (Hl : latched (Button.ctx bd')).
  { unfold bd'. destruct bd as [held [st p r pend long]].
    cbn [Button.step Button.ctx Button.held] in *.
    unfold Button.button_process in *.
    cbn [Button.state Button.interruptPending Button.longPressTriggered
         Button.pressTimestamp Button.releaseTimestamp] in *.
    destruct st.
    - destruct pend, held; cbn in Hin; contradiction.
    - destruct (_ >=? _); destruct held; cbn in Hin; contradiction.
    - destruct pend, held, long; cbn in Hin |- *;
        try contradiction;
        destruct (_ >=? _); cbn in Hin |- *; try contradiction;
        unfold latched; cbn; auto.
    - destruct (_ >=? _); destruct held, long; cbn in Hin;
        intuition discriminate.
    - destruct pend, held; cbn in Hin; contradiction. }
  split; [exact Hl|]. intros Hidle. apply (latched_run tr bd' Hl Hidle).
Qed.

Lemma button_long_press_latches_witness :
  emitted
    (fst (Button.step
            {| Button.held := true;
               Button.ctx := {| Button.state := Button.BUTTON_STATE_PRESSED;
                                Button.pressTimestamp := 0;
                                Button.releaseTimestamp := 0;
                                Button.interruptPending := false;
                                Button.longPressTriggered := false |} |}
            (Button.Loop 3000)))
    [Button.Loop 3500; Button.Loop 7000; Button.Release; Button.Loop 7001]
  = [].
Proof.
  apply (button_long_press_latches
           {| Button.held := true;
              Button.ctx := {| Button.state := Button.BUTTON_STATE_PRESSED;
                               Button.pressTimestamp := 0;
                               Button.releaseTimestamp := 0;
                               Button.interruptPending := false;
                               Button.longPressTriggered := false |} |}
           3000).
  - cbn. left. reflexivity.
  - reflexivity.
Defined.

(** X11: a long press is reported while the button is still down.  From
    rest, a press first seen at [t0], confirmed at [t1 >= t0 + 50] and
    held: the passes before [t0 + 3000] invoke nothing, the first pass at
    [t2 >= t0 + 3000] invokes the long-press callback, and the release
    that follows, seen at [t3] and debounced at [t4 >= t3 + 50], brings
    the driver back to rest without any further callback. *)
Theorem button_long_press_while_held :
  forall b t0 t1 mids t2 t3 t4,
    at_rest b ->
    50 <= t1 - t0 < 3000 ->
    Forall (fun m => 0 <= m - t0 < 3000) mids ->
    3000 <= t2 - t0 < 4294967296 ->
    50 <= t4 - t3 < 4294967296 ->
    let bd := {| Button.held := false; Button.ctx := b |} in
    let hold := [Button.Press; Button.Loop t0; Button.Loop t1]
                ++ map Button.Loop mids ++ [Button.Loop t2] in
    let bd1 := fst (Button.run bd hold) in
    emitted bd hold = [Button.long_press] /\
    Button.held bd1 = true /\
    emitted bd1 [Button.Release; Button.Loop t3; Button.Loop t4] = [] /\
    at_rest (Button.ctx (fst (Button.run bd1
               [Button.Release; Button.Loop t3; Button.Loop t4]))).
Proof.
  intros b t0 t1 mids t2 t3 t4 [Hst Hpend] H1 Hmids H2 H4 bd hold bd1.
  destruct b as [st p r pend long]. cbn in Hst, Hpend. subst st pend.
  assert (E1 : Button.run bd [Button.Press; Button.Loop t0; Button.Loop t1]
          = ({| Button.held := true;
                Button.ctx := {| Button.state := Button.BUTTON_STATE_PRESSED;
                                 Button.pressTimestamp := u32 t0;
                                 Button.releaseTimestamp := r;
                                 Button.interruptPending := false;
                                 Button.longPressTriggered := false |} |},
             [[]; []; []])).
  { unfold bd. button_eval. reflexivity. }
  assert (E2 : Button.run bd hold
          = ({| Button.held := true;
                Button.ctx := {| Button.state := Button.BUTTON_STATE_LONG_PRESS_TRIGGERED;
                                 Button.pressTimestamp := u32 t0;
                                 Button.releaseTimestamp := r;
                                 Button.interruptPending := false;
                                 Button.longPressTriggered := true |} |},
             [[]; []; []] ++ map (fun _ => []) mids ++ [[Button.long_press]])).
  { unfold hold. rewrite button_run_app, E1. cbn [fst snd].
    rewrite button_run_app.
    rewrite (button_held_passes t0 r false mids Hmids). cbn [fst snd].
    button_eval. reflexivity. }
  unfold bd1, emitted. rewrite E2. cbn [fst snd].
  split.
  { rewrite !concat_app. cbn [concat app].
    assert (Hnil : List.concat (map (fun _ : Z => @nil Button.callback) mids) = [])
      by (clear; induction mids as [|m mids IH]; [reflexivity|exact IH]).
    rewrite Hnil. reflexivity. }
  split; [reflexivity|].
  button_eval. unfold at_rest. cbn. repeat split.
Qed.

Lemma button_long_press_while_held_witness :
  emitted {| Button.held := false; Button.ctx := Button.buttonContext_init |}
    ([Button.Press; Button.Loop 0; Button.Loop 50]
     ++ map Button.Loop [1000; 2999] ++ [Button.Loop 3000])
  = [Button.long_press].
Proof.
  apply (button_long_press_while_held Button.buttonContext_init
           0 50 [1000; 2999] 3000 5000 5050);
    try lia; try (split; reflexivity).
  repeat constructor; lia.
Defined.

(** X12: contact bounce and glitches are absorbed.  From rest, a press
    that is no longer down when the debounce time has passed invokes no
    callback and leaves the driver in IDLE, and so does a press that
    comes and goes between two passes of the main loop; the pass after
    that finds the driver at rest again. *)
Theorem button_bounce_is_silent :
  forall b t0 t1 t2,
    at_rest b ->
    50 <= t1 - t0 < 4294967296 ->
    let bd := {| Button.held := false; Button.ctx := b |} in
    (emitted bd [Button.Press; Button.Loop t0; Button.Release;
                 Button.Loop t1; Button.Loop t2] = [] /\
     at_rest (Button.ctx (fst (Button.run bd
                [Button.Press; Button.Loop t0; Button.Release;
                 Button.Loop t1; Button.Loop t2])))) /\
    (emitted bd [Button.Press; Button.Release; Button.Loop t2] = [] /\
     at_rest (Button.ctx (fst (Button.run bd
                [Button.Press; Button.Release; Button.Loop t2])))).
Proof.
  intros b t0 t1 t2 [Hst Hpend] H1 bd.
  destruct b as [st p r pend long]. cbn in Hst, Hpend. subst st pend.
  unfold bd, emitted, at_rest. split; button_eval; cbn; repeat split.
Qed.

Lemma button_bounce_is_silent_witness :
  emitted {| Button.held := false; Button.ctx := Button.buttonContext_init |}
    [Button.Press; Button.Loop 100; Button.Release;
     Button.Loop 150; Button.Loop 151] = [].
Proof.
  apply (button_bounce_is_silent Button.buttonContext_init 100 150 151);
    try lia; split; reflexivity.
Defined.

(** ** Theorems: the stack's poll mode *)

Lemma wake_timeout_snoc cs c :
  wake_timeout (cs ++ [c])
  = match c with
    | Af.emberAfSetWakeTimeoutQsCallback qs => Some qs
    | _ => wake_timeout cs
    end.
Proof. unfold wake_timeout. rewrite fold_left_app. reflexivity. Qed.

Lemma data_ack_task_snoc cs c :
  data_ack_task (cs ++ [c])
  = match c with
    | Af.emberAfAddToCurrentAppTasksCallback => true
    | Af.emberAfRemoveFromCurrentAppTasksCallback => false
    | _ => data_ack_task cs
    end.
Proof. unfold data_ack_task. rewrite fold_left_app. reflexivity. Qed.

Lemma wake_timeout_bus cs ops :
  wake_timeout (cs ++ map Af.sensor_bus ops) = wake_timeout cs.
Proof.
  unfold wake_timeout. rewrite fold_left_app.
  generalize (fold_left
    (fun last c => match c with
                   | Af.emberAfSetWakeTimeoutQsCallback qs => Some qs
                   | _ => last
                   end) cs None).
  induction ops as [|op ops IH]; intros o; [reflexivity|apply IH].
Qed.

Lemma data_ack_task_bus cs ops :
  data_ack_task (cs ++ map Af.sensor_bus ops) = data_ack_task cs.
Proof.
  unfold data_ack_task. rewrite fold_left_app.
  generalize (fold_left
    (fun set c => match c with
                  | Af.emberAfAddToCurrentAppTasksCallback => true
                  | Af.emberAfRemoveFromCurrentAppTasksCallback => false
                  | _ => set
                  end) cs false).
  induction ops as [|op ops IH]; intros o; [reflexivity|apply IH].
Qed.

Arguments wake_timeout : simpl never.
Arguments data_ack_task : simpl never.

Lemma snoc_two {A} (xs : list A) a b : xs ++ [a; b] = (xs ++ [a]) ++ [b].
Proof. rewrite <- app_assoc. reflexivity. Qed.

Ltac poll_crush :=
  unfold poll_mode_agrees in *; app_unfold; cbn in *;
  repeat (app_case; cbn in *);
  rewrite ?app_nil_r, ?snoc_two;
  repeat (rewrite ?wake_timeout_snoc, ?data_ack_task_snoc,
                  ?wake_timeout_bus, ?data_ack_task_bus; cbn);
  try tauto; try (split; [reflexivity|tauto]); try (split; [assumption|tauto]).

Lemma poll_mode_agrees_step ev e w :
  poll_mode_agrees w -> poll_mode_agrees (App.exec (App.handle ev) e w).
Proof.
  intros Hinv.
  destruct w as [[st fp ts ja si bp] sn bc cs].
  unfold poll_mode_agrees in Hinv. cbn in Hinv. destruct Hinv as [Htask Hwake].
  destruct ev as [ | status | status tb ja' fs | | | | | | cmd ];
    cbn [App.handle];
    [ apply main_tick_cases; intros b | .. ];
    try destruct status; destruct fp;
    poll_crush.
Qed.

Lemma poll_mode_agrees_init e w :
  poll_mode_agrees w -> poll_mode_agrees (App.exec App.app_init e w).
Proof.
  intros Hinv.
  destruct w as [[st fp ts ja si bp] sn bc cs].
  unfold poll_mode_agrees in Hinv. cbn in Hinv. destruct Hinv as [Htask Hwake].
  destruct fp; poll_crush.
Qed.

Lemma poll_mode_agrees_boot e : poll_mode_agrees (App.boot e).
Proof.
  unfold App.boot. apply poll_mode_agrees_init.
  split; [reflexivity|left; reflexivity].
Qed.

Lemma poll_mode_agrees_run tr :
  forall w, poll_mode_agrees w -> poll_mode_agrees (App.run w tr).
Proof.
  induction tr as [|[ev e] tr IH]; intros w Hw; cbn [App.run].
  - exact Hw.
  - apply IH. apply poll_mode_agrees_step. exact Hw.
Qed.

(** X13: [fastPollActive] always tells the truth about the stack.  At
    every quiescent point of every session, whatever the events, the
    WAITING_FOR_DATA_ACK task is set exactly when [fastPollActive] is set,
    and the wake timeout last written is 2 quarter seconds when it is set
    and 30 (or none written yet) when it is clear. *)
Theorem fast_poll_flag_matches_stack :
  forall e tr,
    let w := App.run (App.boot e) tr in
    data_ack_task (App.calls w) = App.fastPollActive (App.appContext w) /\
    (App.fastPollActive (App.appContext w) = true ->
       wake_timeout (App.calls w) = Some 2) /\
    (App.fastPollActive (App.appContext w) = false ->
       wake_timeout (App.calls w) = None \/ wake_timeout (App.calls w) = Some 30).
Proof.
  intros e tr w.
  destruct (poll_mode_agrees_run tr _ (poll_mode_agrees_boot e)) as [Htask Hwake].
  fold w in Htask, Hwake.
  split; [exact Htask|].
  destruct (App.fastPollActive (App.appContext w)).
  - split; [intros _; exact Hwake|discriminate].
  - split; [discriminate|intros _; exact Hwake].
Qed.

(** ** Theorems: stack notifications and transitions *)

(** X14: stack status notifications are idempotent: handling the same
    status twice in a row, in any state, leaves the state and the log
    exactly as handling it once.  In particular a repeated NETWORK_UP
    neither changes the phase again nor touches the poll mode. *)
Theorem app_stack_status_callback_idempotent :
  forall status e e' w,
    let w1 := App.exec (App.app_stack_status_callback status) e w in
    App.exec (App.app_stack_status_callback status) e' w1 = w1.
Proof.
  intros status e e' w.
  destruct w as [[st fp ts ja si bp] sn bc cs].
  destruct status, st, fp; reflexivity.
Qed.

(** X15: a successful steering completion, in whatever state it arrives,
    puts the session in JOINED_FAST_POLL with fast poll on, stamps the
    join time, arms the 30 s fast-poll timer and leaves [joinAttempts]
    alone; the wake timeout and the task are written only if fast poll
    was not already on. *)
Theorem steering_success_enters_fast_poll :
  forall totalBeacons joinAttempts' finalState e w,
    let w' := App.exec (App.emberAfPluginNetworkSteeringCompleteCallback
                          Af.EMBER_SUCCESS totalBeacons joinAttempts' finalState)
                e w in
    App.state (App.appContext w') = App.APP_STATE_JOINED_FAST_POLL /\
    App.fastPollActive (App.appContext w') = true /\
    App.joinTimestamp (App.appContext w') = u32 (App.tick_ms e) /\
    App.joinAttempts (App.appContext w') = App.joinAttempts (App.appContext w) /\
    App.calls w'
      = App.calls w
        ++ (if App.fastPollActive (App.appContext w) then []
            else [Af.emberAfSetWakeTimeoutQsCallback 2;
                  Af.emberAfAddToCurrentAppTasksCallback])
        ++ [Af.sl_sleeptimer_start_timer_ms Af.fastPollTimer 30000].
Proof.
  intros tb ja' fs e w.
  destruct w as [[st fp ts ja si bp] sn bc cs].
  destruct fp; app_unfold; cbn; rewrite <- ?app_assoc; repeat split.
Qed.

(** X16: leaving.  A long press while the stack reports that it is
    joined moves the session to LEAVING, clears fast poll, and sends one
    leave request; if fast poll was on, the normal wake timeout is
    restored and the task removed before the leave request. *)
Theorem long_press_leaves_network :
  forall e w,
    App.network_state e = Af.EMBER_JOINED_NETWORK ->
    let w' := App.exec App.button_long_press_callback e w in
    App.state (App.appContext w') = App.APP_STATE_LEAVING /\
    App.fastPollActive (App.appContext w') = false /\
    App.calls w'
      = App.calls w
        ++ (if App.fastPollActive (App.appContext w)
            then [Af.emberAfSetWakeTimeoutQsCallback 30;
                  Af.emberAfRemoveFromCurrentAppTasksCallback]
            else [])
        ++ [Af.emberLeaveNetwork].
Proof.
  intros e w Hnet.
  destruct w as [[st fp ts ja si bp] sn bc cs].
  destruct e as [ns ss ls rd bus adc ms pin]. cbn in Hnet. subst ns.
  destruct fp; app_unfold; cbn; rewrite <- ?app_assoc; repeat split.
Qed.

Lemma long_press_leaves_network_witness :
  App.state (App.appContext
    (App.exec App.button_long_press_callback env_joined (App.boot env_joined)))
  = App.APP_STATE_LEAVING.
Proof.
  apply (long_press_leaves_network env_joined (App.boot env_joined)).
  reflexivity.
Defined.

(** ** Theorems: when the firmware samples *)

Lemma filter_snoc {A} (p : A -> bool) xs x :
  filter p (xs ++ [x]) = filter p xs ++ (if p x then [x] else []).
Proof. rewrite filter_app. reflexivity. Qed.




(** X18: steering is never started twice.  While the session is in
    JOINING, or while the stack reports that it is joined, no event
    calls [emberAfPluginNetworkSteeringStart]. *)
Theorem no_second_steering_start :
  forall ev e w,
    App.state (App.appContext w) = App.APP_STATE_JOINING \/
    App.network_state e = Af.EMBER_JOINED_NETWORK ->
    filter is_steering_start (App.calls (App.exec (App.handle ev) e w))
    = filter is_steering_start (App.calls w).
Proof.
  intros ev e w Hcond.
  destruct w as [[st fp ts ja si bp] sn bc cs].
  destruct e as [ns ss ls rd bus adc ms pin]. cbn in Hcond.
  assert (Hfilter_bus : forall xs ops,
            filter is_steering_start (xs ++ map Af.sensor_bus ops)
            = filter is_steering_start xs).
  { intros xs ops. rewrite filter_app.
    assert (E : filter is_steering_start (map Af.sensor_bus ops) = [])
      by (induction ops as [|o ops IH]; [reflexivity|exact IH]).
    rewrite E. apply app_nil_r. }
  destruct ev as [ | status | status tb ja' fs | | | | | | cmd ];
    cbn [App.handle];
    [ apply main_tick_cases; intros b | .. ];
    try destruct status;
    destruct Hcond as [-> | ->];
    app_unfold; cbn in *;
    repeat (app_case; cbn in *);
    rewrite ?app_nil_r;
    repeat (rewrite ?filter_snoc, ?Hfilter_bus; cbn [is_steering_start]);
    rewrite ?app_nil_r; try reflexivity; try discriminate.
Qed.

Lemma no_second_steering_start_witness :
  filter is_steering_start
    (App.calls (App.exec (App.handle App.button_long_press) env_idle
       (App.exec (App.handle App.button_short_press) env_idle (App.boot env_idle))))
  = filter is_steering_start
      (App.calls (App.exec (App.handle App.button_short_press) env_idle
                    (App.boot env_idle))).
Proof.
  apply (no_second_steering_start App.button_long_press env_idle).
  left. reflexivity.
Defined.

(** ** Theorems: session state after boot *)

Lemma fallback_counter_range d done :
  0 <= Sht31.fallbackReadCount (Sht31.after (Sht31.fallback d done)) < 4294967296.
Proof. cbn. unfold u32. apply Z.mod_pos_bound. lia. Qed.

Lemma sht31_read_counter_range d b :
  0 <= Sht31.fallbackReadCount d < 4294967296 ->
  0 <= Sht31.fallbackReadCount (Sht31.after (Sht31.sht31_read d b)) < 4294967296.
Proof.
  intros H. unfold Sht31.sht31_read.
  repeat match goal with
         | |- context [if ?c then _ else _] => destruct c
         | |- context [match ?x with _ => _ end] => destruct x
         end;
    try apply fallback_counter_range; exact H.
Qed.

Lemma sht31_read_present_before d b :
  Sht31.sensorPresent (Sht31.after (Sht31.sht31_read d b)) = true ->
  Sht31.sensorPresent d = true.
Proof.
  unfold Sht31.sht31_read. destruct (Sht31.sensorPresent d) eqn:E; [reflexivity|].
  cbn. rewrite E. intros H. exact H.
Qed.

Ltac session_crush :=
  app_unfold; cbn in *;
  repeat (app_case; cbn in *);
  constructor; cbn;
  try assumption; try discriminate; try congruence;
  try apply u8_range;
  try (intros Hpres; apply sht31_read_present_before in Hpres; auto);
  try (apply sht31_read_counter_range; assumption).

Lemma session_inv_step be ev e w :
  session_inv be w -> session_inv be (App.exec (App.handle ev) e w).
Proof.
  intros [Hni Hja Hsi Hpr Hcnt].
  destruct w as [[st fp ts ja si bp] sn bc cs]. cbn in Hni, Hja, Hsi, Hpr, Hcnt.
  destruct ev as [ | status | status tb ja' fs | | | | | | cmd ];
    cbn [App.handle];
    [ apply main_tick_cases; intros b | .. ];
    try destruct status;
    session_crush.
Qed.

Lemma session_inv_boot e : session_inv e (App.boot e).
Proof.
  unfold App.boot.
  app_unfold; cbn; repeat (app_case; cbn);
    constructor; cbn; try discriminate; try reflexivity;
    try (unfold is_u8; lia); try lia;
    try (intros Hpres; apply sht31_read_present_before in Hpres; exact Hpres);
    try (apply sht31_read_counter_range; cbn; lia);
    try (intros H; exact H).
Qed.

Lemma session_inv_run be tr :
  forall w, session_inv be w -> session_inv be (App.run w tr).
Proof.
  induction tr as [|[ev e] tr IH]; intros w Hw; cbn [App.run].
  - exact Hw.
  - apply IH. apply session_inv_step. exact Hw.
Qed.

(** X19: what no session changes after boot.  At every quiescent point
    the phase is not INIT, [joinAttempts] is a byte, [sensorInitialized]
    still has the value [sht31_init] returned at boot, the driver's
    [sensorPresent] is set only if [sensorInitialized] is (a sensor that
    was absent at boot is never picked up later), and the fallback
    counter is a 32-bit value. *)
Theorem session_state_after_boot :
  forall e tr,
    let w := App.run (App.boot e) tr in
    App.state (App.appContext w) <> App.APP_STATE_INIT /\
    is_u8 (App.joinAttempts (App.appContext w)) /\
    App.sensorInitialized (App.appContext w) = App.reset_done e /\
    (Sht31.sensorPresent (App.sensor w) = true ->
     App.sensorInitialized (App.appContext w) = true) /\
    0 <= Sht31.fallbackReadCount (App.sensor w) < 4294967296.
Proof.
  intros e tr w.
  destruct (session_inv_run e tr _ (session_inv_boot e)) as [H1 H2 H3 H4 H5].
  fold w in H1, H2, H3, H4, H5.
  split; [exact H1|]. split; [exact H2|]. split; [exact H3|].
  split; [exact H4|exact H5].
Qed.

(** ** Theorems: publishing *)

(** X20: a valid frame is published as converted.  With the sensor
    present and an I2C answer whose two checksums match,
    [app_update_sensor_data] performs the command write, the 20 ms delay
    and the six-byte read, then writes the temperature and the humidity
    attribute with the converted values, whose fixed-point casts are
    defined; it changes neither the application context nor the driver,
    and a sensor tick in a joined phase then appends the battery report. *)
Theorem valid_frame_is_published :
  forall e w b0 b1 b2 b3 b4 b5,
    Sht31.sensorPresent (App.sensor w) = true ->
    Sht31.write_done (App.i2c e) = true ->
    Sht31.read_done (App.i2c e) = Some [b0; b1; b2; b3; b4; b5] ->
    is_u8 b0 -> is_u8 b1 -> is_u8 b3 -> is_u8 b4 ->
    Crc.calculate_crc [b0; b1] = b2 ->
    Crc.calculate_crc [b3; b4] = b5 ->
    let t := Sht31.temperature_of_raw (b0 * 256 + b1) in
    let h := Sht31.humidity_of_raw (b3 * 256 + b4) in
    let w' := App.exec App.app_update_sensor_data e w in
    App.calls w'
      = App.calls w
        ++ map Af.sensor_bus [Sht31.I2cWrite 0x24 0x00; Sht31.DelayMs 20;
                              Sht31.I2cRead 6]
        ++ sensor_writes (Sht31.Float t) (Sht31.Float h) /\
    App.appContext w' = App.appContext w /\
    App.sensor w' = App.sensor w /\
    (exists zt zh, Fixed.temperature_raw t = Some zt /\
                   Fixed.humidity_raw h = Some zh /\
                   -4500 <= zt <= 13000 /\ 0 <= zh <= 10000) /\
    (App.is_joined_state (App.state (App.appContext w)) = true ->
     App.calls (App.exec App.sensor_timer_callback e w)
       = App.calls w' ++ battery_writes e).
Proof.
  intros e w b0 b1 b2 b3 b4 b5 Hp Hw Hr H0 H1 H3 H4 Hc1 Hc2 t h w'.
  assert (Hread : Sht31.sht31_read (App.sensor w) (App.i2c e)
          = {| Sht31.real := true;
               Sht31.temperature_c := Sht31.Float t;
               Sht31.humidity_rh := Sht31.Float h;
               Sht31.after := App.sensor w;
               Sht31.ops := [Sht31.I2cWrite 0x24 0x00; Sht31.DelayMs 20;
                             Sht31.I2cRead 6] |}).
  { unfold Sht31.sht31_read. rewrite Hp, Hw, Hr.
    cbn [negb firstn skipn nth].
    rewrite Hc1, Hc2, !Z.eqb_refl. cbn [negb].
    rewrite (raw16 b0 b1 H0 H1), (raw16 b3 b4 H3 H4). reflexivity. }
  assert (Hw' : w' = {| App.appContext := App.appContext w;
                        App.sensor := App.sensor w;
                        App.buttonContext := App.buttonContext w;
                        App.calls := App.calls w
                          ++ map Af.sensor_bus [Sht31.I2cWrite 0x24 0x00;
                                                Sht31.DelayMs 20; Sht31.I2cRead 6]
                          ++ sensor_writes (Sht31.Float t) (Sht31.Float h) |}).
  { unfold w'. destruct w as [c sn bc cs]. cbn [App.sensor] in *.
    app_unfold. cbn [fst snd App.sensor App.appContext App.calls App.buttonContext].
    rewrite Hread. cbn. rewrite <- !app_assoc. reflexivity. }
  split; [rewrite Hw'; reflexivity|].
  split; [rewrite Hw'; reflexivity|].
  split; [rewrite Hw'; reflexivity|].
  split.
  - assert (HT : is_u16 (b0 * 256 + b1)) by (unfold is_u8, is_u16 in *; lia).
    assert (HH : is_u16 (b3 * 256 + b4)) by (unfold is_u8, is_u16 in *; lia).
    destruct (published_temperature_spec _ HT) as (zt & Hzt & Hokt & _).
    destruct (published_humidity_spec _ HH) as (zh & Hzh & Hokh & _).
    exists zt, zh. split; [exact Hzt|]. split; [exact Hzh|].
    unfold temperature_fixed_ok in Hokt. unfold humidity_fixed_ok in Hokh.
    repeat (apply andb_prop in Hokt; destruct Hokt as [Hokt ?]).
    repeat (apply andb_prop in Hokh; destruct Hokh as [Hokh ?]).
    lia.
  - intros Hj. unfold App.sensor_timer_callback.
    rewrite exec_bind. unfold App.get at 1 2. cbn [fst App.exec snd].
    rewrite Hj. cbn [App.when].
    rewrite exec_bind, app_update_battery_data_calls. reflexivity.
Qed.

Lemma valid_frame_is_published_witness :
  App.sensor (App.exec App.app_update_sensor_data env_joined (App.boot env_joined))
  = App.sensor (App.boot env_joined).
Proof.
  apply (valid_frame_is_published env_joined (App.boot env_joined)
           0x66 0x1A 0x16 0x7F 0xFF 0x8F);
    try reflexivity; unfold is_u8; lia.
Defined.

Lemma never_detected_update e w :
  never_detected w ->
  App.exec App.app_update_sensor_data e w
  = {| App.appContext := App.appContext w;
       App.sensor :=
         {| Sht31.sensorPresent := false;
            Sht31.fallbackReadCount :=
              u32 (Sht31.fallbackReadCount (App.sensor w) + 1) |};
       App.buttonContext := App.buttonContext w;
       App.calls := App.calls w
         ++ sensor_writes
              (Sht31.FallbackTemperature
                 (u32 (Sht31.fallbackReadCount (App.sensor w) + 1)))
              (Sht31.FallbackHumidity
                 (u32 (Sht31.fallbackReadCount (App.sensor w) + 1))) |}.
Proof.
  intros [Hinit Habs]. destruct w as [c [sp cnt] bc cs].
  cbn in Hinit, Habs. subst sp.
  app_unfold. cbn [fst snd App.sensor App.appContext App.calls App.buttonContext].
  rewrite (sht31_read_absent
             {| Sht31.sensorPresent := false; Sht31.fallbackReadCount := cnt |}
             (App.i2c e) eq_refl).
  cbn. rewrite Hinit. cbn.
  rewrite app_nil_r, <- !app_assoc. reflexivity.
Qed.

Lemma filter_bus_snoc xs c :
  is_sensor_bus c = false ->
  filter is_sensor_bus (xs ++ [c]) = filter is_sensor_bus xs.
Proof. intros H. rewrite filter_app. cbn. rewrite H. apply app_nil_r. Qed.

Ltac absent_crush :=
  app_unfold; cbn in *;
  repeat match goal with
         | |- context [Sht31.sht31_read
                         {| Sht31.sensorPresent := false;
                            Sht31.fallbackReadCount := ?n |} ?b] =>
             rewrite (sht31_read_absent
                        {| Sht31.sensorPresent := false;
                           Sht31.fallbackReadCount := n |} b eq_refl)
         end;
  cbn in *;
  repeat (app_case; cbn in *);
  rewrite ?app_nil_r;
  rewrite ?filter_bus_snoc by reflexivity;
  try (split; [split; reflexivity | reflexivity]).

Lemma never_detected_step ev e w :
  never_detected w ->
  never_detected (App.exec (App.handle ev) e w) /\
  filter is_sensor_bus (App.calls (App.exec (App.handle ev) e w))
  = filter is_sensor_bus (App.calls w).
Proof.
  intros [Hinit Habs].
  destruct w as [[st fp ts ja si bp] [sp cnt] bc cs].
  cbn in Hinit, Habs. subst si sp. unfold never_detected.
  destruct ev as [ | status | status tb ja' fs | | | | | | cmd ];
    cbn [App.handle];
    [ apply main_tick_cases; intros b | .. ];
    absent_crush.
Qed.

Lemma never_detected_run tr :
  forall w, never_detected w ->
  never_detected (App.run w tr) /\
  filter is_sensor_bus (App.calls (App.run w tr))
  = filter is_sensor_bus (App.calls w).
Proof.
  induction tr as [|[ev e] tr IH]; intros w Hw; cbn [App.run].
  - split; [exact Hw|reflexivity].
  - destruct (never_detected_step ev e w Hw) as [Hw' Hsame].
    destruct (IH _ Hw') as [Hw'' Hsame'].
    split; [exact Hw''|]. rewrite Hsame'. exact Hsame.
Qed.

(** X21: a sensor that does not answer at boot is replaced by the
    synthetic signal for the whole session.  If the soft reset in
    [sht31_init] fails, then in every session the driver stays absent,
    no event makes any further I2C transfer or delay, and every call of
    [app_update_sensor_data] advances the fallback counter by one and
    writes the temperature and humidity attributes with the synthetic
    values for the new count. *)
Theorem absent_sensor_publishes_synthetic :
  forall e0 tr,
    App.reset_done e0 = false ->
    let w := App.run (App.boot e0) tr in
    never_detected w /\
    filter is_sensor_bus (App.calls w)
      = [Af.sensor_bus (Sht31.DelayMs 10);
         Af.sensor_bus (Sht31.I2cWrite 0x30 0xA2)] /\
    forall e,
      let n := u32 (Sht31.fallbackReadCount (App.sensor w) + 1) in
      let w' := App.exec App.app_update_sensor_data e w in
      Sht31.fallbackReadCount (App.sensor w') = n /\
      App.calls w'
        = App.calls w
          ++ sensor_writes (Sht31.FallbackTemperature n) (Sht31.FallbackHumidity n).
Proof.
  intros e0 tr Hreset w.
  assert (Hboot : never_detected (App.boot e0) /\
                  filter is_sensor_bus (App.calls (App.boot e0))
                  = [Af.sensor_bus (Sht31.DelayMs 10);
                     Af.sensor_bus (Sht31.I2cWrite 0x30 0xA2)]).
  { unfold App.boot, never_detected. destruct e0 as [ns ss ls rd bus adc ms pin].
    cbn in Hreset. subst rd. destruct ns; cbn; repeat split. }
  destruct Hboot as [Hnd Hcalls].
  destruct (never_detected_run tr _ Hnd) as [Hw Hbus]. fold w in Hw, Hbus.
  split; [exact Hw|]. split.
  - rewrite Hbus, Hcalls. reflexivity.
  - intros e n w'. unfold w'. rewrite (never_detected_update e w Hw).
    split; reflexivity.
Qed.

Lemma absent_sensor_publishes_synthetic_witness :
  never_detected
    (App.run
       (App.boot {| App.network_state := Af.EMBER_NOT_JOINED;
                    App.steering_status := Af.EMBER_SUCCESS;
                    App.leave_status := Af.EMBER_SUCCESS;
                    App.reset_done := false;
                    App.i2c := {| Sht31.write_done := false;
                                  Sht31.read_done := None |};
                    App.adc_result := 3000; App.tick_ms := 0;
                    App.pin_pressed := false |})
       [ (App.cli "sensor-read"%string, env_idle) ]).
Proof.
  apply (absent_sensor_publishes_synthetic
           {| App.network_state := Af.EMBER_NOT_JOINED;
              App.steering_status := Af.EMBER_SUCCESS;
              App.leave_status := Af.EMBER_SUCCESS;
              App.reset_done := false;
              App.i2c := {| Sht31.write_done := false;
                            Sht31.read_done := None |};
              App.adc_result := 3000; App.tick_ms := 0;
              App.pin_pressed := false |}
           [ (App.cli "sensor-read"%string, env_idle) ]); reflexivity.
Defined.

(** ** Theorems: the fallback counter *)

Lemma sht31_read_count d b :
  Sht31.fallbackReadCount (Sht31.after (Sht31.sht31_read d b))
  = if Sht31.real (Sht31.sht31_read d b)
    then Sht31.fallbackReadCount d
    else u32 (Sht31.fallbackReadCount d + 1).
Proof.
  unfold Sht31.sht31_read.
  repeat match goal with
         | |- context [if negb ?c then _ else _] => destruct c; cbn [negb]
         | |- context [match Sht31.read_done ?x with _ => _ end] =>
             destruct (Sht31.read_done x)
         end; reflexivity.
Qed.

Lemma driver_after_cons d b bs :
  driver_after d (b :: bs) = driver_after (Sht31.after (Sht31.sht31_read d b)) bs.
Proof. reflexivity. Qed.

Lemma failed_reads_cons d b bs :
  failed_reads d (b :: bs)
  = Z.b2z (negb (Sht31.real (Sht31.sht31_read d b)))
    + failed_reads (Sht31.after (Sht31.sht31_read d b)) bs.
Proof.
  unfold failed_reads. cbn [Sht31.reads filter].
  destruct (Sht31.real (Sht31.sht31_read d b)); cbn [negb Z.b2z List.length]; lia.
Qed.

(** X22: [fallbackReadCount] counts exactly the reads that returned
    [false].  After any sequence of reads, whatever the bus answered, the
    counter has advanced (modulo 2^32) by the number of reads that
    returned the fallback, whether because the sensor was absent, a
    transfer failed or a checksum did not match; and a driver that is
    present at the end was present all along. *)
Theorem fallback_counter_counts_failed_reads :
  forall bs d,
    0 <= Sht31.fallbackReadCount d < 4294967296 ->
    Sht31.fallbackReadCount (driver_after d bs)
      = u32 (Sht31.fallbackReadCount d + failed_reads d bs) /\
    (Sht31.sensorPresent (driver_after d bs) = true ->
     Sht31.sensorPresent d = true).
Proof.
  induction bs as [|b bs IH]; intros d Hd.
  - cbn. split; [|tauto]. unfold failed_reads. cbn.
    rewrite Z.add_0_r. symmetry. apply u32_small. exact Hd.
  - rewrite driver_after_cons, failed_reads_cons.
    destruct (IH (Sht31.after (Sht31.sht31_read d b))
                (sht31_read_counter_range d b Hd)) as [Hcount Hpres].
    split.
    + rewrite Hcount, sht31_read_count.
      destruct (Sht31.real (Sht31.sht31_read d b)); cbn [negb Z.b2z].
      * f_equal.
      * unfold u32. rewrite Zplus_mod_idemp_l. f_equal. lia.
    + intros H. apply Hpres in H. apply (sht31_read_present_before d b H).
Qed.

Lemma fallback_counter_counts_failed_reads_witness :
  Sht31.fallbackReadCount
    (driver_after
       {| Sht31.sensorPresent := true; Sht31.fallbackReadCount := 7 |}
       [ {| Sht31.write_done := true;
            Sht31.read_done := Some [0x66; 0x1A; 0x16; 0x7F; 0xFF; 0x8F] |};
         {| Sht31.write_done := true;
            Sht31.read_done := Some [0x66; 0x1A; 0x17; 0x7F; 0xFF; 0x8F] |};
         {| Sht31.write_done := false; Sht31.read_done := None |};
         {| Sht31.write_done := true;
            Sht31.read_done := Some [0x66; 0x1A; 0x16; 0x7F; 0xFF; 0x8F] |} ])
  = u32 (7 + failed_reads
               {| Sht31.sensorPresent := true; Sht31.fallbackReadCount := 7 |}
               [ {| Sht31.write_done := true;
                    Sht31.read_done := Some [0x66; 0x1A; 0x16; 0x7F; 0xFF; 0x8F] |};
                 {| Sht31.write_done := true;
                    Sht31.read_done := Some [0x66; 0x1A; 0x17; 0x7F; 0xFF; 0x8F] |};
                 {| Sht31.write_done := false; Sht31.read_done := None |};
                 {| Sht31.write_done := true;
                    Sht31.read_done := Some [0x66; 0x1A; 0x16; 0x7F; 0xFF; 0x8F] |} ]).
Proof.
  apply (fallback_counter_counts_failed_reads _
           {| Sht31.sensorPresent := true; Sht31.fallbackReadCount := 7 |}).
  cbn. lia.
Defined.

(** ** Theorems: from the button to the stack *)

Lemma gpio_edge_exec e w :
  App.exec App.button_gpio_callback e w
  = {| App.appContext := App.appContext w;
       App.sensor := App.sensor w;
       App.buttonContext := Button.button_gpio_callback (App.buttonContext w);
       App.calls := App.calls w |}.
Proof. reflexivity. Qed.

(** One event of a session whose state is written out: the interrupt
    sets the flag, a pass of the main loop runs the driver and then the
    callbacks it asked for. *)
Ltac session_step :=
  match goal with
  | |- context [App.exec App.button_gpio_callback ?e
                  {| App.appContext := ?a; App.sensor := ?s;
                     App.buttonContext := ?b; App.calls := ?c |}] =>
      rewrite (gpio_edge_exec e
                 {| App.appContext := a; App.sensor := s;
                    App.buttonContext := b; App.calls := c |})
  | |- context [App.exec App.app_process_action ?e
                  {| App.appContext := ?a; App.sensor := ?s;
                     App.buttonContext := ?b; App.calls := ?c |}] =>
      rewrite (main_tick_exec e
                 {| App.appContext := a; App.sensor := s;
                    App.buttonContext := b; App.calls := c |})
  end;
  cbn [App.appContext App.sensor App.buttonContext App.calls
       App.tick_ms App.pin_pressed];
  button_eval;
  cbn [App.button_callbacks App.button_callback App.exec App.ret snd].

(** X23: from the button to the stack.  In NOT_JOINED with the button at
    rest, a clean short press seen through the
    interrupt and four passes of the main loop (press seen at [t0],
    confirmed at [t1 >= t0 + 50], release seen at [t2 < t0 + 3000],
    debounced at [t3 >= t2 + 50], the stack then not joined) calls
    [emberAfPluginNetworkSteeringStart] exactly once, at the last pass,
    and nothing else; the session is then in JOINING if the call
    succeeded and in NOT_JOINED if it failed. *)
Theorem short_press_starts_join :
  forall w e1 e2 e3 e4 e5 e6,
    App.state (App.appContext w) = App.APP_STATE_NOT_JOINED ->
    at_rest (App.buttonContext w) ->
    App.pin_pressed e2 = true -> App.pin_pressed e3 = true ->
    App.pin_pressed e5 = false -> App.pin_pressed e6 = false ->
    50 <= App.tick_ms e3 - App.tick_ms e2 ->
    App.tick_ms e3 <= App.tick_ms e5 ->
    App.tick_ms e5 - App.tick_ms e2 < 3000 ->
    50 <= App.tick_ms e6 - App.tick_ms e5 < 4294967296 ->
    stack_joined e6 = false ->
    let w' := App.run w [ (App.gpio_edge, e1);
                          (App.emberAfMainTickCallback, e2);
                          (App.emberAfMainTickCallback, e3);
                          (App.gpio_edge, e4);
                          (App.emberAfMainTickCallback, e5);
                          (App.emberAfMainTickCallback, e6) ] in
    App.calls w' = App.calls w ++ [Af.emberAfPluginNetworkSteeringStart] /\
    App.state (App.appContext w')
      = (if App.is_success (App.steering_status e6)
         then App.APP_STATE_JOINING else App.APP_STATE_NOT_JOINED) /\
    at_rest (App.buttonContext w').
Proof.
  intros w e1 e2 e3 e4 e5 e6 Hst [Hbst Hpend] P2 P3 P5 P6 T1 T2 T3 T4 Hnet w'.
  destruct w as [[st fp ts ja si bp] sn [bst p r pend long] cs].
  cbn in Hst, Hbst, Hpend. subst st bst pend.
  destruct e2 as [ns2 ss2 ls2 rd2 bus2 adc2 t0 pin2].
  destruct e3 as [ns3 ss3 ls3 rd3 bus3 adc3 t1 pin3].
  destruct e5 as [ns5 ss5 ls5 rd5 bus5 adc5 t2 pin5].
  destruct e6 as [ns6 ss6 ls6 rd6 bus6 adc6 t3 pin6].
  unfold stack_joined in Hnet.
  cbn in P2, P3, P5, P6, T1, T2, T3, T4, Hnet. subst pin2 pin3 pin5 pin6.
  unfold w', at_rest. cbn [App.run App.handle].
  do 6 session_step.
  destruct ns6; try discriminate Hnet;
    app_unfold; cbn;
    destruct (App.is_success ss6); cbn; repeat split.
Qed.

Lemma short_press_starts_join_witness :
  App.calls
    (App.run (App.boot env_idle)
       [ (App.gpio_edge, at_ms 1000 true env_idle);
         (App.emberAfMainTickCallback, at_ms 1000 true env_idle);
         (App.emberAfMainTickCallback, at_ms 1050 true env_idle);
         (App.gpio_edge, at_ms 1300 false env_idle);
         (App.emberAfMainTickCallback, at_ms 1300 false env_idle);
         (App.emberAfMainTickCallback, at_ms 1350 false env_idle) ])
  = App.calls (App.boot env_idle) ++ [Af.emberAfPluginNetworkSteeringStart].
Proof.
  apply (short_press_starts_join (App.boot env_idle));
    try reflexivity; try (split; reflexivity); cbn; lia.
Defined.
